(** * Clarion: contact extraction and the query-orchestration cascade

    A shallow embedding of [agents/resource_agent.py] (the contact
    extractor), [agents/orchestrator.py] (query analysis, routing and the
    local responder) and [agents/rescue_agent.py] (the rescue handler),
    followed by the properties of the specification that are stated about
    them.

    Text is a [string]: a sequence of code points below 256.  The
    character classes of Python's [str] and [re] are written out for that
    range. *)

From Stdlib Require Import Bool Arith ZArith List String Ascii Lia Floats.
From Stdlib Require Import DecimalString Sorted.
Import ListNotations.
Open Scope string_scope.
Open Scope list_scope.
Open Scope nat_scope.
Set Warnings "-register-all,-abstract-large-number,-inexact-float".

(* ================================================================== *)
(** ** Python strings *)

Module Py.

Definition code (c : ascii) : nat := nat_of_ascii c.

Definition between (lo hi : nat) (c : ascii) : bool :=
  (lo <=? code c) && (code c <=? hi).

(** [c.isdigit()] as [\d] sees it below 256. *)
Definition isdigit (c : ascii) : bool := between 48 57 c.

(** [c.isspace()], which is also [\s]: TAB..CR, FS..US, space, NEL, NBSP. *)
Definition isspace (c : ascii) : bool :=
  between 9 13 c || between 28 32 c || (code c =? 133) || (code c =? 160).

Definition isalpha_ascii (c : ascii) : bool :=
  between 65 90 c || between 97 122 c.

(** The letters and digit-like characters of Latin-1 that [\w] accepts. *)
Definition isalnum_latin1 (c : ascii) : bool :=
  (code c =? 170) || (code c =? 178) || (code c =? 179) || (code c =? 181)
  || (code c =? 185) || (code c =? 186) || between 188 190 c
  || between 192 214 c || between 216 246 c || between 248 255 c.

(** [\w] *)
Definition isword (c : ascii) : bool :=
  isalpha_ascii c || isdigit c || (code c =? 95) || isalnum_latin1 c.

(** [c.lower()] *)
Definition lower_char (c : ascii) : ascii :=
  if between 65 90 c || (between 192 222 c && negb (code c =? 215))
  then ascii_of_nat (code c + 32) else c.

Definition chars (s : string) : list ascii := list_ascii_of_string s.
Definition str (l : list ascii) : string := string_of_list_ascii l.

(** [c.upper()]; the sharp s becomes two letters.  The two letters of
    this range whose capitals lie above 255, the micro sign and y with
    diaeresis, are left as they are. *)
Definition upper_char (c : ascii) : string :=
  if between 97 122 c || (between 224 254 c && negb (code c =? 247))
  then String (ascii_of_nat (code c - 32)) EmptyString
  else if code c =? 223 then "SS"
  else String c EmptyString.

(** [s.lower()] *)
Fixpoint lower (s : string) : string :=
  match s with
  | EmptyString => EmptyString
  | String c t => String (lower_char c) (lower t)
  end.

Fixpoint lstrip_chars (l : list ascii) : list ascii :=
  match l with
  | c :: t => if isspace c then lstrip_chars t else l
  | [] => []
  end.

(** [s.upper()] *)
Fixpoint upper (s : string) : string :=
  match s with
  | EmptyString => EmptyString
  | String c t => (upper_char c ++ upper t)%string
  end.

(** [s.replace(a, b)] for one-character [a] and [b] *)
Fixpoint replace_char (a b : ascii) (s : string) : string :=
  match s with
  | EmptyString => EmptyString
  | String c t => String (if Ascii.eqb c a then b else c) (replace_char a b t)
  end.

(** [s.strip()] *)
Definition strip (s : string) : string :=
  str (rev (lstrip_chars (rev (lstrip_chars (chars s))))).

(** [sub in s] *)
Fixpoint contains (s sub : string) : bool :=
  String.prefix sub s
  || match s with
     | EmptyString => false
     | String _ t => contains t sub
     end.

(** [any(w in s for w in words)] *)
Definition any_in (s : string) (words : list string) : bool :=
  existsb (contains s) words.

(** [s.split(sep)] for a one-character separator. *)
Fixpoint split_on (sep : ascii) (s : string) : list string :=
  match s with
  | EmptyString => [EmptyString]
  | String c t =>
      if Ascii.eqb c sep then EmptyString :: split_on sep t
      else match split_on sep t with
           | w :: ws => String c w :: ws
           | [] => [String c EmptyString]
           end
  end.

(** [sep.join(parts)] *)
Fixpoint join (sep : string) (parts : list string) : string :=
  match parts with
  | [] => EmptyString
  | [p] => p
  | p :: ps => (p ++ sep ++ join sep ps)%string
  end.

(** [s.startswith(p)] *)
Definition startswith (s p : string) : bool := String.prefix p s.

Definition mem (x : string) (l : list string) : bool :=
  existsb (String.eqb x) l.

(** One key of [dict.fromkeys]: a key already present keeps its place. *)
Definition add_key (seen : list string) (x : string) : list string :=
  if mem x seen then seen else seen ++ [x].

(** [list(dict.fromkeys(l))] *)
Definition fromkeys (l : list string) : list string :=
  fold_left add_key l [].

(** The position of the first [x] in [l]. *)
Fixpoint first_index (x : string) (l : list string) : option nat :=
  match l with
  | [] => None
  | y :: t => if String.eqb x y then Some 0
              else option_map S (first_index x t)
  end.

Definition nl : string := String "010"%char EmptyString.
Definition dq : string := String "034"%char EmptyString.

(** A literal written with a backtick where the source text has a double
    quote. *)
Fixpoint qq (s : string) : string :=
  match s with
  | EmptyString => EmptyString
  | String c t => String (if Ascii.eqb c "`"%char then "034"%char else c) (qq t)
  end.

End Py.

(* ================================================================== *)
(** ** Regular expressions, matched as [re] matches them *)

Module Re.

Inductive re : Type :=
| Eps
| Chr (p : ascii -> bool)
| Cat (a b : re)
| Alt (a b : re)
| Rep (greedy : bool) (lo : nat) (hi : option nat) (a : re)
| Grp (i : nat) (a : re)
| Bol
| WordB
| NotAhead (a : re)
| NotBehind (w : nat) (a : re).

(** A position in the subject: the text before it (nearest character
    first) and the text after it. *)
Record cursor : Type := Cursor { before : list ascii; after : list ascii }.

Definition caps : Type := list (nat * list ascii).
Definition answer : Type := option (cursor * caps).
Definition cont : Type := cursor -> caps -> answer.

Definition consumed (z z' : cursor) : list ascii :=
  rev (firstn (List.length (before z') - List.length (before z)) (before z')).

Definition at_word_boundary (z : cursor) : bool :=
  let l := match before z with c :: _ => Py.isword c | [] => false end in
  let r := match after z with c :: _ => Py.isword c | [] => false end in
  xorb l r.

Definition under (hi : option nat) (n : nat) : bool :=
  match hi with Some h => n <? h | None => true end.

Definition or_else (x : answer) (y : unit -> answer) : answer :=
  match x with Some _ => x | None => y tt end.

(** The rounds of a repetition of [body], [n] of them done: a greedy one
    tries one more round first, a lazy one tries to stop first.  A round
    has to consume input, so the rounds left are at most the characters
    left, which [fuel] starts at. *)
Fixpoint rounds (body : cursor -> caps -> cont -> answer)
  (greedy : bool) (lo : nat) (hi : option nat) (k : cont)
  (fuel n : nat) (z : cursor) (g : caps) {struct fuel} : answer :=
  let more (_ : unit) : answer :=
    match fuel with
    | 0 => None
    | S f =>
        if under hi n
        then body z g (fun z' g' =>
               if List.length (after z') <? List.length (after z)
               then rounds body greedy lo hi k f (S n) z' g' else None)
        else None
    end in
  let stop (_ : unit) : answer := if lo <=? n then k z g else None in
  if greedy then or_else (more tt) stop else or_else (stop tt) more.

(** Backtracking matcher in continuation-passing style: the alternatives
    of a choice are tried in order. *)
Fixpoint run (r : re) (z : cursor) (g : caps) (k : cont) {struct r} : answer :=
  match r with
  | Eps => k z g
  | Chr p =>
      match after z with
      | c :: t => if p c then k (Cursor (c :: before z) t) g else None
      | [] => None
      end
  | Cat a b => run a z g (fun z' g' => run b z' g' k)
  | Alt a b => or_else (run a z g k) (fun _ => run b z g k)
  | Rep greedy lo hi a =>
      rounds (run a) greedy lo hi k (List.length (after z)) 0 z g
  | Grp i a => run a z g (fun z' g' => k z' ((i, consumed z z') :: g'))
  | Bol => match before z with [] => k z g | _ :: _ => None end
  | WordB => if at_word_boundary z then k z g else None
  | NotAhead a =>
      match run a z g (fun z' g' => Some (z', g')) with
      | Some _ => None
      | None => k z g
      end
  | NotBehind w a =>
      if List.length (before z) <? w then k z g
      else
        let z0 := Cursor (skipn w (before z))
                         (rev (firstn w (before z)) ++ after z) in
        match run a z0 g (fun z' g' =>
                if List.length (after z') =? List.length (after z)
                then Some (z', g') else None) with
        | Some _ => None
        | None => k z g
        end
  end.

Definition accept : cont := fun z g => Some (z, g).

(** A match: where it starts, where it ends, the groups. *)
Record hit : Type := Hit { start : cursor; stop : cursor; groups : caps }.

Definition whole (h : hit) : string := Py.str (consumed (start h) (stop h)).

Fixpoint lookup (i : nat) (g : caps) : option (list ascii) :=
  match g with
  | [] => None
  | (j, s) :: t => if i =? j then Some s else lookup i t
  end.

(** [m.group(i)] of a group that took part; [findall] gives [''] for one
    that did not. *)
Definition group (i : nat) (h : hit) : string :=
  match lookup i (groups h) with
  | Some s => Py.str s
  | None => EmptyString
  end.

Definition match_at (r : re) (z : cursor) : option hit :=
  match run r z [] accept with
  | Some (z', g) => Some (Hit z z' g)
  | None => None
  end.

Fixpoint search_from (r : re) (prev rest : list ascii) : option hit :=
  match match_at r (Cursor prev rest) with
  | Some h => Some h
  | None =>
      match rest with
      | [] => None
      | c :: t => search_from r (c :: prev) t
      end
  end.

(** [re.search(r, s)] *)
Definition search (r : re) (s : string) : option hit :=
  search_from r [] (Py.chars s).

Definition found (r : re) (s : string) : bool :=
  match search r s with Some _ => true | None => false end.

(** [re.fullmatch(r, s)] *)
Definition fullmatch (r : re) (s : string) : bool :=
  match run r (Cursor [] (Py.chars s)) []
          (fun z g => match after z with [] => Some (z, g) | _ => None end) with
  | Some _ => true
  | None => false
  end.

(** The successive non-overlapping matches, left to right.  After an empty
    match the scan moves on by one character. *)
Fixpoint finditer_from (fuel : nat) (r : re) (prev rest : list ascii)
  : list hit :=
  match fuel with
  | 0 => []
  | S f =>
      let step :=
        match rest with
        | [] => []
        | c :: t => finditer_from f r (c :: prev) t
        end in
      match match_at r (Cursor prev rest) with
      | Some h =>
          if List.length (after (stop h)) <? List.length rest
          then h :: finditer_from f r (before (stop h)) (after (stop h))
          else h :: step
      | None => step
      end
  end.

Definition finditer (r : re) (s : string) : list hit :=
  finditer_from (S (String.length s)) r [] (Py.chars s).

(** [re.findall(r, s)] for a pattern without groups. *)
Definition findall (r : re) (s : string) : list string :=
  map whole (finditer r s).

(** [re.findall(r, s)] for a pattern with exactly one group: the list of
    what the group holds, [''] for a match in which it took no part. *)
Definition findall1 (r : re) (s : string) : list string :=
  map (group 1) (finditer r s).

(** [re.split(r, s)] for a pattern without groups. *)
Fixpoint pieces (hs : list hit) (from : nat) (s : list ascii) : list string :=
  match hs with
  | [] => [Py.str (skipn from s)]
  | h :: t =>
      let a := List.length (before (start h)) in
      let b := List.length (before (stop h)) in
      Py.str (firstn (a - from) (skipn from s)) :: pieces t b s
  end.

Definition split (r : re) (s : string) : list string :=
  pieces (filter (fun h => List.length (before (start h)) <? List.length (before (stop h)))
                 (finditer r s)) 0 (Py.chars s).

(** [re.sub(r'[class]', '', s)] for a one-character class. *)
Fixpoint remove (p : ascii -> bool) (s : string) : string :=
  match s with
  | EmptyString => EmptyString
  | String c t => if p c then remove p t else String c (remove p t)
  end.

(** *** Pattern syntax *)

Definition chr (c : ascii) : re := Chr (Ascii.eqb c).
Definition chr_i (c : ascii) : re :=
  Chr (fun x => Ascii.eqb (Py.lower_char x) (Py.lower_char c)).

Fixpoint seqs (l : list re) : re :=
  match l with
  | [] => Eps
  | [a] => a
  | a :: t => Cat a (seqs t)
  end.

Fixpoint alts (l : list re) : re :=
  match l with
  | [] => Eps
  | [a] => a
  | a :: t => Alt a (alts t)
  end.

Definition lit (s : string) : re := seqs (map chr (Py.chars s)).
Definition lit_i (s : string) : re := seqs (map chr_i (Py.chars s)).

Definition opt (a : re) : re := Rep true 0 (Some 1) a.
Definition star (a : re) : re := Rep true 0 None a.
Definition plus (a : re) : re := Rep true 1 None a.
Definition lazy_star (a : re) : re := Rep false 0 None a.
Definition times (n : nat) (a : re) : re := Rep true n (Some n) a.
Definition range (lo hi : nat) (a : re) : re := Rep true lo (Some hi) a.
Definition at_least (lo : nat) (a : re) : re := Rep true lo None a.

Definition digit : re := Chr Py.isdigit.
Definition space : re := Chr Py.isspace.
Definition word : re := Chr Py.isword.
Definition dot : re := Chr (fun c => negb (Ascii.eqb c "010"%char)).
Definition one_of (p : ascii -> bool) : re := Chr p.

End Re.

(* ================================================================== *)
(** ** Python values, dictionaries and exceptions *)

Module Value.

(** What [json.loads] can produce and what the agents pass around.  A
    dictionary keeps its insertion order. *)
Inductive value : Type :=
| VNone
| VBool (b : bool)
| VInt (z : Z)
| VFloat (f : float)
| VStr (s : string)
| VList (l : list value)
| VDict (d : list (string * value)).

Definition dict : Type := list (string * value).

(** [d.get(k)] as an option, [d.get(k, default)], [k in d]. *)
Fixpoint get (d : dict) (k : string) : option value :=
  match d with
  | [] => None
  | (k', v) :: t => if String.eqb k k' then Some v else get t k
  end.

Definition get_or (d : dict) (k : string) (default : value) : value :=
  match get d k with Some v => v | None => default end.

Definition has_key (d : dict) (k : string) : bool :=
  match get d k with Some _ => true | None => false end.

(** [d[k] = v]: an existing key keeps its place. *)
Fixpoint set (d : dict) (k : string) (v : value) : dict :=
  match d with
  | [] => [(k, v)]
  | (k', v') :: t =>
      if String.eqb k k' then (k', v) :: t else (k', v') :: set t k v
  end.

(** [bool(v)] *)
Definition truthy (v : value) : bool :=
  match v with
  | VNone => false
  | VBool b => b
  | VInt z => negb (z =? 0)%Z
  | VFloat f => negb (PrimFloat.eqb f 0%float)
  | VStr EmptyString => false
  | VStr (String _ _) => true
  | VList [] => false
  | VList (_ :: _) => true
  | VDict [] => false
  | VDict (_ :: _) => true
  end.

(** [v == s] for a string [s] *)
Definition eq_str (v : value) (s : string) : bool :=
  match v with VStr s' => String.eqb s' s | _ => false end.

(** [type(v).__name__] *)
Definition type_name (v : value) : string :=
  match v with
  | VNone => "NoneType" | VBool _ => "bool" | VInt _ => "int"
  | VFloat _ => "float" | VStr _ => "str" | VList _ => "list"
  | VDict _ => "dict"
  end.

Definition strs (l : list string) : value := VList (map VStr l).

(** An exception: its class and [str(e)]. *)
Inductive exn : Type := Exn (kind : string) (msg : string).

Definition message (e : exn) : string := let (_, m) := e in m.

Inductive outcome (A : Type) : Type :=
| Ok (a : A)
| Raise (e : exn).
Arguments Ok {A} a.
Arguments Raise {A} e.

Definition no_attribute (v : value) (attr : string) : exn :=
  Exn "AttributeError"
      ("'" ++ type_name v ++ "' object has no attribute '" ++ attr ++ "'")%string.

Definition key_error (k : string) : exn :=
  Exn "KeyError" ("'" ++ k ++ "'")%string.

Definition of_nat (n : nat) : string :=
  NilZero.string_of_uint (Nat.to_uint n).

Definition of_Z (z : Z) : string :=
  NilZero.string_of_int (Z.to_int z).

(** [str(v)], as an f-string field renders it.  For a float and for a
    container that is [repr], which is left to the parameter [repr]. *)
Definition format (repr : value -> string) (v : value) : string :=
  match v with
  | VStr s => s
  | VNone => "None"
  | VBool true => "True"
  | VBool false => "False"
  | VInt z => of_Z z
  | _ => repr v
  end.

(** *** Exceptions threaded through a computation *)

Definition bind {A B : Type} (x : outcome A) (k : A -> outcome B) : outcome B :=
  match x with
  | Ok a => k a
  | Raise e => Raise e
  end.

Notation "x <- e ;; k" := (bind e (fun x => k))
  (at level 61, e at next level, right associativity).

(** [for x in l: out += f(x)], stopping at the first exception. *)
Fixpoint each {A B : Type} (f : A -> outcome (list B)) (l : list A)
  : outcome (list B) :=
  match l with
  | [] => Ok []
  | x :: t => ys <- f x ;; zs <- each f t ;; Ok (ys ++ zs)
  end.

Definition not_iterable (v : value) : exn :=
  Exn "TypeError"
      ("argument of type '" ++ type_name v ++ "' is not iterable")%string.

(** [v.get(k, default)] on a value that may not be a dictionary. *)
Definition attr_get (v : value) (k : string) (default : value) : outcome value :=
  match v with
  | VDict d => Ok (get_or d k default)
  | _ => Raise (no_attribute v "get")
  end.

(** [k in v] *)
Definition py_in (k : string) (v : value) : outcome bool :=
  match v with
  | VDict d => Ok (has_key d k)
  | VStr s => Ok (Py.contains s k)
  | VList l => Ok (existsb (fun x => eq_str x k) l)
  | _ => Raise (not_iterable v)
  end.

(** [v[k]] for a string [k] *)
Definition subscript (v : value) (k : string) : outcome value :=
  match v with
  | VDict d => match get d k with
               | Some x => Ok x
               | None => Raise (key_error k)
               end
  | VStr _ => Raise (Exn "TypeError" "string indices must be integers")
  | VList _ =>
      Raise (Exn "TypeError" "list indices must be integers or slices, not str")
  | _ => Raise (Exn "TypeError"
                    ("'" ++ type_name v ++ "' object is not subscriptable")%string)
  end.

(** [for x in v] *)
Definition iterate (v : value) : outcome (list value) :=
  match v with
  | VList l => Ok l
  | VDict d => Ok (map (fun kv => VStr (fst kv)) d)
  | VStr s => Ok (map (fun c => VStr (String c EmptyString)) (Py.chars s))
  | _ => Raise (Exn "TypeError"
                    ("'" ++ type_name v ++ "' object is not iterable")%string)
  end.

(** [v[:n]] *)
Definition slice_to (n : nat) (v : value) : outcome value :=
  match v with
  | VList l => Ok (VList (firstn n l))
  | VStr s => Ok (VStr (String.substring 0 n s))
  | VDict _ => Raise (Exn "TypeError" "unhashable type: 'slice'")
  | _ => Raise (Exn "TypeError"
                    ("'" ++ type_name v ++ "' object is not subscriptable")%string)
  end.

(** [v.lower()] and [v.replace(a, b).upper()] on a value that may not be a
    string. *)
Definition str_lower (v : value) : outcome string :=
  match v with
  | VStr s => Ok (Py.lower s)
  | _ => Raise (no_attribute v "lower")
  end.

(** [sep.join(items)] *)
Fixpoint join_values (sep : string) (i : nat) (items : list value)
  : outcome string :=
  match items with
  | [] => Ok EmptyString
  | x :: t =>
      match x with
      | VStr s =>
          match t with
          | [] => Ok s
          | _ :: _ => r <- join_values sep (S i) t ;; Ok (s ++ sep ++ r)%string
          end
      | _ => Raise (Exn "TypeError"
                        ("sequence item " ++ of_nat i
                         ++ ": expected str instance, " ++ type_name x
                         ++ " found")%string)
      end
  end.

End Value.

(* ================================================================== *)
(** ** Reference readings of [repr] and of the [json] module

    The agents below are stated over any [repr], [json.loads] and
    [json.dumps]; the definitions here are the instances the concrete
    runs are computed with. *)

Module Builtins.
Import Value.

Definition float_of_Z (z : Z) : float :=
  PrimFloat.of_uint63 (Uint63.of_Z z).

Fixpoint pow10 (n : nat) : float :=
  match n with
  | 0 => 1%float
  | S m => (pow10 m * 10)%float
  end.

(** [m * 10^e] as a float: one rounding, hence the nearest float, when
    [m] is below [2^53] and [e] is between [-22] and [22]. *)
Definition decimal (m e : Z) : float :=
  if (0 <=? e)%Z then (float_of_Z m * pow10 (Z.to_nat e))%float
  else (float_of_Z m / pow10 (Z.to_nat (- e)))%float.

(** The integer nearest to [|f| * 10^k]. *)
Definition scaled (f : float) (k : nat) : Z :=
  match Prim2SF (PrimFloat.abs f) with
  | S754_finite _ m e =>
      let n := (Zpos m * 10 ^ Z.of_nat k)%Z in
      if (0 <=? e)%Z then (n * 2 ^ e)%Z
      else ((2 * n + 2 ^ (- e)) / 2 ^ (1 - e))%Z
  | _ => 0%Z
  end.

Fixpoint zeros (n : nat) : string :=
  match n with 0 => EmptyString | S m => String "0"%char (zeros m) end.

(** [n / 10^k] written with [k] decimals. *)
Definition fixed (n : Z) (k : nat) : string :=
  let d := of_Z n in
  let d := (zeros (S k - String.length d) ++ d)%string in
  let i := String.length d - k in
  (String.substring 0 i d ++ "." ++ String.substring i k d)%string.

Fixpoint shortest (fuel k : nat) (f : float) : string :=
  match fuel with
  | 0 => fixed (scaled f k) k
  | S fuel' =>
      if PrimFloat.eqb (decimal (scaled f k) (- Z.of_nat k)) (PrimFloat.abs f)
      then fixed (scaled f k) k
      else shortest fuel' (S k) f
  end.

(** [repr] of a float whose magnitude is between [1e-4] and [1e16], where
    Python prints the shortest decimal that reads back, without exponent. *)
Definition float_repr (f : float) : string :=
  if PrimFloat.is_nan f then "nan"
  else if PrimFloat.is_infinity f
  then (if PrimFloat.get_sign f then "-inf" else "inf")
  else ((if PrimFloat.get_sign f then "-" else EmptyString)
        ++ shortest 16 1 f)%string.

Definition hex_digit (n : nat) : ascii :=
  if n <? 10 then ascii_of_nat (48 + n) else ascii_of_nat (87 + n).

Definition hex2 (c : ascii) : string :=
  String (hex_digit (Py.code c / 16))
         (String (hex_digit (Py.code c mod 16)) EmptyString).

Definition has_char (c : ascii) (s : string) : bool :=
  existsb (Ascii.eqb c) (Py.chars s).

Definition printable (c : ascii) : bool :=
  Py.between 32 126 c || (Py.between 161 255 c && negb (Py.code c =? 173)).

Fixpoint escaped (quote : ascii) (s : string) : string :=
  match s with
  | EmptyString => EmptyString
  | String c t =>
      ((if Ascii.eqb c "\"%char then "\\"
        else if Ascii.eqb c quote then String "\"%char (String c EmptyString)
        else if Ascii.eqb c "009"%char then "\t"
        else if Ascii.eqb c "010"%char then "\n"
        else if Ascii.eqb c "013"%char then "\r"
        else if printable c then String c EmptyString
        else "\x" ++ hex2 c) ++ escaped quote t)%string
  end.

(** [repr] of a string: single quotes, unless it holds one and no double
    quote. *)
Definition str_repr (s : string) : string :=
  let quote :=
    if has_char "'"%char s && negb (has_char "034"%char s)
    then "034"%char else "'"%char in
  String quote (escaped quote s ++ String quote EmptyString).

Fixpoint repr (v : value) : string :=
  match v with
  | VNone => "None"
  | VBool true => "True"
  | VBool false => "False"
  | VInt z => of_Z z
  | VFloat f => float_repr f
  | VStr s => str_repr s
  | VList l =>
      ("[" ++ Py.join ", "
         ((fix each (l : list value) : list string :=
             match l with
             | [] => []
             | x :: t => repr x :: each t
             end) l) ++ "]")%string
  | VDict d =>
      ("{" ++ Py.join ", "
         ((fix each (d : list (string * value)) : list string :=
             match d with
             | [] => []
             | (k, x) :: t => (str_repr k ++ ": " ++ repr x)%string :: each t
             end) d) ++ "}")%string
  end.

End Builtins.

(* ================================================================== *)
(** ** [json.loads] and [json.dumps], reference reading

    The parser covers objects, arrays, strings with the one-letter
    escapes and [\u00XX], integers, and the literals; a number with a
    fraction or an exponent is read with one float operation on its
    digits and its power of ten. *)

Module Json.
Import Value.

Definition is_ws (c : ascii) : bool :=
  Ascii.eqb c " "%char || Ascii.eqb c "009"%char
  || Ascii.eqb c "010"%char || Ascii.eqb c "013"%char.

Fixpoint skip_ws (l : list ascii) : list ascii :=
  match l with
  | c :: t => if is_ws c then skip_ws t else l
  | [] => []
  end.

Fixpoint take_digits (l : list ascii) : list ascii * list ascii :=
  match l with
  | c :: t => if Py.isdigit c
              then let (d, r) := take_digits t in (c :: d, r)
              else ([], l)
  | [] => ([], [])
  end.

Definition digit_val (c : ascii) : Z := Z.of_nat (Py.code c - 48).

Definition digits_Z (d : list ascii) : Z :=
  fold_left (fun acc c => (acc * 10 + digit_val c)%Z) d 0%Z.

Definition hex_val (c : ascii) : option nat :=
  if Py.isdigit c then Some (Py.code c - 48)
  else if Py.between 97 102 c then Some (Py.code c - 87)
  else if Py.between 65 70 c then Some (Py.code c - 55)
  else None.

(** The body of a string literal, after the opening quote. *)
Fixpoint string_body (l : list ascii) : option (string * list ascii) :=
  match l with
  | [] => None
  | c :: t =>
      if Ascii.eqb c "034"%char then Some (EmptyString, t)
      else if Py.code c <? 32 then None
      else if Ascii.eqb c "\"%char then
        match t with
        | e :: t' =>
            let simple (x : ascii) :=
              match string_body t' with
              | Some (s, r) => Some (String x s, r)
              | None => None
              end in
            if Ascii.eqb e "034"%char then simple "034"%char
            else if Ascii.eqb e "\"%char then simple "\"%char
            else if Ascii.eqb e "/"%char then simple "/"%char
            else if Ascii.eqb e "b"%char then simple "008"%char
            else if Ascii.eqb e "f"%char then simple "012"%char
            else if Ascii.eqb e "n"%char then simple "010"%char
            else if Ascii.eqb e "r"%char then simple "013"%char
            else if Ascii.eqb e "t"%char then simple "009"%char
            else if Ascii.eqb e "u"%char then
              match t' with
              | a :: b :: c1 :: c2 :: t'' =>
                  match hex_val a, hex_val b, hex_val c1, hex_val c2 with
                  | Some 0, Some 0, Some h, Some l0 =>
                      match string_body t'' with
                      | Some (s, r) => Some (String (ascii_of_nat (16 * h + l0)) s, r)
                      | None => None
                      end
                  | _, _, _, _ => None
                  end
              | _ => None
              end
            else None
        | [] => None
        end
      else
        match string_body t with
        | Some (s, r) => Some (String c s, r)
        | None => None
        end
  end.

(** A number at the head of [l]: an optional sign, an integer part
    without a leading zero, an optional fraction, an optional exponent. *)
Definition number (l : list ascii) : option (value * list ascii) :=
  let (neg, l1) :=
    match l with
    | c :: t => if Ascii.eqb c "-"%char then (true, t) else (false, l)
    | [] => (false, l)
    end in
  let (ip, l2) :=
    match l1 with
    | c :: t => if Ascii.eqb c "0"%char then ([c], t) else take_digits l1
    | [] => ([], [])
    end in
  match ip with
  | [] => None
  | _ :: _ =>
      let (fp, l3) :=
        match l2 with
        | c :: t =>
            if Ascii.eqb c "."%char
            then match take_digits t with
                 | ([], _) => ([], l2)
                 | (d, r) => (d, r)
                 end
            else ([], l2)
        | [] => ([], l2)
        end in
      let '(ex, l4) :=
        match l3 with
        | c :: t =>
            if Ascii.eqb c "e"%char || Ascii.eqb c "E"%char then
              let (up, t1) :=
                match t with
                | s :: t' => if Ascii.eqb s "+"%char then (true, t')
                             else if Ascii.eqb s "-"%char then (false, t')
                             else (true, t)
                | [] => (true, t)
                end in
              match take_digits t1 with
              | ([], _) => (None, l3)
              | (d, r) => (Some (if up then digits_Z d else - digits_Z d)%Z, r)
              end
            else (None, l3)
        | [] => (None, l3)
        end in
      match fp, ex with
      | [], None =>
          Some (VInt (if neg then - digits_Z ip else digits_Z ip)%Z, l4)
      | _, _ =>
          let e := (match ex with Some x => x | None => 0 end
                    - Z.of_nat (List.length fp))%Z in
          let m := Builtins.decimal (digits_Z (ip ++ fp)) e in
          Some (VFloat (if neg then - m else m)%float, l4)
      end
  end.

Fixpoint strip_prefix (p l : list ascii) : option (list ascii) :=
  match p, l with
  | [], _ => Some l
  | a :: p', b :: l' => if Ascii.eqb a b then strip_prefix p' l' else None
  | _ :: _, [] => None
  end.

Definition word (w : string) (v : value) (l : list ascii)
  : option (value * list ascii) :=
  match strip_prefix (Py.chars w) l with
  | Some r => Some (v, r)
  | None => None
  end.

Definition first_some {A : Type} (x : option A) (y : option A) : option A :=
  match x with Some _ => x | None => y end.

Fixpoint parse_value (fuel : nat) (l : list ascii) {struct fuel}
  : option (value * list ascii) :=
  match fuel with
  | 0 => None
  | S f =>
      match l with
      | [] => None
      | c :: t =>
          if Ascii.eqb c "{"%char then
            match skip_ws t with
            | c' :: t' =>
                if Ascii.eqb c' "}"%char then Some (VDict [], t')
                else match parse_members f [] (c' :: t') with
                     | Some (d, r) => Some (VDict d, r)
                     | None => None
                     end
            | [] => None
            end
          else if Ascii.eqb c "["%char then
            match skip_ws t with
            | c' :: t' =>
                if Ascii.eqb c' "]"%char then Some (VList [], t')
                else match parse_elements f (c' :: t') with
                     | Some (vs, r) => Some (VList vs, r)
                     | None => None
                     end
            | [] => None
            end
          else if Ascii.eqb c "034"%char then
            match string_body t with
            | Some (s, r) => Some (VStr s, r)
            | None => None
            end
          else
            first_some (word "null" VNone l)
           (first_some (word "true" (VBool true) l)
           (first_some (word "false" (VBool false) l)
           (first_some (word "NaN" (VFloat nan) l)
           (first_some (word "Infinity" (VFloat infinity) l)
           (first_some (word "-Infinity" (VFloat neg_infinity) l)
                       (number l))))))
      end
  end

with parse_members (fuel : nat) (acc : dict) (l : list ascii) {struct fuel}
  : option (dict * list ascii) :=
  match fuel with
  | 0 => None
  | S f =>
      match l with
      | q :: t =>
          if Ascii.eqb q "034"%char then
            match string_body t with
            | Some (k, r) =>
                match skip_ws r with
                | c :: r1 =>
                    if Ascii.eqb c ":"%char then
                      match parse_value f (skip_ws r1) with
                      | Some (v, r2) =>
                          let acc' := set acc k v in
                          match skip_ws r2 with
                          | c2 :: r3 =>
                              if Ascii.eqb c2 "}"%char then Some (acc', r3)
                              else if Ascii.eqb c2 ","%char
                              then parse_members f acc' (skip_ws r3)
                              else None
                          | [] => None
                          end
                      | None => None
                      end
                    else None
                | [] => None
                end
            | None => None
            end
          else None
      | [] => None
      end
  end

with parse_elements (fuel : nat) (l : list ascii) {struct fuel}
  : option (list value * list ascii) :=
  match fuel with
  | 0 => None
  | S f =>
      match parse_value f l with
      | Some (v, r) =>
          match skip_ws r with
          | c :: r1 =>
              if Ascii.eqb c "]"%char then Some ([v], r1)
              else if Ascii.eqb c ","%char then
                match parse_elements f (skip_ws r1) with
                | Some (vs, r2) => Some (v :: vs, r2)
                | None => None
                end
              else None
          | [] => None
          end
      | None => None
      end
  end.

(** [json.loads(s)]; [None] stands for [JSONDecodeError]. *)
Definition loads (s : string) : option value :=
  match parse_value (S (String.length s)) (skip_ws (Py.chars s)) with
  | Some (v, r) => match skip_ws r with [] => Some v | _ :: _ => None end
  | None => None
  end.

Fixpoint json_escaped (s : string) : string :=
  match s with
  | EmptyString => EmptyString
  | String c t =>
      ((if Ascii.eqb c "034"%char then String "\"%char (String c EmptyString)
        else if Ascii.eqb c "\"%char then "\\"
        else if Ascii.eqb c "010"%char then "\n"
        else if Ascii.eqb c "013"%char then "\r"
        else if Ascii.eqb c "009"%char then "\t"
        else if Ascii.eqb c "008"%char then "\b"
        else if Ascii.eqb c "012"%char then "\f"
        else if Py.between 32 127 c then String c EmptyString
        else "\u00" ++ Builtins.hex2 c) ++ json_escaped t)%string
  end.

Definition json_string (s : string) : string :=
  (Py.dq ++ json_escaped s ++ Py.dq)%string.

Fixpoint spaces (n : nat) : string :=
  match n with 0 => EmptyString | S m => String " "%char (spaces m) end.

(** [json.dumps(v)] and [json.dumps(v, indent=n)], at nesting [level]. *)
Fixpoint dumps_at (indent : option nat) (level : nat) (v : value) : string :=
  let open_ := match indent with
               | Some n => (Py.nl ++ spaces (n * S level))%string
               | None => EmptyString
               end in
  let between := match indent with
                 | Some n => ("," ++ Py.nl ++ spaces (n * S level))%string
                 | None => ", "
                 end in
  let close_ := match indent with
                | Some n => (Py.nl ++ spaces (n * level))%string
                | None => EmptyString
                end in
  match v with
  | VNone => "null"
  | VBool true => "true"
  | VBool false => "false"
  | VInt z => of_Z z
  | VFloat f =>
      if PrimFloat.is_nan f then "NaN"
      else if PrimFloat.is_infinity f
      then (if PrimFloat.get_sign f then "-Infinity" else "Infinity")
      else Builtins.float_repr f
  | VStr s => json_string s
  | VList [] => "[]"
  | VList l =>
      ("[" ++ open_ ++ Py.join between
         ((fix each (l : list value) : list string :=
             match l with
             | [] => []
             | x :: t => dumps_at indent (S level) x :: each t
             end) l) ++ close_ ++ "]")%string
  | VDict [] => "{}"
  | VDict d =>
      ("{" ++ open_ ++ Py.join between
         ((fix each (d : list (string * value)) : list string :=
             match d with
             | [] => []
             | (k, x) :: t =>
                 (json_string k ++ ": " ++ dumps_at indent (S level) x)%string
                 :: each t
             end) d) ++ close_ ++ "}")%string
  end.

Definition dumps (v : value) : string := dumps_at None 0 v.
Definition dumps_indent (n : nat) (v : value) : string := dumps_at (Some n) 0 v.

End Json.

(* ================================================================== *)
(** ** [agents/resource_agent.py]: the contact extractor

    [agents/enhanced_resource_agent.py] carries the same function, line
    for line. *)

Module ResourceAgent.
Import Re Value.

(** [[-.\s]] *)
Definition sep : re :=
  one_of (fun c => Ascii.eqb c "-"%char || Ascii.eqb c "."%char || Py.isspace c).

(** [(?:\(?\d{3}\)?[-.\s]?\d{3}[-.\s]?\d{4})] *)
Definition us_format : re :=
  seqs [opt (chr "("); times 3 digit; opt (chr ")"); opt sep;
        times 3 digit; opt sep; times 4 digit].

(** [(?:\+\d{1,3}[-.\s]?)?(?:\(?\d{1,4}\)?[-.\s]?)?[\d\s-]{7,18}(?:\s*(?:ext|x|#)\.?\s*\d{1,5})?] *)
Definition global_format : re :=
  seqs [opt (seqs [chr "+"; range 1 3 digit; opt sep]);
        opt (seqs [opt (chr "("); range 1 4 digit; opt (chr ")"); opt sep]);
        range 7 18 (one_of (fun c => Py.isdigit c || Py.isspace c
                                     || Ascii.eqb c "-"%char));
        opt (seqs [star space;
                   alts [lit_i "ext"; lit_i "x"; chr "#"];
                   opt (chr "."); star space; range 1 5 digit])].

(** [\[.*?\]\(tel:([\d\s\+\(\)-]+)\)] *)
Definition tel_link : re :=
  seqs [chr "["; lazy_star dot; chr "]"; lit_i "(tel:";
        Grp 1 (plus (one_of (fun c =>
                 Py.isdigit c || Py.isspace c || Ascii.eqb c "+"%char
                 || Ascii.eqb c "("%char || Ascii.eqb c ")"%char
                 || Ascii.eqb c "-"%char)));
        chr ")"].

(** The three alternatives of [emergency_phone_pattern]; the trigger words
    belong to the first one only. *)
Definition emergency_phone_pattern : re :=
  alts [seqs [alts [lit_i "emergency"; lit_i "hotline"; lit_i "urgent";
                    lit_i "24/7"; lit_i "rescue"];
              star sep; opt (chr ":"); star sep; us_format];
        global_format;
        tel_link].

(** The three alternatives of [phone_pattern]: the look-behind guards the
    first one, the three look-aheads follow the last one. *)
Definition phone_pattern : re :=
  alts [seqs [NotBehind 5 (seqs [times 4 digit; sep]); us_format];
        global_format;
        seqs [tel_link;
              NotAhead (seqs [sep; times 2 digit]);
              NotAhead (seqs [star space; alts [lit_i "BC"; lit_i "AD"]; WordB]);
              NotAhead (seqs [star space; alts [lit "19"; lit "20"];
                              times 2 digit])]].

(** [\b[A-Za-z0-9._%+-]+@[A-Za-z0-9.-]+\.[A-Za-z]{2,}\b] *)
Definition email_pattern : re :=
  let alnum c := Py.isalpha_ascii c || Py.isdigit c in
  seqs [WordB;
        plus (one_of (fun c => alnum c || Ascii.eqb c "."%char
                 || Ascii.eqb c "_"%char || Ascii.eqb c "%"%char
                 || Ascii.eqb c "+"%char || Ascii.eqb c "-"%char));
        chr "@";
        plus (one_of (fun c => alnum c || Ascii.eqb c "."%char
                 || Ascii.eqb c "-"%char));
        chr ".";
        at_least 2 (one_of Py.isalpha_ascii);
        WordB].

Definition letter : re := one_of Py.isalpha_ascii.

(** [^\d+\s+\w+] *)
Definition street_number : re := seqs [Bol; plus digit; plus space; plus word].

(** [\b(St|Ave|Rd|...|Square)\b], ignoring case *)
Definition street_type : re :=
  seqs [WordB;
        Grp 1 (alts (map lit_i
          ["St"; "Ave"; "Rd"; "Blvd"; "Ln"; "Cir"; "Dr"; "Ct"; "Pl"; "Sq";
           "Street"; "Avenue"; "Road"; "Boulevard"; "Lane"; "Circle";
           "Drive"; "Court"; "Place"; "Square"]));
        WordB].

(** [\b\d{5}(?:-\d{4})?\b] *)
Definition us_zip : re :=
  seqs [WordB; times 5 digit; opt (seqs [chr "-"; times 4 digit]); WordB].

(** [\b[A-Za-z]\d[A-Za-z]\s*\d[A-Za-z]\d\b] *)
Definition canadian_code : re :=
  seqs [WordB; letter; digit; letter; star space; digit; letter; digit; WordB].

(** [\b(PO Box|P.O. Box)\b], ignoring case; the dots are unescaped. *)
Definition po_box : re :=
  seqs [WordB;
        Grp 1 (alts [lit_i "PO Box";
                     seqs [chr_i "P"; dot; chr_i "O"; dot; lit_i " Box"]]);
        WordB].

(** [^\*\*\w+\s+Address\*\*], ignoring case *)
Definition address_header : re :=
  seqs [Bol; lit "**"; plus word; plus space; lit_i "Address"; lit "**"].

(** [[-*\s]+] *)
Definition markers : re :=
  plus (one_of (fun c => Ascii.eqb c "-"%char || Ascii.eqb c "*"%char
                         || Py.isspace c)).

(** [^\w] and [[A-Za-z]\b] *)
Definition starts_word : re := seqs [Bol; word].
Definition letter_end : re := seqs [letter; WordB].

(** [\d+\s+\w+] *)
Definition number_word : re := seqs [plus digit; plus space; plus word].

(** [\s{10,}] *)
Definition wide_gap : re := at_least 10 space.

Record contacts : Type := Contacts {
  phone : list string;
  emergency_phone : list string;
  email : list string;
  address : list string
}.

(** [re.sub(r'[-.\s\(\)]', '', phone_str).strip()] *)
Definition clean_phone (phone_str : string) : string :=
  Py.strip (remove (fun c => Ascii.eqb c "-"%char || Ascii.eqb c "."%char
                             || Py.isspace c || Ascii.eqb c "("%char
                             || Ascii.eqb c ")"%char) phone_str).

(** [len(re.sub(r'\D', '', cleaned_phone))] *)
Definition digit_count (s : string) : nat :=
  String.length (remove (fun c => negb (Py.isdigit c)) s).

(** Both patterns have one group, so [findall] returns a list of [str]:
    [isinstance(match, tuple)] is false and [phone_str] is
    [''.join(match)], the string itself. *)
Definition emergency_matches (t : string) : list string :=
  findall1 emergency_phone_pattern t.

Definition cleaned_emergency_phones (t : string) : list string :=
  filter (fun p => 7 <=? digit_count p) (map clean_phone (emergency_matches t)).

Definition phone_matches (t : string) : list string :=
  findall1 phone_pattern t.

Definition cleaned_phones (emergency : list string) (t : string) : list string :=
  filter (fun p =>
            (7 <=? digit_count p)
            && negb (fullmatch (times 4 digit) p || fullmatch (times 6 digit) p)
            && negb (Py.mem p emergency))
         (map clean_phone (phone_matches t)).

Definition is_address_line (l : string) : bool :=
  found street_number l || found street_type l || found us_zip l
  || found canadian_code l || found po_box l || found address_header l.

Definition nonempty (s : string) : bool :=
  match s with EmptyString => false | String _ _ => true end.

(** The first loop of the address pass, one line at a time. *)
Definition add_candidate (cands : list string) (line : string) : list string :=
  let cleaned_line := Py.strip line in
  if is_address_line cleaned_line then cands ++ [cleaned_line]
  else if (match cands with [] => false | _ :: _ => true end)
          && nonempty cleaned_line && negb (fullmatch markers cleaned_line)
  then if found starts_word cleaned_line || found letter_end cleaned_line
       then cands ++ [cleaned_line] else cands
  else cands.

Definition address_candidates (t : string) : list string :=
  fold_left add_candidate (Py.split_on "010"%char t) [].

(** The second loop: the state is [(compiled_addresses, current_block)]. *)
Definition add_to_block (st : list string * list string) (line : string)
  : list string * list string :=
  let (compiled, current) := st in
  if nonempty line && negb (fullmatch markers line) then
    if (match current with [] => true | _ :: _ => false end)
       || nonempty (Py.strip (last current EmptyString))
    then (compiled, current ++ [line])
    else ((match current with
           | [] => compiled
           | _ :: _ => compiled ++ [Py.join " " current]
           end), [line])
  else ((match current with
         | [] => compiled
         | _ :: _ => compiled ++ [Py.join " " current]
         end), []).

Definition compiled_addresses (cands : list string) : list string :=
  let (compiled, current) := fold_left add_to_block cands ([], []) in
  match current with
  | [] => compiled
  | _ :: _ => compiled ++ [Py.join " " current]
  end.

Definition valid_part (p : string) : bool :=
  (15 <? String.length p)
  && (found number_word p || found po_box p || found canadian_code p).

Definition final_addresses (compiled : list string) : list string :=
  flat_map (fun addr => filter valid_part (map Py.strip (split wide_gap addr)))
           compiled.

Definition extract_contacts_from_markdown (markdown_text : string) : contacts :=
  match markdown_text with
  | EmptyString => Contacts [] [] [] []
  | String _ _ =>
      let emergency := Py.fromkeys (cleaned_emergency_phones markdown_text) in
      Contacts
        (Py.fromkeys (cleaned_phones emergency markdown_text))
        emergency
        (Py.fromkeys (findall email_pattern markdown_text))
        (Py.fromkeys (final_addresses
           (compiled_addresses (address_candidates markdown_text))))
  end.

(** *** Crawling and searching

    The collaborators of the module: the chat client ([client], absent
    when the key or the package is missing), the search client ([exa]),
    the crawler ([AsyncWebCrawler]; the result is the page's markdown, if
    any) and the [json] parser. *)

Record search_result : Type := SearchResult {
  title : string;
  url : string;
  text : option string
}.

Record services : Type := Services {
  chat : option (string -> outcome (option string));
  exa : option (string -> nat -> outcome (list search_result));
  crawl : option (string -> outcome (option string));
  json_loads : string -> option value
}.

(** [s.find(c)] and [s.rfind(c)]; [None] stands for [-1]. *)
Fixpoint find_char (c : ascii) (s : string) : option nat :=
  match s with
  | EmptyString => None
  | String x t => if Ascii.eqb x c then Some 0 else option_map S (find_char c t)
  end.

Fixpoint rfind_char (c : ascii) (s : string) : option nat :=
  match s with
  | EmptyString => None
  | String x t =>
      match rfind_char c t with
      | Some i => Some (S i)
      | None => if Ascii.eqb x c then Some 0 else None
      end
  end.

(** The function returns [None] on failure and the parsed value
    otherwise; both are a [value] here. *)
Definition extract_json_from_string (loads : string -> option value)
  (text : string) : value :=
  match text with
  | EmptyString => VNone
  | String _ _ =>
      match find_char "{" text, rfind_char "}" text with
      | Some start_brace, Some end_brace =>
          let json_str :=
            String.substring start_brace (end_brace + 1 - start_brace) text in
          match loads json_str with
          | Some v => v
          | None => VNone
          end
      | _, _ => VNone
      end
  end.

Section WithServices.
Variable s : services.

Definition ask_ai (prompt : string) : option string :=
  match chat s with
  | None => None
  | Some create =>
      match create prompt with
      | Ok content => content
      | Raise _ => None
      end
  end.

Definition contacts_value (c : contacts) : value :=
  VDict [("phone", strs (phone c));
         ("emergency_phone", strs (emergency_phone c));
         ("email", strs (email c));
         ("address", strs (address c))].

Definition ai_extraction_prompt_head : string := Py.qq
"
                    Analyze the following webpage content for contact information.
                    Explicitly look for:
                    - Standard Phone Number(s)
                    - Emergency Contact Number(s) (look for terms like 'emergency', 'hotline', 'urgent', '24/7', 'rescue' nearby)
                    - Email Address(es)
                    - Physical Address(es)
                    
                    Format the output strictly as a JSON object with keys `phone` (list of strings), 
                    `emergency_phone` (list of strings), `email` (list of strings), and 
                    `address` (list of strings). If no information is found for a category, 
                    the value should be an empty list [].
                    
                    Return ONLY the JSON object and nothing else.
                    
                    Webpage Content from ".
Definition ai_extraction_prompt_middle : string := Py.qq
":
                    ".
Definition ai_extraction_prompt_tail : string := Py.qq
"  # Pass a significant portion to the AI
                    ".

Definition ai_extraction_prompt (url markdown_content : string) : string :=
  (ai_extraction_prompt_head ++ url ++ ai_extraction_prompt_middle
   ++ String.substring 0 6000 markdown_content
   ++ ai_extraction_prompt_tail)%string.

Definition no_content : value := VDict [("error", VStr "No content found")].

Definition crawl_and_extract_contacts_HYBRID (url : string) : value :=
  match crawl s with
  | None => VDict [("error", VStr "crawl4ai not installed")]
  | Some arun =>
      match arun url with
      | Raise e => VDict [("error", VStr (message e))]
      | Ok None => no_content
      | Ok (Some EmptyString) => no_content
      | Ok (Some markdown_content) =>
          let c := extract_contacts_from_markdown markdown_content in
          let regex_contacts := contacts_value c in
          match phone c, email c, emergency_phone c, chat s with
          | [], [], [], Some _ =>
              match ask_ai (ai_extraction_prompt url markdown_content) with
              | Some (String a r) =>
                  let ai_extracted :=
                    extract_json_from_string (json_loads s) (String a r) in
                  if truthy ai_extracted then ai_extracted else regex_contacts
              | _ => regex_contacts
              end
          | _, _, _, _ => regex_contacts
          end
      end
  end.

(** One of the dictionaries [search_web] returns: its three keys. *)
Record web_result : Type := WebResult {
  result_title : string;
  result_url : string;
  snippet : string
}.

Definition search_web (query : string) (num_results : nat) : list web_result :=
  match exa s with
  | None => []
  | Some search_and_contents =>
      match search_and_contents query num_results with
      | Ok results =>
          map (fun r =>
                 WebResult (title r) (url r)
                   (match text r with
                    | Some t => String.substring 0 200 t
                    | None => EmptyString
                    end))
              results
      | Raise _ => []
      end
  end.

Definition crawl_and_extract_contacts_all_urls (urls : list string) : dict :=
  fold_left (fun acc u => set acc u (crawl_and_extract_contacts_HYBRID u))
            urls [].

(** [run(urls, update_callback, is_subroutine=True)], the call the rescue
    agent makes: a list of URLs in, the contacts by URL out. *)
Definition run (urls : list string) : dict :=
  crawl_and_extract_contacts_all_urls urls.

End WithServices.

End ResourceAgent.

(* ================================================================== *)
(** ** [agents/rescue_agent.py] *)

Module RescueAgent.
Import Value.

(** What the rescue agent calls and does not define: whether the
    inference client exists, the inference helper of [utils.ai_helpers]
    (it may raise, or return [None]), the resource agent's collaborators,
    [json.dumps(_, indent=2)], [repr] and the clock.  [update_callback] is
    left out, as in the orchestrator. *)
Record world : Type := World {
  client : bool;
  call_cerebras_api : string -> outcome (option string);
  services : ResourceAgent.services;
  json_dumps_indent : value -> string;
  repr : value -> string;
  time_time : float
}.

Section WithWorld.
Variable w : world.

Definition fmt (v : value) : string := format (repr w) v.

Definition extract_json_from_string (text : string) : value :=
  ResourceAgent.extract_json_from_string
    (ResourceAgent.json_loads (services w)) text.

Definition ask_ai (prompt : string) : outcome (option string) :=
  response <- call_cerebras_api w prompt ;;
  match response with
  | Some r =>
      if ResourceAgent.nonempty r
         && Py.startswith r "Simulated response for:" then
        let p := Py.lower prompt in
        if Py.contains p "location" then Ok (Some "Punjab, India")
        else if Py.contains p "extract" && Py.contains p "coordinate"
        then Ok (Some "31.6340, 74.8723")
        else if Py.contains p "safety" || Py.contains p "instruction"
        then Ok (Some "Seek higher ground immediately. Avoid walking or driving through flood waters.")
        else Ok response
      else Ok response
  | None => Ok response
  end.

Definition get_weather_alerts (lat lon : value) : dict :=
  [("coordinates", VDict [("lat", lat); ("lon", lon)]);
   ("alerts", VList []);
   ("status", VStr "Unable to connect to weather service API")].

Definition get_nasa_firms_data (lat lon : value) : dict :=
  [("coordinates", VDict [("lat", lat); ("lon", lon)]);
   ("fires", VList []);
   ("status", VStr "Unable to connect to FIRMS API")].

Definition deconstruct_prompt_head : string := Py.qq
"
        Analyze the following emergency query and extract critical information.
        Return ONLY a JSON object with keys: 'crisis_type', 'location', 'lat', 'lon'.
        Use realistic latitude and longitude values for the location mentioned.
        
        Query: `".
Definition deconstruct_prompt_tail : string := Py.qq
"`
        ".

Definition keyword_location (lower_query : string) : string * (value * value) :=
  if Py.contains lower_query "punjab"
  then ("Punjab, India", (VFloat 31.1471, VFloat 75.3412))
  else if Py.contains lower_query "houston"
  then ("Houston, Texas, USA", (VFloat 29.7604, VFloat (-95.3698)))
  else if Py.contains lower_query "miami"
  then ("Miami, Florida, USA", (VFloat 25.7617, VFloat (-80.1918)))
  else ("Unknown Location", (VInt 0, VInt 0)).

Definition keyword_crisis (lower_query : string) : string :=
  if Py.any_in lower_query ["flood"; "flooding"; "water"] then "flood"
  else if Py.any_in lower_query ["fire"; "wildfire"; "burning"] then "wildfire"
  else if Py.any_in lower_query ["earthquake"; "quake"] then "earthquake"
  else if Py.any_in lower_query ["hurricane"; "cyclone"; "storm"]
  then "hurricane"
  else "Unknown Crisis".

Definition keyword_coordinates (query : string) : dict :=
  let lower_query := Py.lower query in
  let '(location_name, (lat, lon)) := keyword_location lower_query in
  [("latitude", lat);
   ("longitude", lon);
   ("location_name", VStr location_name);
   ("crisis_type", VStr (keyword_crisis lower_query))].

Definition extract_coordinates_from_query (query : string) : outcome dict :=
  if client w then
    response_str <-
      ask_ai (deconstruct_prompt_head ++ query ++ deconstruct_prompt_tail) ;;
    match response_str with
    | Some (String a r) =>
        let location_info := extract_json_from_string (String a r) in
        if truthy location_info then
          has_lat <- py_in "lat" location_info ;;
          if has_lat then
            has_lon <- py_in "lon" location_info ;;
            if has_lon then
              lat <- subscript location_info "lat" ;;
              lon <- subscript location_info "lon" ;;
              name <- attr_get location_info "location"
                               (VStr "Unknown Location") ;;
              crisis <- attr_get location_info "crisis_type"
                                 (VStr "Unknown Crisis") ;;
              Ok [("latitude", lat); ("longitude", lon);
                  ("location_name", name); ("crisis_type", crisis)]
            else Ok (keyword_coordinates query)
          else Ok (keyword_coordinates query)
        else Ok (keyword_coordinates query)
    | _ => Ok (keyword_coordinates query)
    end
  else Ok (keyword_coordinates query).

Definition synthesis_prompt_1 : string := Py.qq
"
        You are an AI disaster response assistant named C.L.A.R.I.O.N.
        Provide an immediate, actionable, and life-saving brief based on the following information.
        
        USER'S SITUATION:
        Query: `".
Definition synthesis_prompt_2 : string := Py.qq
"`
        Location: ".
Definition synthesis_prompt_3 : string := Py.qq
" (".
Definition synthesis_prompt_4 : string := Py.qq
", ".
Definition synthesis_prompt_5 : string := Py.qq
")
        Crisis Type: ".
Definition synthesis_prompt_6 : string := Py.qq
"
        
        VERIFIED OFFICIAL DATA:
        ".
Definition synthesis_prompt_7 : string := Py.qq
"
        
        ACTIONABLE CONTACTS & RESOURCES:
        ".
Definition synthesis_prompt_8 : string := Py.qq
"
        
        YOUR TASK:
        Generate a final triage brief as a JSON object with the following structure:
        1. `safety_warning`: A clear, urgent warning about the immediate danger and what action to take
        2. `recommended_shelter`: Specific shelter location if available, or instructions on finding shelter
        3. `contactable_aid`: List of emergency contacts with their details
        
        Return ONLY the JSON object with no additional text.
        ".

(** The title recorded for [url] in the search results, [url] itself when
    there is none. *)
Definition source_title (web_results : list ResourceAgent.web_result)
  (url : string) : string :=
  match find (fun r => String.eqb (ResourceAgent.result_url r) url)
             web_results with
  | Some r => ResourceAgent.result_title r
  | None => url
  end.

Definition tagged (kind : string) (x : value) : value :=
  VDict [("type", VStr kind); ("value", x)].

(** The entries one source contributes to [contactable_aid]. *)
Definition aid_entries (contacts : value) : outcome (list value) :=
  emergency <- attr_get contacts "emergency_phone" VNone ;;
  a <- (if truthy emergency
        then l <- iterate emergency ;; Ok (map (tagged "emergency_phone") l)
        else Ok []) ;;
  phones <- attr_get contacts "phone" VNone ;;
  b <- (if truthy phones
        then l <- iterate phones ;; Ok (map (tagged "phone") l)
        else Ok []) ;;
  emails <- attr_get contacts "email" VNone ;;
  c <- (if truthy emails
        then first_two <- slice_to 2 emails ;;
             l <- iterate first_two ;; Ok (map (tagged "email") l)
        else Ok []) ;;
  Ok (a ++ b ++ c).

Definition warning_for (crisis_type : string) : string :=
  if Py.contains crisis_type "flood"
  then "Seek higher ground immediately. Avoid walking or driving through flood waters."
  else if Py.contains crisis_type "wildfire" || Py.contains crisis_type "fire"
  then "If ordered to evacuate, do so immediately. Keep windows and doors closed to prevent embers from entering."
  else if Py.contains crisis_type "hurricane"
          || Py.contains crisis_type "cyclone"
  then "Secure your property and prepare for high winds and flooding. Follow evacuation orders if issued."
  else if Py.contains crisis_type "earthquake"
  then "Drop, cover, and hold on. Stay away from windows and exterior walls."
  else "Follow instructions from local authorities and stay tuned to emergency broadcasts.".

Definition recommended_shelter : string :=
  "Contact local authorities for shelter locations. If evacuation is necessary, bring emergency supplies including water, food, medications, and important documents.".

(** The brief assembled without the inference service. *)
Definition fallback_brief (location_data : dict) (contact_info_by_url : dict)
  (web_results : list ResourceAgent.web_result) : outcome value :=
  crisis_type <- str_lower (get_or location_data "crisis_type" (VStr EmptyString)) ;;
  let location_name := get_or location_data "location_name" (VStr EmptyString) in
  let safety_warning :=
    ("ATTENTION: Possible " ++ crisis_type ++ " situation reported in "
     ++ fmt location_name ++ ". " ++ warning_for crisis_type)%string in
  contactable_aid <-
    each (fun uc : string * value =>
            let (url, contacts) := uc in
            let source_name := source_title web_results url in
            failed <- py_in "error" contacts ;;
            if failed then Ok []
            else
              entries <- aid_entries contacts ;;
              match entries with
              | [] => Ok []
              | _ :: _ => Ok [VDict [("name", VStr source_name);
                                     ("contacts", VList entries)]]
              end)
         contact_info_by_url ;;
  Ok (VDict [("safety_warning", VStr safety_warning);
             ("recommended_shelter", VStr recommended_shelter);
             ("contactable_aid", VList contactable_aid)]).

Definition alert_line (alert : value) : outcome (list string) :=
  t <- attr_get alert "type" VNone ;;
  sv <- attr_get alert "severity" VNone ;;
  d <- attr_get alert "description" VNone ;;
  Ok ["- " ++ fmt t ++ " (" ++ fmt sv ++ "): " ++ fmt d]%string.

Definition verified_data (weather_data fire_data : dict) : outcome string :=
  let alerts := get_or weather_data "alerts" VNone in
  a <- (if truthy alerts then
          l <- iterate alerts ;;
          lines <- each alert_line l ;;
          Ok ("WEATHER ALERTS:" ++ Py.nl ++ Py.join Py.nl lines
              ++ Py.nl ++ Py.nl)%string
        else Ok EmptyString) ;;
  let b := if truthy (get_or fire_data "fires" VNone)
           then ("ACTIVE FIRES DETECTED IN YOUR AREA" ++ Py.nl ++ Py.nl)%string
           else EmptyString in
  match (a ++ b)%string with
  | EmptyString =>
      Ok "No specific alerts from official sources for your exact location."
  | String c t => Ok (String c t)
  end.

Definition actionable_contacts (contact_info_by_url : dict)
  (web_results : list ResourceAgent.web_result) : value :=
  VList (map (fun result =>
                let url := ResourceAgent.result_url result in
                let title := ResourceAgent.result_title result in
                VDict [("name", VStr title);
                       ("link", VStr url);
                       ("extracted_contact",
                        get_or contact_info_by_url url (VDict []))])
             web_results).

Definition generate_triage_brief (query : string) (location_data : dict)
  (weather_data fire_data : dict) (contact_info_by_url : dict)
  (web_results : list ResourceAgent.web_result) : outcome value :=
  if client w then
    verified <- verified_data weather_data fire_data ;;
    let synthesis_prompt :=
      (synthesis_prompt_1 ++ query
       ++ synthesis_prompt_2 ++ fmt (get_or location_data "location_name" VNone)
       ++ synthesis_prompt_3 ++ fmt (get_or location_data "latitude" VNone)
       ++ synthesis_prompt_4 ++ fmt (get_or location_data "longitude" VNone)
       ++ synthesis_prompt_5 ++ fmt (get_or location_data "crisis_type" VNone)
       ++ synthesis_prompt_6 ++ verified
       ++ synthesis_prompt_7
       ++ json_dumps_indent w (actionable_contacts contact_info_by_url web_results)
       ++ synthesis_prompt_8)%string in
    final_brief_str <- ask_ai synthesis_prompt ;;
    match final_brief_str with
    | Some (String a r) =>
        let final_brief := extract_json_from_string (String a r) in
        if truthy final_brief then Ok final_brief
        else fallback_brief location_data contact_info_by_url web_results
    | _ => fallback_brief location_data contact_info_by_url web_results
    end
  else fallback_brief location_data contact_info_by_url web_results.

(** The first branch of [run]: the location the orchestrator found. *)
Definition provided_location (query_info : dict) : outcome dict :=
  location <- subscript (VDict query_info) "location" ;;
  coordinates_lat <- attr_get (get_or query_info "coordinates" (VDict []))
                              "latitude" VNone ;;
  coordinates_lon <- attr_get (get_or query_info "coordinates" (VDict []))
                              "longitude" VNone ;;
  Ok [("location_name", location);
      ("lat", coordinates_lat);
      ("lon", coordinates_lon)].

Definition contact_lines (contact : value) : outcome (list value) :=
  t <- attr_get contact "type" (VStr "contact") ;;
  contact_type <-
    match t with
    | VStr x => Ok (Py.upper (Py.replace_char "_" " " x))
    | _ => Raise (no_attribute t "replace")
    end ;;
  v <- attr_get contact "value" (VStr EmptyString) ;;
  Ok [VStr ("- " ++ contact_type ++ ": " ++ fmt v)].

Definition source_lines (source : value) : outcome (list value) :=
  name <- attr_get source "name" (VStr "Unknown Source") ;;
  cs <- attr_get source "contacts" (VList []) ;;
  items <- iterate cs ;;
  lines <- each contact_lines items ;;
  Ok (VStr (Py.nl ++ fmt name ++ ":") :: lines).

(** The three headings open with pictographs, kept here as their bytes in
    the source file. *)
Definition heading_warning : string := "üö® SAFETY WARNING:".
Definition heading_shelter : string := "üè† SHELTER INFORMATION:".
Definition heading_contacts : string := "‚òéÔ∏è EMERGENCY CONTACTS:".

(** Steps 2 to 6 of [run], from the location data on. *)
Definition respond (query : string) (location_data : dict) : outcome value :=
  location_name <- subscript (VDict location_data) "location_name" ;;
  latitude <- subscript (VDict location_data) "latitude" ;;
  longitude <- subscript (VDict location_data) "longitude" ;;
  let weather_data := get_weather_alerts latitude longitude in
  let fire_data := get_nasa_firms_data latitude longitude in
  let search_query :=
    ("emergency contact numbers " ++ fmt location_name
     ++ " disaster management")%string in
  let web_results := ResourceAgent.search_web (services w) search_query 3 in
  let urls := map ResourceAgent.result_url web_results in
  let contact_info_by_url := ResourceAgent.run (services w) urls in
  triage_brief <- generate_triage_brief query location_data weather_data
                    fire_data contact_info_by_url web_results ;;
  safety_warning <- attr_get triage_brief "safety_warning"
                      (VStr "No specific safety information available.") ;;
  shelter <- attr_get triage_brief "recommended_shelter"
               (VStr "No shelter information available.") ;;
  contacts <- attr_get triage_brief "contactable_aid" (VList []) ;;
  contact_part <-
    (if truthy contacts then
       sources <- iterate contacts ;;
       each source_lines sources
     else Ok [VStr "No specific contact information available."]) ;;
  let formatted_response :=
    [VStr heading_warning; safety_warning;
     VStr (Py.nl ++ heading_shelter); shelter;
     VStr (Py.nl ++ heading_contacts)]
    ++ contact_part
    ++ [VStr (Py.nl ++ "Follow instructions from local authorities and stay connected to emergency broadcasts.")] in
  response_text <- join_values Py.nl 0 formatted_response ;;
  let brief := match triage_brief with VDict d => d | _ => [] end in
  let structured_data :=
    VDict [("location", get_or location_data "location_name" VNone);
           ("coordinates",
            VDict [("latitude", get_or location_data "lat" VNone);
                   ("longitude", get_or location_data "lon" VNone)]);
           ("timestamp", VFloat (time_time w));
           ("crisis_type", get_or brief "crisis_type" VNone);
           ("urgency_level", get_or brief "urgency_level" VNone);
           ("immediate_actions", get_or brief "immediate_actions" (VList []));
           ("contacts", get_or brief "contactable_aid" (VList []));
           ("safety_instructions",
            get_or brief "safety_instructions" (VList []))] in
  Ok (VDict [("response", VStr response_text);
             ("data", structured_data);
             ("info_type", VStr "rescue_information");
             ("location", get_or location_data "location_name" VNone);
             ("is_emergency", VBool true);
             ("urgency_level", get_or brief "urgency_level" (VStr "high"))]).

Definition run (query : string) (query_info : option dict) : outcome value :=
  let provided :=
    match query_info with
    | Some (kv :: d) => truthy (get_or (kv :: d) "location" VNone)
    | _ => false
    end in
  location_data <-
    (if provided
     then provided_location (match query_info with Some d => d | None => [] end)
     else extract_coordinates_from_query query) ;;
  respond query location_data.

End WithWorld.

End RescueAgent.

(* ================================================================== *)
(** ** [agents/orchestrator.py] *)

Module Orchestrator.
Import Value.

(** What the orchestrator calls and does not define: the inference helper
    of [utils.ai_helpers] (it may raise, or return [None]), the [json]
    module, [repr], the clock, and the three specialist handlers.
    [update_callback] only reports progress; it is left out, and is taken
    not to raise. *)
Record env : Type := Env {
  call_cerebras_api : string -> outcome (option string);
  json_loads : string -> option value;
  json_dumps : value -> string;
  repr : value -> string;
  time_time : float;
  rescue_run : string -> dict -> outcome value;
  resource_run : string -> dict -> outcome value;
  information_run : string -> dict -> outcome value
}.

Definition contact (name number : string) : value :=
  VDict [("name", VStr name); ("number", VStr number)].

Definition LOCAL_EMERGENCY_CONTACTS : list (string * (string * string)) :=
  [("general", ("Emergency Services", "911"));
   ("police", ("Police Department", "911"));
   ("fire", ("Fire Department", "911"));
   ("medical", ("Emergency Medical Services", "911"));
   ("poison", ("Poison Control", "1-800-222-1222"));
   ("disaster", ("FEMA Helpline", "1-800-621-3362"));
   ("crisis", ("Crisis Text Line", "Text HOME to 741741"))].

Definition general_instructions : list string :=
  ["Call 911 for immediate life-threatening emergencies";
   "Follow instructions from local authorities";
   "Have emergency supplies prepared";
   "Stay informed through official channels";
   "Help others if you can do so safely"].

Definition fire_instructions : list string :=
  ["Evacuate immediately if authorities order it";
   "Cover nose and mouth with a wet cloth";
   "Test doorknobs and spaces around doors before opening";
   "Use stairs instead of elevators";
   "If trapped, signal for help from a window"].

Definition LOCAL_SAFETY_INSTRUCTIONS : list (string * list string) :=
  [("flood",
    ["Move to higher ground immediately";
     "Do not walk through moving water";
     "Do not drive through flooded areas";
     "Follow evacuation orders from authorities"]);
   ("fire", fire_instructions);
   ("earthquake",
    ["Drop, cover, and hold on";
     "If indoors, stay away from windows";
     "If outdoors, move to a clear area away from buildings";
     "After shaking stops, check for injuries and damage";
     "Be prepared for aftershocks"]);
   ("hurricane",
    ["Follow evacuation orders from local authorities";
     "Secure your home and property";
     "Have emergency supplies ready";
     "Stay indoors during the storm";
     "Avoid flooded areas during and after the storm"]);
   ("tornado",
    ["Seek shelter in a basement or interior room on the lowest floor";
     "Stay away from windows and outside walls";
     "Cover your head and neck with arms";
     "If caught outside, lie flat in a nearby ditch or depression";
     "Do not try to outrun a tornado in a vehicle"]);
   ("general", general_instructions)].

Fixpoint assoc {A : Type} (k : string) (l : list (string * A)) : option A :=
  match l with
  | [] => None
  | (k', a) :: t => if String.eqb k k' then Some a else assoc k t
  end.

Definition emergency_contact (k : string) : string * string :=
  match assoc k LOCAL_EMERGENCY_CONTACTS with
  | Some c => c
  | None => (EmptyString, EmptyString)
  end.

(** [in ([A-Za-z\s]+),\s*([A-Za-z\s]+)], [at ([A-Za-z0-9\s]+)],
    [near ([A-Za-z\s]+)], [([A-Za-z\s]+) area] *)
Definition letters_spaces : Re.re :=
  Re.plus (Re.one_of (fun c => Py.isalpha_ascii c || Py.isspace c)).

Definition in_city_state : Re.re :=
  Re.seqs [Re.lit "in "; Re.Grp 1 letters_spaces; Re.chr ",";
           Re.star Re.space; Re.Grp 2 letters_spaces].
Definition at_place : Re.re :=
  Re.seqs [Re.lit "at ";
           Re.Grp 1 (Re.plus (Re.one_of (fun c =>
              Py.isalpha_ascii c || Py.isdigit c || Py.isspace c)))].
Definition near_place : Re.re :=
  Re.seqs [Re.lit "near "; Re.Grp 1 letters_spaces].
Definition some_area : Re.re :=
  Re.seqs [Re.Grp 1 letters_spaces; Re.lit " area"].

(** The loop over [location_patterns]: the first pattern found decides. *)
Definition local_location (query : string) : option string :=
  match Re.search in_city_state query with
  | Some h => Some (Py.strip (Re.group 1 h) ++ ", "
                    ++ Py.strip (Re.group 2 h))%string
  | None =>
  match Re.search at_place query with
  | Some h => Some (Py.strip (Re.group 1 h))
  | None =>
  match Re.search near_place query with
  | Some h => Some (Py.strip (Re.group 1 h))
  | None =>
  match Re.search some_area query with
  | Some h => Some (Py.strip (Re.group 1 h))
  | None => None
  end end end end.

Definition crisis_keywords : list (string * list string) :=
  [("flood", ["flood"; "flooding"; "water rising"; "submerged"]);
   ("fire", ["fire"; "burning"; "flames"; "smoke"; "wildfire"]);
   ("earthquake", ["earthquake"; "tremor"; "shaking"; "quake"]);
   ("hurricane", ["hurricane"; "cyclone"; "storm"; "typhoon"]);
   ("tornado", ["tornado"; "twister"; "funnel cloud"]);
   ("medical", ["injured"; "hurt"; "medical"; "bleeding"; "wound";
                "heart attack"; "stroke"]);
   ("general", ["emergency"; "help"; "danger"; "disaster"; "trapped";
                "stuck"])].

Definition local_crisis_type (query_lower : string) : string :=
  match find (fun ck => Py.any_in query_lower (snd ck)) crisis_keywords with
  | Some (crisis, _) => crisis
  | None => "unknown"
  end.

Definition high_urgency_words : list string :=
  ["immediately"; "emergency"; "urgent"; "critical"; "life-threatening";
   "danger"; "dying"; "trapped"].
Definition medium_urgency_words : list string :=
  ["soon"; "worried"; "concerned"; "help"; "assistance"; "need"].

Definition orchestrator_local_process_query (query : string) : dict :=
  let query_lower := Py.lower query in
  let location := local_location query in
  let medical := Py.any_in query_lower
    ["medical"; "ambulance"; "doctor"; "nurse"; "injured"; "hurt"; "wound";
     "bleeding"; "pain"] in
  let evacuation := Py.any_in query_lower
    ["evacuate"; "evacuation"; "leave"; "escape"; "flee"; "get out"] in
  let supplies := Py.any_in query_lower
    ["water"; "food"; "supplies"; "blankets"; "shelter"; "clothing"] in
  let dependents := Py.any_in query_lower
    ["child"; "children"; "baby"; "elderly"; "disabled"; "pet"; "dog"; "cat"] in
  [("original_query", VStr query);
   ("processed", VBool true);
   ("location", match location with Some l => VStr l | None => VNone end);
   ("needs_location_prompt",
    VBool (match location with Some _ => false | None => true end));
   ("crisis_type", VStr (local_crisis_type query_lower));
   ("urgency_level",
    VStr (if Py.any_in query_lower high_urgency_words then "high"
          else if Py.any_in query_lower medium_urgency_words then "medium"
          else "low"));
   ("specific_requests", VList []);
   ("needs_medical", VBool medical);
   ("needs_evacuation", VBool evacuation);
   ("needs_supplies", VBool supplies);
   ("has_dependents", VBool dependents);
   ("extracted_keywords",
    strs ((if medical then ["medical"] else [])
          ++ (if evacuation then ["evacuation"] else [])
          ++ (if supplies then ["supplies"] else [])
          ++ (if dependents then ["dependents"] else [])));
   ("potential_resources_needed",
    strs ((if medical then ["medical assistance"] else [])
          ++ (if evacuation then ["evacuation assistance"] else [])
          ++ (if supplies then ["food"; "water"; "shelter"] else [])))].

Definition rescue_words : list string :=
  ["help"; "emergency"; "trapped"; "hurt"; "injured"; "danger"; "save";
   "rescue"].
Definition resource_words : list string :=
  ["where"; "location"; "find"; "need"; "supplies"; "resource"; "contact";
   "shelter"].

(** [LOCAL_SAFETY_INSTRUCTIONS.get(crisis_type, ...["general"])]: a list or
    a dictionary cannot be a key. *)
Definition safety_instructions_for (crisis_type : value)
  : outcome (list string) :=
  match crisis_type with
  | VStr s =>
      Ok (match assoc s LOCAL_SAFETY_INSTRUCTIONS with
          | Some l => l
          | None => general_instructions
          end)
  | VList _ | VDict _ =>
      Raise (Exn "TypeError"
                 ("unhashable type: '" ++ type_name crisis_type ++ "'")%string)
  | _ => Ok general_instructions
  end.

(** [for i, instruction in enumerate(safety_instructions, 1)] *)
Fixpoint numbered (i : nat) (l : list string) : string :=
  match l with
  | [] => EmptyString
  | x :: t => (of_nat i ++ ". " ++ x ++ Py.nl ++ numbered (S i) t)%string
  end.

(** ["medical" in crisis_type] *)
Definition medical_in (crisis_type : value) : outcome bool :=
  match crisis_type with
  | VStr s => Ok (Py.contains s "medical")
  | VList l => Ok (existsb (fun v => eq_str v "medical") l)
  | VDict d => Ok (has_key d "medical")
  | _ => Raise (Exn "TypeError"
                    ("argument of type '" ++ type_name crisis_type
                     ++ "' is not iterable")%string)
  end.

Definition local_note : string :=
  (Py.nl ++ Py.nl ++
   "[Note: This response was generated using local emergency protocols due to connection issues.]")%string.

Definition local_intent (query_lower : string) : string :=
  if Py.any_in query_lower rescue_words then "rescue"
  else if Py.any_in query_lower resource_words then "resource"
  else "information".

Definition contact_line (k : string) : string :=
  let (name, number) := emergency_contact k in
  ("- " ++ name ++ ": " ++ number ++ Py.nl)%string.

Definition contact_value (k : string) : value :=
  let (name, number) := emergency_contact k in contact name number.

Section LocalTier.
Variable repr : value -> string.

(** The local responder.  Its only parameter besides the query and the
    query-info record is [repr], for the f-string fields: it is given no
    collaborator to call. *)
Definition orchestrator_generate_local_response
  (query : string) (query_info : dict) : outcome dict :=
  let query_lower := Py.lower query in
  let crisis_type := get_or query_info "crisis_type" (VStr "general") in
  let location := get_or query_info "location" (VStr "your area") in
  let intent := local_intent query_lower in
  let finish (response : string) (structured_data : dict) : outcome dict :=
    Ok [("response", VStr (response ++ local_note));
        ("intent", VStr intent);
        ("query_info", VDict query_info);
        ("agent_data", VDict structured_data);
        ("used_local_fallback", VBool true)] in
  if String.eqb intent "rescue" then
    let head :=
      ("EMERGENCY RESCUE INFORMATION:" ++ Py.nl ++ Py.nl ++
       (if truthy location
        then "For your location (" ++ format repr location
             ++ "), please follow these safety instructions:" ++ Py.nl ++ Py.nl
        else "Please follow these general safety instructions:"
             ++ Py.nl ++ Py.nl))%string in
    match safety_instructions_for crisis_type with
    | Raise e => Raise e
    | Ok safety_instructions =>
        finish
          (head ++ numbered 1 safety_instructions ++ Py.nl
           ++ "Contact emergency services immediately: "
           ++ snd (emergency_contact "general"))%string
          [("emergency_type", crisis_type);
           ("location", location);
           ("safety_instructions", strs safety_instructions);
           ("emergency_contact", contact_value "general")]
    end
  else if String.eqb intent "resource" then
    let head :=
      ("EMERGENCY RESOURCE INFORMATION:" ++ Py.nl ++ Py.nl ++
       (if truthy location
        then "For resources in " ++ format repr location
             ++ ", please contact the following services:" ++ Py.nl ++ Py.nl
        else "Please contact the following emergency services:"
             ++ Py.nl ++ Py.nl))%string in
    let first : outcome string :=
      if eq_str crisis_type "fire" then Ok "fire"
      else if truthy (get_or query_info "needs_medical" (VBool false))
      then Ok "medical"
      else match medical_in crisis_type with
           | Raise e => Raise e
           | Ok true => Ok "medical"
           | Ok false => Ok "general"
           end in
    match first with
    | Raise e => Raise e
    | Ok k =>
        let relevant_contacts :=
          [k]
          ++ (if Py.contains query_lower "poison" then ["poison"] else [])
          ++ (if Py.contains query_lower "disaster" then ["disaster"] else [])
          ++ (if Py.contains query_lower "crisis"
                 || Py.contains query_lower "mental" then ["crisis"] else []) in
        finish
          (head ++ String.concat EmptyString (map contact_line relevant_contacts))%string
          [("resource_type", crisis_type);
           ("location", location);
           ("emergency_contacts", VList (map contact_value relevant_contacts))]
    end
  else
    let head :=
      ("EMERGENCY INFORMATION:" ++ Py.nl ++ Py.nl ++
       (if truthy location
        then "Information for " ++ format repr crisis_type
             ++ " emergency in " ++ format repr location ++ ":"
             ++ Py.nl ++ Py.nl
        else "General information for " ++ format repr crisis_type
             ++ " emergency:" ++ Py.nl ++ Py.nl))%string in
    match safety_instructions_for crisis_type with
    | Raise e => Raise e
    | Ok safety_instructions =>
        finish
          (head ++ numbered 1 safety_instructions ++ Py.nl
           ++ "For more information, contact: "
           ++ fst (emergency_contact "general") ++ " at "
           ++ snd (emergency_contact "general"))%string
          [("information_type", crisis_type);
           ("location", location);
           ("safety_instructions", strs safety_instructions)]
    end.

End LocalTier.

Section WithEnv.
Variable w : env.

(** The orchestrator's copy of the function has the text of the resource
    agent's. *)
Definition extract_json_from_string (text : string) : value :=
  ResourceAgent.extract_json_from_string (json_loads w) text.

Definition rescue_default : string := Py.qq
  "{`intent`: `rescue`, `confidence`: 90, `reasoning`: `Error occurred, defaulting to rescue for safety`}".
Definition resource_default : string := Py.qq
  "{`intent`: `resource`, `confidence`: 70, `reasoning`: `Error occurred, defaulting to resource based on keywords`}".
Definition information_default : string := Py.qq
  "{`intent`: `information`, `confidence`: 50, `reasoning`: `Error occurred, defaulting to information`}".

(** The [except] branch of [cerebras_llama_call]; [None.strip()] raises
    into it as well. *)
Definition error_reply (prompt : string) : string :=
  let p := Py.lower prompt in
  if Py.contains p "rescue" || Py.contains p "emergency" then rescue_default
  else if Py.contains p "resource" || Py.contains p "contact"
       then resource_default
       else information_default.

Definition cerebras_llama_call (prompt : string) : string :=
  let modified_prompt :=
    if negb (Py.contains prompt "JSON") && negb (Py.contains prompt "json")
    then (prompt ++ Py.nl ++ Py.nl
          ++ "Please respond with a valid JSON object.")%string
    else prompt in
  match call_cerebras_api w modified_prompt with
  | Ok (Some response_text) =>
      if negb (Py.startswith (Py.strip response_text) "{") then
        let extracted_json := extract_json_from_string response_text in
        if truthy extracted_json then json_dumps w extracted_json
        else response_text
      else response_text
  | Ok None => error_reply prompt
  | Raise _ => error_reply prompt
  end.

Definition process_prompt_head : string := Py.qq
"
    Analyze the following emergency query and extract key information.
    Your response MUST be a valid JSON object with EXACTLY these fields and no additional text:
    {
        `location`: `Geographic location mentioned (be as specific as possible, or null if none)`,
        `coordinates`: {
            `latitude`: `latitude if explicitly mentioned (or null)`,
            `longitude`: `longitude if explicitly mentioned (or null)`
        },
        `location_confidence`: Number between 0-1 indicating confidence in location detection,
        `needs_location_prompt`: Boolean true if location is missing, vague or needed for proper response,
        `crisis_type`: `Type of emergency or disaster (flood, fire, earthquake, etc.)`,
        `urgency_level`: `high`, `medium`, or `low`,
        `specific_requests`: [`List of specific things being requested`],
        `needs_medical`: Boolean true if medical assistance is needed,
        `needs_evacuation`: Boolean true if evacuation assistance is needed,
        `needs_supplies`: Boolean true if food/water/supplies are needed,
        `has_dependents`: Boolean true if query mentions children, elderly, or others who need help,
        `extracted_keywords`: [`List of key terms extracted from the query`],
        `potential_resources_needed`: [`List of resources that might be needed based on the crisis`]
    }
    
    Query: `".
Definition process_prompt_tail : string := Py.qq
"`
    
    JSON Response:
    ".

Definition process_prompt (query : string) : string :=
  (process_prompt_head ++ query ++ process_prompt_tail)%string.

(** [x < 0.5] for the [location_confidence] a reply carries. *)
Definition below_half (v : value) : outcome bool :=
  match v with
  | VInt z => Ok (z <=? 0)%Z
  | VBool b => Ok (negb b)
  | VFloat f => Ok (PrimFloat.ltb f 0.5%float)
  | _ => Raise (Exn "TypeError"
                    ("'<' not supported between instances of '"
                     ++ type_name v ++ "' and 'float'")%string)
  end.

(** The part of [process_query] that follows a successful parse.  An
    item assignment on anything but a dictionary raises. *)
Definition annotate (query : string) (extracted_info : value) : outcome dict :=
  match extracted_info with
  | VDict d0 =>
      let d1 := set d0 "original_query" (VStr query) in
      let d2 := set d1 "processed" (VBool true) in
      let d3 := set d2 "timestamp" (VFloat (time_time w)) in
      let location := get_or d3 "location" VNone in
      if negb (truthy location) || eq_str location "null" then
        Ok (set (set d3 "location" VNone) "needs_location_prompt" (VBool true))
      else
        match below_half (get_or d3 "location_confidence" (VInt 0)) with
        | Raise e => Raise e
        | Ok true => Ok (set d3 "needs_location_prompt" (VBool true))
        | Ok false => Ok d3
        end
  | _ => Raise (Exn "TypeError"
                    ("'" ++ type_name extracted_info
                     ++ "' object does not support item assignment")%string)
  end.

(** Every exception raised inside the [try] ends in the local analysis;
    nothing is raised outside it. *)
Definition process_query (query : string) : outcome dict :=
  let response_text := cerebras_llama_call (process_prompt query) in
  let recovered : option value :=
    match json_loads w response_text with
    | Some v => Some v
    | None =>
        let v := extract_json_from_string response_text in
        if truthy v then Some v else None
    end in
  match recovered with
  | None => Ok (orchestrator_local_process_query query)
  | Some extracted_info =>
      match annotate query extracted_info with
      | Ok d => Ok d
      | Raise _ => Ok (orchestrator_local_process_query query)
      end
  end.

Definition intent_prompt_head : string := Py.qq
"
    Analyze the following emergency query and classify its primary intent as one of these categories.
    Return your answer as a JSON object with the following structure:
    {
        `intent`: `rescue|resource|information`,
        `confidence`: 0-100,
        `reasoning`: `brief explanation of classification`
    }
    
    Where:
    - `rescue`: User needs immediate life-saving assistance
    - `resource`: User needs to locate specific resources/contacts
    - `information`: User is seeking general information or status updates
    
    Query: `".
Definition intent_prompt_location : string := Py.qq
"`
    Location: ".
Definition intent_prompt_crisis : string := Py.qq
"
    Crisis Type: ".
Definition intent_prompt_tail : string := Py.qq
"
    
    JSON Response:
    ".

Definition intent_prompt (query : string) (query_info : dict) : string :=
  (intent_prompt_head ++ query
   ++ intent_prompt_location
   ++ format (repr w) (get_or query_info "location" (VStr "Unknown"))
   ++ intent_prompt_crisis
   ++ format (repr w) (get_or query_info "crisis_type" (VStr "Unknown"))
   ++ intent_prompt_tail)%string.

Definition intent_decision (intent : string) (confidence : Z)
  (reasoning : string) : dict :=
  [("intent", VStr intent); ("confidence", VInt confidence);
   ("reasoning", VStr reasoning)].

(** The keyword ladder of the outer [except] of step 2. *)
Definition local_classification (query : string) : value * dict :=
  let lower_query := Py.lower query in
  if Py.any_in lower_query rescue_words then
    (VStr "rescue",
     intent_decision "rescue" 70
       "Local classification based on emergency keywords")
  else if Py.any_in lower_query resource_words then
    (VStr "resource",
     intent_decision "resource" 70
       "Local classification based on resource keywords")
  else
    (VStr "information",
     intent_decision "information" 70
       "Local classification defaulting to information").

(** Step 2.  A reply that does not parse leaves the defaults; a reply that
    parses to something other than an object makes [.get] raise, which the
    outer [except] answers with the keyword ladder. *)
Definition classify_intent (query : string) (query_info : dict)
  : value * dict :=
  let intent_response := cerebras_llama_call (intent_prompt query query_info) in
  match json_loads w intent_response with
  | None =>
      (VStr "information",
       intent_decision "information" 60
         "Default classification due to API issue")
  | Some (VDict intent_data) =>
      (get_or intent_data "intent" (VStr "information"), intent_data)
  | Some _ => local_classification query
  end.

Definition location_request : string :=
  "I need to know your location to help with this request. Can you share your current location?".

Definition error_message_head : string :=
"
            I apologize, but I encountered an error while processing your request: ".
Definition error_message_tail : string :=
". 
            
            If this is a life-threatening emergency, please immediately contact your local emergency services:
            - In most countries, dial 911 or 112 for emergency services
            - If possible, provide clear details about your location and situation
            
            Please try again with your request in a moment.
            ".

(** [response.get(k) if isinstance(response, dict) else other] *)
Definition field_or (response : value) (k : string) (other : value) : value :=
  match response with
  | VDict d => get_or d k VNone
  | _ => other
  end.

(** The outermost [except] of step 3. *)
Definition last_resort (query intent : string) (query_info : dict) (e : exn)
  : outcome value :=
  let query_info :=
    if negb (truthy (VDict query_info))
    then orchestrator_local_process_query query else query_info in
  match orchestrator_generate_local_response (repr w) query query_info with
  | Ok local_response =>
      Ok (VDict (set (set (set (set local_response
            "intent" (VStr intent))
            "query_info" (VDict query_info))
            "used_local_fallback" (VBool true))
            "error" (VStr (message e))))
  | Raise fallback_error =>
      Ok (VDict [("response",
                  VStr (Py.strip (error_message_head ++ message e
                                  ++ error_message_tail)));
                 ("intent", VStr intent);
                 ("query_info", VDict query_info);
                 ("error",
                  VStr (message e ++ ". Fallback also failed: "
                        ++ message fallback_error));
                 ("is_error", VBool true);
                 ("used_local_fallback", VBool false)])
  end.

(** Step 3, for an intent that is a string. *)
Definition dispatch (query intent : string) (query_info : dict)
  (use_local_fallback : bool) : outcome value :=
  let handler :=
    if String.eqb intent "rescue" then rescue_run w
    else if String.eqb intent "resource" then resource_run w
    else information_run w in
  match handler query query_info with
  | Ok response =>
      Ok (VDict [("response", field_or response "response" response);
                 ("intent", VStr intent);
                 ("query_info", VDict query_info);
                 ("agent_data", field_or response "data" VNone);
                 ("used_local_fallback", VBool use_local_fallback)])
  | Raise _ =>
      let query_info :=
        if negb use_local_fallback
        then orchestrator_local_process_query query else query_info in
      match orchestrator_generate_local_response (repr w) query query_info with
      | Ok local_response =>
          Ok (VDict (set (set (set local_response
                "used_local_fallback" (VBool true))
                "intent" (VStr intent))
                "query_info" (VDict query_info)))
      | Raise e => last_resort query intent query_info e
      end
  end.

Definition route_query (query : string) : outcome value :=
  let (use_local_fallback, query_info) :=
    match process_query query with
    | Ok query_info => (false, query_info)
    | Raise _ => (true, orchestrator_local_process_query query)
    end in
  if use_local_fallback && truthy (VDict query_info) then
    match orchestrator_generate_local_response (repr w) query query_info with
    | Ok result => Ok (VDict result)
    | Raise e => Raise e
    end
  else if truthy (get_or query_info "needs_location_prompt" (VBool false))
          && negb (truthy (get_or query_info "location" VNone)) then
    Ok (VDict [("response", VStr location_request);
               ("needs_location", VBool true);
               ("query_info", VDict query_info);
               ("intent", VStr "pending_location")])
  else
    let (intent, intent_data) := classify_intent query query_info in
    match intent with
    | VStr intent => dispatch query intent query_info use_local_fallback
    | _ => Raise (no_attribute intent "upper")
    end.

End WithEnv.

End Orchestrator.

(* ================================================================== *)
(** ** Vocabulary of the properties *)

Module Spec.
Import Value.

(** [x] first occurs in [raw] before [y] first does. *)
Definition earlier (raw : list string) (x y : string) : Prop :=
  exists i j, Py.first_index x raw = Some i
              /\ Py.first_index y raw = Some j /\ i < j.

(** [out] holds every string of [raw] once, in the order of their first
    occurrences. *)
Definition first_seen (raw out : list string) : Prop :=
  NoDup out
  /\ (forall x, In x out <-> In x raw)
  /\ StronglySorted (earlier raw) out.

(** The lists each pass scans out of the text, before deduplication. *)
Definition scanned_emergency (t : string) : list string :=
  ResourceAgent.cleaned_emergency_phones t.
Definition scanned_phones (t : string) : list string :=
  ResourceAgent.cleaned_phones (Py.fromkeys (ResourceAgent.cleaned_emergency_phones t)) t.
Definition scanned_emails (t : string) : list string :=
  Re.findall ResourceAgent.email_pattern t.
Definition scanned_addresses (t : string) : list string :=
  ResourceAgent.final_addresses
    (ResourceAgent.compiled_addresses (ResourceAgent.address_candidates t)).

(** [r] sets no group in a match: its groups, if any, are inside
    look-arounds. *)
Fixpoint groupless (r : Re.re) : bool :=
  match r with
  | Re.Cat a b | Re.Alt a b => groupless a && groupless b
  | Re.Rep _ _ _ a => groupless a
  | Re.Grp _ _ => false
  | _ => true
  end.

(** No opening square bracket among the characters. *)
Definition bracket_free (l : list ascii) : Prop :=
  Forall (fun c => c <> "["%char) l.

(** The position [z'] is at or after the position [z] in the same text. *)
Definition at_or_after (z' z : Re.cursor) : Prop :=
  exists pre, Re.after z = pre ++ Re.after z'.

Definition keys (d : dict) : list string := map fst d.

Definition is_str (v : value) : bool :=
  match v with VStr _ => true | _ => false end.

(** [s] ends with [suffix]. *)
Definition endswith (s suffix : string) : Prop :=
  exists front, s = (front ++ suffix)%string.

(** The query-info record step 1 of [route_query] goes on with, and the
    intent step 2 gives it. *)
Definition analysed (w : Orchestrator.env) (query : string) : dict :=
  match Orchestrator.process_query w query with
  | Ok query_info => query_info
  | Raise _ => Orchestrator.orchestrator_local_process_query query
  end.

Definition classified_intent (w : Orchestrator.env) (query : string) : value :=
  fst (Orchestrator.classify_intent w query (analysed w query)).

(** The key sets of the records [route_query] returns: the location
    request, an answer (a handler's or the local responder's), the local
    answer after an error in step 3, and the last-resort message. *)
Definition pending_keys : list string :=
  ["response"; "needs_location"; "query_info"; "intent"].
Definition answer_keys : list string :=
  ["response"; "intent"; "query_info"; "agent_data"; "used_local_fallback"].
Definition failure_keys : list string :=
  ["response"; "intent"; "query_info"; "agent_data"; "used_local_fallback";
   "error"].
Definition fatal_keys : list string :=
  ["response"; "intent"; "query_info"; "error"; "is_error";
   "used_local_fallback"].

(** Every call of the inference helper fails: it raises or returns
    [None]. *)
Definition inference_fails (w : Orchestrator.env) : Prop :=
  forall prompt,
    Orchestrator.call_cerebras_api w prompt = Ok None
    \/ exists e, Orchestrator.call_cerebras_api w prompt = Raise e.

(** The orchestrator whose rescue handler is the rescue agent's [run]. *)
Definition with_rescue_agent (w : Orchestrator.env) (r : RescueAgent.world)
  : Orchestrator.env :=
  Orchestrator.Env
    (Orchestrator.call_cerebras_api w) (Orchestrator.json_loads w)
    (Orchestrator.json_dumps w) (Orchestrator.repr w)
    (Orchestrator.time_time w)
    (fun query query_info => RescueAgent.run r query (Some query_info))
    (Orchestrator.resource_run w) (Orchestrator.information_run w).

End Spec.

(* ================================================================== *)
(** ** Concrete collaborators for the runs computed below *)

Module Scenario.
Import Value.

Definition down : exn := Exn "ConnectionError" "service unavailable".

(** No client, no search, no crawler. *)
Definition offline : ResourceAgent.services :=
  ResourceAgent.Services None None None Json.loads.

(** The rescue agent with no inference client and every call failing. *)
Definition rescue_down : RescueAgent.world :=
  RescueAgent.World false (fun _ => Raise down) offline
                    (Json.dumps_indent 2) Builtins.repr 0%float.

(** Every collaborator of the orchestrator raises. *)
Definition all_down : Orchestrator.env :=
  Orchestrator.Env (fun _ => Raise down) Json.loads Json.dumps Builtins.repr
                   0%float
                   (fun _ _ => Raise down) (fun _ _ => Raise down)
                   (fun _ _ => Raise down).

(** The inference service answers with text that holds no JSON; the
    handlers raise. *)
Definition babbling : Orchestrator.env :=
  Orchestrator.Env (fun _ => Ok (Some "Simulated response for: nothing"))
                   Json.loads Json.dumps Builtins.repr 0%float
                   (fun _ _ => Raise down) (fun _ _ => Raise down)
                   (fun _ _ => Raise down).

(** The inference service answers every prompt with an object that
    names a location and carries a null intent. *)
Definition null_intent : Orchestrator.env :=
  Orchestrator.Env
    (fun _ => Ok (Some (Py.qq
       "{`location`: `Paris`, `location_confidence`: 1, `intent`: null}")))
    Json.loads Json.dumps Builtins.repr 0%float
    (fun _ _ => Raise down) (fun _ _ => Raise down) (fun _ _ => Raise down).

Definition fire_query : string := "there is a fire near me".

(** A query whose local analysis finds a location that is the empty
    string. *)
Definition blank_place_query : string := "help I am at  ".

End Scenario.

(* ================================================================== *)
(** ** Operations on values the remaining handlers use *)

Module Dynamic.
Import Value.

(** [len(v)] *)
Definition len (v : value) : outcome nat :=
  match v with
  | VStr s => Ok (String.length s)
  | VList l => Ok (List.length l)
  | VDict d => Ok (List.length d)
  | _ => Raise (Exn "TypeError"
                    ("object of type '" ++ type_name v ++ "' has no len()")%string)
  end.

(** [sep.join(v)] for a value that may not be iterable. *)
Definition join_iterable (sep : string) (v : value) : outcome string :=
  match v with
  | VStr _ | VList _ | VDict _ => items <- iterate v ;; join_values sep 0 items
  | _ => Raise (Exn "TypeError" "can only join an iterable")
  end.

(** [sum(f(x) for x in l)] *)
Fixpoint sum_of {A : Type} (f : A -> outcome nat) (l : list A) : outcome nat :=
  match l with
  | [] => Ok 0
  | x :: t => n <- f x ;; m <- sum_of f t ;; Ok (n + m)
  end.

(** [query_info.get('location')] when [query_info and
    query_info.get('location')] holds. *)
Definition given_location (query_info : option dict) : option value :=
  match query_info with
  | Some (kv :: d) =>
      let location := get_or (kv :: d) "location" VNone in
      if truthy location then Some location else None
  | _ => None
  end.

End Dynamic.

(* ================================================================== *)
(** ** [agents/resource_agent.py]: [run] on a query *)

Module ResourceHandler.
Import Value Dynamic.

Section WithServices.
Variable s : ResourceAgent.services.
Variable repr : value -> string.
Variable time_time : float.

Definition fmt (v : value) : string := format repr v.

Definition not_found : string :=
  "I couldn't find any specific resources for your query. Please try again with more details about your location and the type of emergency.".

Definition opening : string :=
  "Here are the emergency contacts I found for you:".

Definition no_contacts : string :=
  (Py.nl ++ "I couldn't find specific contact information for the resources. Please try contacting general emergency services or check official government websites for your location.")%string.

(** One of the four lists of a source: the heading and a line per item. *)
Definition listing (heading key : string) (contact_info : value)
  : outcome (list string) :=
  v <- attr_get contact_info key VNone ;;
  if truthy v then
    x <- subscript contact_info key ;;
    items <- iterate x ;;
    Ok ((Py.nl ++ heading)%string
        :: map (fun item => ("- " ++ fmt item)%string) items)
  else Ok [].

(** The body of the loop over [all_contacts_by_url.items()].  The inner
    loop runs over [urls], a list of strings, and calls [get] on its first
    item. *)
Definition section_for (urls : list string) (entry : string * value)
  : outcome (list string) :=
  let (url, contact_info) := entry in
  failed <- py_in "error" contact_info ;;
  if failed then Ok []
  else
    source_title <-
      match urls with
      | [] => Ok url
      | result :: _ => Raise (no_attribute (VStr result) "get")
      end ;;
    a <- listing "EMERGENCY NUMBERS:" "emergency_phone" contact_info ;;
    b <- listing "OTHER CONTACT NUMBERS:" "phone" contact_info ;;
    c <- listing "EMAIL CONTACTS:" "email" contact_info ;;
    d <- listing "PHYSICAL LOCATIONS:" "address" contact_info ;;
    Ok ((Py.nl ++ "--- Contacts from " ++ source_title ++ " ---")%string
        :: a ++ b ++ c ++ d).

(** The value [contact_info] holds after the loop: that of the last
    entry.  The dictionary of a list of URLs that is not empty has one. *)
Definition last_contact_info (all_contacts_by_url : dict) : outcome value :=
  match rev all_contacts_by_url with
  | (_, contact_info) :: _ => Ok contact_info
  | [] => Raise (Exn "UnboundLocalError" "contact_info")
  end.

(** The formatting part of [run], for [is_subroutine=False]. *)
Definition present (query : string) (urls : list string)
  (query_info : option dict) : outcome value :=
  let all_contacts_by_url :=
    ResourceAgent.crawl_and_extract_contacts_all_urls s urls in
  sections <- each (section_for urls) all_contacts_by_url ;;
  let response_parts :=
    match sections with
    | [] => [opening; no_contacts]
    | _ :: _ => opening :: sections
    end in
  let response_text := Py.join Py.nl response_parts in
  contact_info <- last_contact_info all_contacts_by_url ;;
  emergency <- attr_get contact_info "emergency" (VList []) ;;
  phone <- attr_get contact_info "phone" (VList []) ;;
  email <- attr_get contact_info "email" (VList []) ;;
  address <- attr_get contact_info "address" (VList []) ;;
  websites <- attr_get contact_info "websites" (VList []) ;;
  let structured_data :=
    VDict [("timestamp", VFloat time_time);
           ("query", VStr query);
           ("urls_searched", strs urls);
           ("contact_info",
            VDict [("emergency", emergency); ("phone", phone);
                   ("email", email); ("address", address);
                   ("websites", websites)]);
           ("resource_types", VList [])] in
  let location :=
    match given_location query_info with
    | Some l => l
    | None => VNone
    end in
  contact_count <-
    sum_of (fun k => x <- attr_get contact_info k (VList []) ;; len x)
           ["emergency"; "phone"; "email"; "address"] ;;
  Ok (VDict [("response", VStr response_text);
             ("data", structured_data);
             ("info_type", VStr "resource_information");
             ("location", location);
             ("contact_count", VInt (Z.of_nat contact_count))]).

(** [run(query, update_callback, query_info)], the call the orchestrator
    makes: a query string in. *)
Definition run_query (query : string) (query_info : option dict)
  : outcome value :=
  match ResourceAgent.search_web s query 3 with
  | [] => Ok (VStr not_found)
  | r :: rest =>
      present query (map ResourceAgent.result_url (r :: rest)) query_info
  end.

End WithServices.

End ResourceHandler.

(* ================================================================== *)
(** ** [agents/enhanced_resource_agent.py] *)

Module EnhancedResourceAgent.
Import Value Dynamic.

(** The function has the text of the resource agent's. *)
Definition extract_contacts_from_markdown (markdown_text : string)
  : ResourceAgent.contacts :=
  ResourceAgent.extract_contacts_from_markdown markdown_text.

(** What the module calls and does not define: whether [crawl4ai] was
    imported, the crawler (the page's markdown, if any), the search helper
    of [utils.ai_helpers] (the URLs of its results, or the exception
    raised on the way to them), the order in which [list(set(_))]
    enumerates, and [repr]. *)
Record services : Type := Services {
  CRAWL_AVAILABLE : bool;
  arun : string -> outcome (option string);
  call_exa_api : string -> nat -> outcome (list string);
  list_of_set : list string -> list string;
  repr : value -> string
}.

Definition examples (error : string) : value :=
  VDict [("error", VStr error);
         ("phone", strs ["Example: 1-800-RED-CROSS"]);
         ("emergency_phone", strs ["911"]);
         ("email", strs ["example@emergency.org"]);
         ("address",
          strs ["Example emergency response center, 123 Main St"])].

Definition fallback_urls : list string :=
  ["https://ndrf.gov.in/contact-us";
   "https://www.nhc.noaa.gov/contact.shtml";
   "https://www.ready.gov/contacts"].

Section WithServices.
Variable s : services.

Definition crawl_and_extract_contacts_HYBRID (url : string) : value :=
  if negb (CRAWL_AVAILABLE s) then
    examples "Web crawling not available - missing dependencies"
  else
    match arun s url with
    | Ok None => VDict [("error", VStr "No content found")]
    | Ok (Some EmptyString) => VDict [("error", VStr "No content found")]
    | Ok (Some html_content) =>
        ResourceAgent.contacts_value
          (extract_contacts_from_markdown html_content)
    | Raise crawler_error =>
        if Py.contains (message crawler_error)
                       "Playwright browsers not installed"
        then examples "Playwright browsers not installed. Try running install_dependencies.py first."
        else VDict [("error", VStr (message crawler_error))]
    end.

(** The URLs a query leads to. *)
Definition urls_of_query (query : string) : list string :=
  match call_exa_api s (query ++ " emergency contact disaster") 3 with
  | Ok urls =>
      if List.length urls <? 2 then list_of_set s (urls ++ fallback_urls)
      else urls
  | Raise _ => fallback_urls
  end.

(** The body of the loop over [all_contacts_by_url.items()]. *)
Definition section_for (entry : string * value) : outcome (list string) :=
  let (url, contact_info) := entry in
  failed <- py_in "error" contact_info ;;
  if failed then Ok []
  else
    a <- ResourceHandler.listing (repr s) "EMERGENCY NUMBERS:"
           "emergency_phone" contact_info ;;
    b <- ResourceHandler.listing (repr s) "OTHER CONTACT NUMBERS:"
           "phone" contact_info ;;
    c <- ResourceHandler.listing (repr s) "EMAIL CONTACTS:"
           "email" contact_info ;;
    d <- ResourceHandler.listing (repr s) "PHYSICAL LOCATIONS:"
           "address" contact_info ;;
    Ok ((Py.nl ++ "--- Contacts from " ++ url ++ " ---")%string
        :: a ++ b ++ c ++ d).

(** [run]: a query or a list of URLs in; the contacts by URL out for a
    subroutine call, the text for the user otherwise. *)
Definition run (query_or_urls : string + list string) (is_subroutine : bool)
  : outcome value :=
  let urls :=
    match query_or_urls with
    | inl query => urls_of_query query
    | inr urls => urls
    end in
  let all_contacts_by_url :=
    fold_left (fun acc url => set acc url (crawl_and_extract_contacts_HYBRID url))
              urls [] in
  if is_subroutine then Ok (VDict all_contacts_by_url)
  else
    sections <- each section_for all_contacts_by_url ;;
    let response_parts :=
      match sections with
      | [] => [ResourceHandler.opening; ResourceHandler.no_contacts]
      | _ :: _ => ResourceHandler.opening :: sections
      end in
    Ok (VStr (Py.join Py.nl response_parts)).

End WithServices.

End EnhancedResourceAgent.

(* ================================================================== *)
(** ** [agents/information_agent.py] *)

Module InformationAgent.
Import Value Dynamic.

(** What the information agent calls and does not define: the inference
    client ([None] when there is none; its call may raise, or carry no
    content), [json.loads], [json.dumps(_, indent=2)], [repr] and the
    clock.  [update_callback] is left out, as in the orchestrator. *)
Record world : Type := World {
  client : option (string -> outcome (option string));
  json_loads : string -> option value;
  json_dumps_indent : value -> string;
  repr : value -> string;
  time_time : float
}.

Definition unavailable : string :=
  "Weather information unavailable. Please check local weather services.".

Definition get_evacuation_routes : value :=
  VList [VDict [("name", VStr "Primary Evacuation Route");
                ("status", VStr "Unknown");
                ("description",
                 VStr "Please contact local authorities for current evacuation routes");
                ("closure_points", VList [])]].

Definition get_emergency_shelter_locations : value :=
  VList [VDict [("name", VStr "Local Emergency Shelter");
                ("address",
                 VStr "Please contact local authorities for current shelter locations");
                ("status", VStr "Unknown");
                ("amenities", VList [])]].

Definition keyword_location (query : string) : value :=
  let lower_query := Py.lower query in
  if Py.contains lower_query "punjab" then
    VDict [("location_name", VStr "Punjab, India");
           ("lat", VFloat 31.1471); ("lon", VFloat 75.3412)]
  else if Py.any_in lower_query ["houston"; "texas"] then
    VDict [("location_name", VStr "Houston, Texas, USA");
           ("lat", VFloat 29.7604); ("lon", VFloat (-95.3698))]
  else if Py.contains lower_query "miami" then
    VDict [("location_name", VStr "Miami, Florida, USA");
           ("lat", VFloat 25.7617); ("lon", VFloat (-80.1918))]
  else
    VDict [("location_name", VStr "Unknown Location");
           ("lat", VFloat 0.0); ("lon", VFloat 0.0)].

(** The information needs: weather, evacuation, shelter. *)
Record needs : Type := Needs {
  weather : bool;
  evacuation : bool;
  shelter : bool
}.

Definition everything : needs := Needs true true true.

Definition weather_words : list string :=
  ["weather"; "forecast"; "flood"; "rain"; "storm"; "alert"].
Definition evacuation_words : list string :=
  ["evacuation"; "evacuate"; "route"; "road"; "path"; "escape"].
Definition shelter_words : list string :=
  ["shelter"; "safe"; "safety"; "camp"; "stay"].

Definition keyword_needs (query : string) : needs :=
  let lower_query := Py.lower query in
  let n := Needs (Py.any_in lower_query weather_words)
                 (Py.any_in lower_query evacuation_words)
                 (Py.any_in lower_query shelter_words) in
  if weather n || evacuation n || shelter n then n else everything.

Definition location_prompt_head : string := Py.qq
"
        Analyze the following query and extract location information.
        Return ONLY a JSON object with keys:
        - `location_name`: The name of the location mentioned
        - `lat`: The approximate latitude as a float
        - `lon`: The approximate longitude as a float
        
        Query: `".
Definition location_prompt_tail : string := Py.qq
"`
        ".

Definition needs_prompt_head : string := Py.qq
"
        Analyze this query and determine what information the user needs.
        Return ONLY a JSON object with boolean keys: `weather`, `evacuation`, `shelter`
        
        Query: `".
Definition needs_prompt_tail : string := Py.qq
"`
        ".

Definition synthesis_prompt_1 : string := Py.qq
"
        You are an AI assistant named C.L.A.R.I.O.N., helping during a climate emergency.
        Generate a clear, informative response based on the following information:
        
        USER QUERY: `".
Definition synthesis_prompt_2 : string := Py.qq
"`
        
        LOCATION: ".
Definition synthesis_prompt_3 : string := Py.qq
" (Coordinates: ".
Definition synthesis_prompt_4 : string := Py.qq
", ".
Definition synthesis_prompt_5 : string := Py.qq
")
        
        COLLECTED DATA:
        ".
Definition synthesis_prompt_6 : string := Py.qq
"
        
        Format your response as a helpful information brief with clear sections for:
        - Weather alerts (if any)
        - Evacuation routes (if available)
        - Shelter information (if available)
        - Safety recommendations
        
        Keep your response factual and actionable. If information is missing, acknowledge that.
        ".

Definition safety_heading : string :=
  (Py.nl ++ "SAFETY RECOMMENDATION:")%string.
Definition safety_recommendation : string :=
  "Please follow all instructions from local authorities and stay tuned to official communication channels for updates.".

Section WithWorld.
Variable w : world.

Definition fmt (v : value) : string := format (repr w) v.

Definition extract_json_from_string (text : string) : value :=
  ResourceAgent.extract_json_from_string (json_loads w) text.

Definition ask_ai (prompt : string) : option string :=
  match client w with
  | None => None
  | Some create =>
      match create prompt with
      | Ok content => content
      | Raise _ => None
      end
  end.

Definition get_weather_alerts (lat lon : value) : value :=
  VDict [("location", VStr (fmt lat ++ "," ++ fmt lon));
         ("alerts", VList []);
         ("forecast",
          VDict [("next_24_hours", VStr unavailable);
                 ("next_48_hours", VStr unavailable)])].

Definition extract_location_from_query (query : string) : outcome value :=
  match client w with
  | Some _ =>
      match ask_ai (location_prompt_head ++ query ++ location_prompt_tail) with
      | Some (String a r) =>
          let location_info := extract_json_from_string (String a r) in
          if truthy location_info then
            has_lat <- py_in "lat" location_info ;;
            if has_lat then
              has_lon <- py_in "lon" location_info ;;
              if has_lon then Ok location_info
              else Ok (keyword_location query)
            else Ok (keyword_location query)
          else Ok (keyword_location query)
      | _ => Ok (keyword_location query)
      end
  | None => Ok (keyword_location query)
  end.

Definition alert_line (alert : value) : outcome (list string) :=
  alert_type <- attr_get alert "type" (VStr "Alert") ;;
  severity <- attr_get alert "severity" (VStr "Unknown") ;;
  description <- attr_get alert "description" (VStr "No details available") ;;
  Ok ["- " ++ fmt alert_type ++ " (" ++ fmt severity ++ "): "
      ++ fmt description]%string.

Definition forecast_line (label key : string) (forecast : value)
  : outcome (list string) :=
  present <- py_in key forecast ;;
  if present then
    x <- subscript forecast key ;;
    Ok [("- " ++ label ++ ": " ++ fmt x)%string]
  else Ok [].

Definition weather_lines (weather_data : dict) : outcome (list string) :=
  let alerts := get_or weather_data "alerts" VNone in
  a <- (if truthy alerts then
          l <- iterate alerts ;;
          lines <- each alert_line l ;;
          Ok ((Py.nl ++ "ACTIVE WEATHER ALERTS:")%string :: lines)
        else Ok []) ;;
  b <- (if has_key weather_data "forecast" then
          let forecast := get_or weather_data "forecast" (VDict []) in
          x <- forecast_line "Next 24 hours" "next_24_hours" forecast ;;
          y <- forecast_line "Next 48 hours" "next_48_hours" forecast ;;
          Ok ((Py.nl ++ "WEATHER FORECAST:")%string :: x ++ y)
        else Ok []) ;;
  Ok (a ++ b).

Definition route_lines (route : value) : outcome (list string) :=
  name <- attr_get route "name" (VStr "Unnamed Route") ;;
  status <- attr_get route "status" (VStr "Unknown") ;;
  desc <- attr_get route "description" (VStr "No description available") ;;
  let status_str :=
    if negb (eq_str status "Open") then (" (" ++ fmt status ++ ")")%string
    else EmptyString in
  closures <- attr_get route "closure_points" (VList []) ;;
  items <- iterate closures ;;
  Ok (("- " ++ fmt name ++ status_str ++ ": " ++ fmt desc)%string
      :: map (fun closure => ("  * CLOSURE: " ++ fmt closure)%string) items).

Definition shelter_lines (shelter : value) : outcome (list string) :=
  name <- attr_get shelter "name" (VStr "Unnamed Shelter") ;;
  address <- attr_get shelter "address" (VStr "Address unknown") ;;
  status <- attr_get shelter "status" (VStr EmptyString) ;;
  let status_str :=
    if truthy status then (" (" ++ fmt status ++ ")")%string
    else EmptyString in
  has_capacity <- py_in "capacity" shelter ;;
  capacity <- (if has_capacity then
                 x <- subscript shelter "capacity" ;;
                 Ok [("  Capacity: " ++ fmt x)%string]
               else Ok []) ;;
  amenities <- attr_get shelter "amenities" (VList []) ;;
  listed <- (if truthy amenities then
               joined <- join_iterable ", " amenities ;;
               Ok [("  Amenities: " ++ joined)%string]
             else Ok []) ;;
  Ok ([("- " ++ fmt name ++ status_str)%string;
       ("  Address: " ++ fmt address)%string]
      ++ capacity ++ listed).

(** The body of the loop over [all_results]. *)
Definition result_lines (result : value) : outcome (list string) :=
  match result with
  | VDict weather_data =>
      if has_key weather_data "alerts" then weather_lines weather_data
      else Ok []
  | VList [] => Ok []
  | VList (first :: rest) =>
      has_status <- py_in "status" first ;;
      is_routes <- (if has_status then py_in "closure_points" first
                    else Ok false) ;;
      if is_routes then
        lines <- each route_lines (first :: rest) ;;
        Ok ((Py.nl ++ "EVACUATION ROUTES:")%string :: lines)
      else
        has_address <- py_in "address" first ;;
        if has_address then
          lines <- each shelter_lines (first :: rest) ;;
          Ok ((Py.nl ++ "EMERGENCY SHELTERS:")%string :: lines)
        else Ok []
  | _ => Ok []
  end.

(** [any(word in str(r).lower() for r in all_results)] *)
Definition mentions (word : string) (all_results : list value) : bool :=
  existsb (fun r => Py.contains (Py.lower (fmt r)) word) all_results.

Definition synthesis_prompt (query : string) (location_data : value)
  (all_results : list value) : outcome string :=
  let data_str := json_dumps_indent w (VList all_results) in
  name <- subscript location_data "location_name" ;;
  lat <- subscript location_data "lat" ;;
  lon <- subscript location_data "lon" ;;
  Ok (synthesis_prompt_1 ++ query
      ++ synthesis_prompt_2 ++ fmt name
      ++ synthesis_prompt_3 ++ fmt lat
      ++ synthesis_prompt_4 ++ fmt lon
      ++ synthesis_prompt_5 ++ data_str
      ++ synthesis_prompt_6)%string.

(** The function returns the reply of the inference service as it is (a
    string) when there is one, and a dictionary otherwise. *)
Definition generate_information_response (query : string)
  (location_data : value) (all_results : list value) : outcome value :=
  location <- attr_get location_data "location_name" VNone ;;
  coordinates <- attr_get location_data "coordinates" (VDict []) ;;
  let structured_data :=
    VDict [("location", location);
           ("coordinates", coordinates);
           ("timestamp", VFloat (time_time w));
           ("data_sources", VList all_results)] in
  ai_response <-
    match client w with
    | Some _ =>
        prompt <- synthesis_prompt query location_data all_results ;;
        Ok (ask_ai prompt)
    | None => Ok None
    end ;;
  match ai_response with
  | Some (String a r) => Ok (VStr (String a r))
  | _ =>
      name <- subscript location_data "location_name" ;;
      lines <- each result_lines all_results ;;
      let response_parts :=
        ("Here's the latest information for " ++ fmt name ++ ":")%string
        :: lines ++ [safety_heading; safety_recommendation] in
      let response_text := Py.join Py.nl response_parts in
      Ok (VDict [("response", VStr response_text);
                 ("data", structured_data);
                 ("info_type", VStr "emergency_information");
                 ("location", location);
                 ("has_weather_data", VBool (mentions "weather" all_results));
                 ("has_evacuation_data",
                  VBool (mentions "evacuation" all_results));
                 ("has_shelter_data", VBool (mentions "shelter" all_results))])
  end.

(** The needs the inference service reports; all three when it reports
    nothing usable. *)
Definition asked_needs (query : string) : outcome needs :=
  match ask_ai (needs_prompt_head ++ query ++ needs_prompt_tail) with
  | Some (String a r) =>
      let needs_info := extract_json_from_string (String a r) in
      if truthy needs_info then
        x <- attr_get needs_info "weather" (VBool true) ;;
        y <- attr_get needs_info "evacuation" (VBool true) ;;
        z <- attr_get needs_info "shelter" (VBool true) ;;
        Ok (Needs (truthy x) (truthy y) (truthy z))
      else Ok everything
  | _ => Ok everything
  end.

Definition run (query : string) (query_info : option dict) : outcome value :=
  location_data <-
    match given_location query_info with
    | Some location =>
        Ok (VDict [("location_name", location);
                   ("coordinates",
                    get_or (match query_info with Some d => d | None => [] end)
                           "coordinates" (VDict []))])
    | None => extract_location_from_query query
    end ;;
  _ <- subscript location_data "location_name" ;;
  info_needs <-
    match client w with
    | Some _ => asked_needs query
    | None => Ok (keyword_needs query)
    end ;;
  lat <- attr_get location_data "lat" (VInt 0) ;;
  lon <- attr_get location_data "lon" (VInt 0) ;;
  let all_results :=
    (if weather info_needs then [get_weather_alerts lat lon] else [])
    ++ (if evacuation info_needs then [get_evacuation_routes] else [])
    ++ (if shelter info_needs then [get_emergency_shelter_locations] else []) in
  generate_information_response query location_data all_results.

End WithWorld.

End InformationAgent.

(* ================================================================== *)
(** ** The orchestrator with the three agents as its handlers *)

Module System.
Import Value.

(** [route_query] calls each handler as [run(query, update_callback,
    query_info)].  [now] is what the clock reads when the resource agent
    asks it. *)
Definition assembled (w : Orchestrator.env) (r : RescueAgent.world)
  (s : ResourceAgent.services) (now : float) (i : InformationAgent.world)
  : Orchestrator.env :=
  Orchestrator.Env
    (Orchestrator.call_cerebras_api w) (Orchestrator.json_loads w)
    (Orchestrator.json_dumps w) (Orchestrator.repr w)
    (Orchestrator.time_time w)
    (fun query query_info => RescueAgent.run r query (Some query_info))
    (fun query query_info =>
       ResourceHandler.run_query s (Orchestrator.repr w) now
         query (Some query_info))
    (fun query query_info => InformationAgent.run i query (Some query_info)).

End System.

(* ================================================================== *)
(** ** Character classes, decided over the 256 characters *)

Module CharClass.

Definition all_ascii : list ascii := map ascii_of_nat (seq 0 256).

(** Every character of the class [p] is in the class [q]. *)
Definition included (p q : ascii -> bool) : bool :=
  forallb (fun c => implb (p c) (q c)) all_ascii.

(** Every match of [r] consumes a character of the class [q]. *)
Fixpoint demands (q : ascii -> bool) (r : Re.re) : bool :=
  match r with
  | Re.Chr p => included p q
  | Re.Cat a b => demands q a || demands q b
  | Re.Alt a b => demands q a && demands q b
  | Re.Rep _ lo _ a => (0 <? lo) && demands q a
  | Re.Grp _ a => demands q a
  | _ => false
  end.

(** Every character a match of [r] consumes is in the class [q]. *)
Fixpoint within (q : ascii -> bool) (r : Re.re) : bool :=
  match r with
  | Re.Chr p => included p q
  | Re.Cat a b | Re.Alt a b => within q a && within q b
  | Re.Rep _ _ _ a => within q a
  | Re.Grp _ a => within q a
  | _ => true
  end.

(** Every group a match of [r] sets holds characters of the class [q]
    only.  The groups of a look-around set nothing. *)
Fixpoint groups_within (q : ascii -> bool) (r : Re.re) : bool :=
  match r with
  | Re.Cat a b | Re.Alt a b => groups_within q a && groups_within q b
  | Re.Rep _ _ _ a => groups_within q a
  | Re.Grp _ a => within q a && groups_within q a
  | _ => true
  end.

(** From [z] to [z'] the matcher consumed [pre]. *)
Definition span (z z' : Re.cursor) (pre : list ascii) : Prop :=
  Re.after z = pre ++ Re.after z'
  /\ Re.before z' = rev pre ++ Re.before z.

(** Every group of [g] holds characters of the class [q] only. *)
Definition groups_in (q : ascii -> bool) (g : Re.caps) : Prop :=
  Forall (fun c => Forall (fun x => q x = true) (snd c)) g.

(** What a run from [z] with the groups [g] says of the call of the
    continuation [k] that gave [res]: where it happened and what was
    consumed on the way; under [W] the characters consumed are in [q],
    under [G] the groups stay in [q], under [D] a character of [d] was
    consumed. *)
Definition reached (q d : ascii -> bool) (W G D : bool)
  (z : Re.cursor) (g : Re.caps) (k : Re.cont) (res : Re.cursor * Re.caps)
  : Prop :=
  exists z' g' pre,
    k z' g' = Some res
    /\ span z z' pre
    /\ (W = true -> Forall (fun x => q x = true) pre)
    /\ (G = true -> groups_in q g -> groups_in q g')
    /\ (D = true -> exists x, In x pre /\ d x = true).

(** [[A-Za-z0-9._%+-@]], the characters of a match of [email_pattern]. *)
Definition email_char (c : ascii) : bool :=
  Py.isalpha_ascii c || Py.isdigit c || Ascii.eqb c "."%char
  || Ascii.eqb c "_"%char || Ascii.eqb c "%"%char || Ascii.eqb c "+"%char
  || Ascii.eqb c "-"%char || Ascii.eqb c "@"%char.

(** [[\d\s\+\(\)-]], the characters of the group of a [tel:] link. *)
Definition tel_char (c : ascii) : bool :=
  Py.isdigit c || Py.isspace c || Ascii.eqb c "+"%char
  || Ascii.eqb c "("%char || Ascii.eqb c ")"%char || Ascii.eqb c "-"%char.

(** A digit or a plus sign. *)
Definition dial_char (c : ascii) : bool :=
  Py.isdigit c || Ascii.eqb c "+"%char.

(** [[-.\s\(\)]], the characters [clean_phone] removes. *)
Definition separator (c : ascii) : bool :=
  Ascii.eqb c "-"%char || Ascii.eqb c "."%char || Py.isspace c
  || Ascii.eqb c "("%char || Ascii.eqb c ")"%char.

(** The string holds a word character. *)
Definition has_word (s : string) : Prop :=
  exists x, In x (Py.chars s) /\ Py.isword x = true.

End CharClass.

(* ================================================================== *)
(** ** Vocabulary of the properties of the handlers and the routing *)

Module Behaviour.
Import Value.

(** The test of step 1 of [route_query]: a prompt is asked for and the
    location is falsy. *)
Definition location_pending (query_info : dict) : bool :=
  truthy (get_or query_info "needs_location_prompt" (VBool false))
  && negb (truthy (get_or query_info "location" VNone)).

(** The first line of the local responder's three templates. *)
Definition local_heading (intent : string) : string :=
  if String.eqb intent "rescue" then "EMERGENCY RESCUE INFORMATION:"
  else if String.eqb intent "resource" then "EMERGENCY RESOURCE INFORMATION:"
  else "EMERGENCY INFORMATION:".

(** The handler step 3 picks for an intent. *)
Definition handler_of (w : Orchestrator.env) (intent : string)
  : string -> dict -> outcome value :=
  if String.eqb intent "rescue" then Orchestrator.rescue_run w
  else if String.eqb intent "resource" then Orchestrator.resource_run w
  else Orchestrator.information_run w.

Definition raised {A : Type} (x : outcome A) : bool :=
  match x with Raise _ => true | Ok _ => false end.

(** The call fails: it raises or returns [None]. *)
Definition fails (x : outcome (option string)) : Prop :=
  x = Ok None \/ exists e, x = Raise e.

(** The location the information agent works with when it has no
    client: the one provided, or the one of its keyword table. *)
Definition expected_location (query : string) (query_info : option dict)
  : value :=
  match Dynamic.given_location query_info with
  | Some location => location
  | None =>
      match InformationAgent.keyword_location query with
      | VDict d => get_or d "location_name" VNone
      | _ => VNone
      end
  end.

(** What a crawl leaves when there is no chat client: an error record or
    the four lists of the regular-expression pass. *)
Definition plain (v : value) : Prop :=
  (exists m, v = VDict [("error", VStr m)])
  \/ exists c, v = ResourceAgent.contacts_value c.

(** An entry and a source of [contactable_aid] as the fallback brief
    builds them. *)
Definition tagged_text (v : value) : Prop :=
  exists kind x, v = RescueAgent.tagged kind (VStr x).

Definition listed_source (v : value) : Prop :=
  exists name entries,
    v = VDict [("name", VStr name); ("contacts", VList entries)]
    /\ Forall tagged_text entries.

Definition is_text (v : value) : Prop := exists s, v = VStr s.

(** What the enhanced crawl leaves: a record with an [error] key, or the
    four lists of the regular-expression pass. *)
Definition failed_or_found (v : value) : Prop :=
  (exists d, v = VDict d /\ has_key d "error" = true)
  \/ exists c, v = ResourceAgent.contacts_value c.

(** The rescue agent's world with the client taken away. *)
Definition without_client (w : RescueAgent.world) : RescueAgent.world :=
  RescueAgent.World false (RescueAgent.call_cerebras_api w)
    (RescueAgent.services w) (RescueAgent.json_dumps_indent w)
    (RescueAgent.repr w) (RescueAgent.time_time w).

(** Every reply of the inference helper is one of its simulated
    responses. *)
Definition simulated (w : RescueAgent.world) : Prop :=
  forall prompt,
    exists r,
      RescueAgent.call_cerebras_api w prompt = Ok (Some r)
      /\ ResourceAgent.nonempty r = true
      /\ Py.startswith r "Simulated response for:" = true.

(** Every reply of the inference helper is text in which no object is
    found: [json.loads] fails on it and [extract_json_from_string] finds
    nothing. *)
Definition unparseable (w : Orchestrator.env) : Prop :=
  forall prompt,
    exists r,
      Orchestrator.call_cerebras_api w prompt = Ok (Some r)
      /\ Orchestrator.json_loads w r = None
      /\ truthy (Orchestrator.extract_json_from_string w r) = false.

(** *** Collaborators for the runs computed below *)

(** The inference service analyses every query as being in Paris, with
    the confidence given, and fails on the classification prompt. *)
Definition classifier_down (confidence : string) : Orchestrator.env :=
  Orchestrator.Env
    (fun prompt =>
       if Py.contains prompt "classify" then Raise Scenario.down
       else Ok (Some (Py.qq "{`location`: `Paris`, `location_confidence`: "
                      ++ confidence ++ "}")%string))
    Json.loads Json.dumps Builtins.repr 0%float
    (fun _ _ => Raise Scenario.down) (fun _ _ => Raise Scenario.down)
    (fun _ _ => Raise Scenario.down).

(** The search finds one page; the crawler reads a telephone link on it,
    or cannot be reached. *)
Definition one_hit : list ResourceAgent.search_result :=
  [ResourceAgent.SearchResult "Relief desk" "https://relief.example/contact"
     (Some "Call the relief desk")].

Definition reachable : ResourceAgent.services :=
  ResourceAgent.Services None (Some (fun _ _ => Ok one_hit))
    (Some (fun _ => Ok (Some "[Call](tel:+1 800 555 0199)"))) Json.loads.

Definition unreachable : ResourceAgent.services :=
  ResourceAgent.Services None (Some (fun _ _ => Ok one_hit))
    (Some (fun _ => Raise Scenario.down)) Json.loads.

(** The information agent without a client, and with a client that
    answers nothing. *)
Definition information_offline : InformationAgent.world :=
  InformationAgent.World None Json.loads (Json.dumps_indent 2)
                         Builtins.repr 0%float.

Definition information_silent : InformationAgent.world :=
  InformationAgent.World (Some (fun _ => Ok None)) Json.loads
                         (Json.dumps_indent 2) Builtins.repr 0%float.

(** The inference service wraps the object of its reply in prose. *)
Definition chatty : Orchestrator.env :=
  Orchestrator.Env
    (fun _ => Ok (Some ("Sure, here it is: "
                        ++ Py.qq "{`location`: `Paris`, `location_confidence`: 1}"
                        ++ " I hope this helps.")%string))
    Json.loads Json.dumps Builtins.repr 0%float
    (fun _ _ => Raise Scenario.down) (fun _ _ => Raise Scenario.down)
    (fun _ _ => Raise Scenario.down).

(** The rescue agent with a client whose helper only simulates. *)
Definition rescue_simulated : RescueAgent.world :=
  RescueAgent.World true
    (fun prompt => Ok (Some ("Simulated response for: " ++ prompt)%string))
    Scenario.offline (Json.dumps_indent 2) Builtins.repr 0%float.

(** The inference service analyses every query as being in Paris and
    classifies it as a request for resources. *)
Definition resource_minded : Orchestrator.env :=
  Orchestrator.Env
    (fun prompt =>
       if Py.contains prompt "classify"
       then Ok (Some (Py.qq "{`intent`: `resource`, `confidence`: 80}"))
       else Ok (Some (Py.qq "{`location`: `Paris`, `location_confidence`: 1}")))
    Json.loads Json.dumps Builtins.repr 0%float
    (fun _ _ => Raise Scenario.down) (fun _ _ => Raise Scenario.down)
    (fun _ _ => Raise Scenario.down).

End Behaviour.

(* ================================================================== *)
(** ** Properties of [dict.fromkeys] *)

Module FromKeys.
Import Py Spec.

Lemma mem_In (x : string) (l : list string) : mem x l = true <-> In x l.
Proof.
  unfold mem. rewrite existsb_exists. split.
  - intros [y [Hy He]]. apply String.eqb_eq in He. now subst.
  - intros H. exists x. split; [assumption | apply String.eqb_refl].
Qed.

Lemma mem_false (x : string) (l : list string) : mem x l = false <-> ~ In x l.
Proof.
  rewrite <- mem_In. destruct (mem x l); split; intro H;
    try discriminate; try reflexivity; try (intro; discriminate).
  exfalso. now apply H.
Qed.

Lemma fromkeys_snoc (l : list string) (x : string) :
  fromkeys (l ++ [x]) = add_key (fromkeys l) x.
Proof. unfold fromkeys. now rewrite fold_left_app. Qed.

Lemma first_index_app_l (a : string) (p l : list string) (i : nat) :
  first_index a p = Some i -> first_index a (p ++ l) = Some i.
Proof.
  revert i. induction p as [|y p IH]; intros i; simpl.
  - discriminate.
  - destruct (String.eqb a y); [trivial|].
    destruct (first_index a p) as [k|]; simpl; [|discriminate].
    intros H. now rewrite (IH k eq_refl).
Qed.

Lemma first_index_In (a : string) (p : list string) :
  In a p -> exists i, first_index a p = Some i /\ i < List.length p.
Proof.
  induction p as [|y p IH]; simpl; [contradiction|].
  intros H. destruct (String.eqb a y) eqn:E.
  - exists 0. split; [reflexivity | lia].
  - destruct H as [H|H].
    + subst. rewrite String.eqb_refl in E. discriminate.
    + destruct (IH H) as [i [Hi Hl]]. exists (S i). rewrite Hi. split; [reflexivity | lia].
Qed.

Lemma first_index_new (x : string) (p : list string) :
  ~ In x p -> first_index x (p ++ [x]) = Some (List.length p).
Proof.
  induction p as [|y p IH]; simpl; intros H.
  - now rewrite String.eqb_refl.
  - destruct (String.eqb x y) eqn:E.
    + apply String.eqb_eq in E. subst. exfalso. apply H. now left.
    + rewrite IH; [reflexivity|]. intro. apply H. now right.
Qed.

Lemma earlier_app (raw l : list string) (a b : string) :
  earlier raw a b -> earlier (raw ++ l) a b.
Proof.
  intros [i [j [Hi [Hj Hlt]]]]. exists i, j.
  repeat split; auto using first_index_app_l.
Qed.

Lemma sorted_weaken (R S : string -> string -> Prop) (l : list string) :
  (forall a b, R a b -> S a b) -> StronglySorted R l -> StronglySorted S l.
Proof.
  intros H. induction 1 as [|a l Hs IH Hf]; constructor; auto.
  eapply Forall_impl; [|exact Hf]. intros b. apply H.
Qed.

Lemma sorted_snoc (R : string -> string -> Prop) (l : list string) (x : string) :
  StronglySorted R l -> Forall (fun a => R a x) l -> StronglySorted R (l ++ [x]).
Proof.
  induction 1 as [|a l Hs IH Hf]; intros Hx; simpl.
  - constructor; constructor.
  - inversion Hx; subst. constructor.
    + now apply IH.
    + apply Forall_app. split; [assumption | now constructor].
Qed.

Lemma nodup_snoc (l : list string) (x : string) :
  NoDup l -> ~ In x l -> NoDup (l ++ [x]).
Proof.
  induction 1 as [|a l Ha Hn IH]; intros Hx; simpl.
  - constructor; [intros [] | constructor].
  - constructor.
    + rewrite in_app_iff. intros [H|[H|[]]]; [now apply Ha|].
      subst. apply Hx. now left.
    + apply IH. intro. apply Hx. now right.
Qed.

(** [list(dict.fromkeys(raw))] keeps each string of [raw] once, in the
    order of first occurrence. *)
Lemma fromkeys_first_seen (raw : list string) : first_seen raw (fromkeys raw).
Proof.
  induction raw as [|x raw IH] using rev_ind.
  - repeat split; try constructor; auto.
  - destruct IH as [Hn [Hin Hs]]. rewrite fromkeys_snoc. unfold add_key.
    destruct (mem x (fromkeys raw)) eqn:E.
    + apply mem_In in E. repeat split.
      * exact Hn.
      * rewrite in_app_iff. rewrite Hin. tauto.
      * rewrite in_app_iff. intros [H|[H|[]]]; [now apply Hin|].
        subst. exact E.
      * eapply sorted_weaken; [|exact Hs]. intros a b. apply earlier_app.
    + apply mem_false in E. repeat split.
      * now apply nodup_snoc.
      * rewrite !in_app_iff. rewrite Hin. tauto.
      * rewrite !in_app_iff. rewrite Hin. tauto.
      * apply sorted_snoc.
        -- eapply sorted_weaken; [|exact Hs]. intros a b. apply earlier_app.
        -- apply Forall_forall. intros a Ha. apply Hin in Ha.
           destruct (first_index_In a raw Ha) as [i [Hi Hl]].
           exists i, (List.length raw). repeat split.
           ++ now apply first_index_app_l.
           ++ apply first_index_new. intro Hx. apply E. now apply Hin.
           ++ exact Hl.
Qed.

Lemma fromkeys_In (raw : list string) (x : string) :
  In x (fromkeys raw) <-> In x raw.
Proof. apply (fromkeys_first_seen raw). Qed.

End FromKeys.

(* ================================================================== *)
(** ** The matcher on a text without square brackets *)

Module MatcherProperties.
Import Re Spec.

Lemma at_or_after_refl (z : cursor) : at_or_after z z.
Proof. now exists []. Qed.

Lemma at_or_after_trans (z2 z1 z : cursor) :
  at_or_after z2 z1 -> at_or_after z1 z -> at_or_after z2 z.
Proof.
  intros [p H] [q K]. exists (q ++ p). rewrite K, H. now rewrite app_assoc.
Qed.

Lemma or_else_cases (x : answer) (y : unit -> answer) (res : cursor * caps) :
  or_else x y = Some res -> x = Some res \/ y tt = Some res.
Proof. unfold or_else. destruct x; intros H; [left | right]; assumption. Qed.

(** A repetition whose body sets no group calls its continuation with the
    groups it was given, at or after where it started. *)
Lemma rounds_groupless (body : cursor -> caps -> cont -> answer)
  (greedy : bool) (lo : nat) (hi : option nat) (k : cont)
  (res : cursor * caps) :
  (forall z g k', body z g k' = Some res ->
                  exists z', k' z' g = Some res /\ at_or_after z' z) ->
  forall fuel n z g,
    rounds body greedy lo hi k fuel n z g = Some res ->
    exists z', k z' g = Some res /\ at_or_after z' z.
Proof.
  intros B. induction fuel as [|f IH]; intros n z g H.
  - cbn [rounds] in H.
    assert (S : (if lo <=? n then k z g else None) = Some res).
    { destruct greedy; apply or_else_cases in H;
        destruct H as [H|H]; try discriminate; exact H. }
    destruct (lo <=? n); [|discriminate].
    exists z. split; [exact S | apply at_or_after_refl].
  - cbn [rounds] in H.
    assert (S : (if lo <=? n then k z g else None) = Some res
                \/ (if under hi n
                    then body z g (fun z' g' =>
                           if List.length (after z') <? List.length (after z)
                           then rounds body greedy lo hi k f (S n) z' g'
                           else None)
                    else None) = Some res).
    { destruct greedy; apply or_else_cases in H;
        destruct H as [H|H]; [right | left | left | right]; exact H. }
    destruct S as [S|S].
    + destruct (lo <=? n); [|discriminate].
      exists z. split; [exact S | apply at_or_after_refl].
    + destruct (under hi n); [|discriminate].
      apply B in S. destruct S as [z1 [S T]].
      destruct (List.length (after z1) <? List.length (after z));
        [|discriminate].
      apply IH in S. destruct S as [z2 [S U]].
      exists z2. split; [exact S | eapply at_or_after_trans; eassumption].
Qed.

(** A pattern that sets no group calls its continuation with the groups
    it was given, at or after where it started. *)
Lemma run_groupless (r : re) :
  groupless r = true ->
  forall z g k res,
    run r z g k = Some res ->
    exists z', k z' g = Some res /\ at_or_after z' z.
Proof.
  induction r as [|p|a IHa b IHb|a IHa b IHb|greedy lo hi a IHa|i a IHa| |
                  |a IHa|n a IHa];
    intros G z g k res H; cbn [run] in H; cbn [groupless] in G.
  - exists z. split; [exact H | apply at_or_after_refl].
  - destruct z as [bf [|c t]]; cbn [after before] in H; [discriminate|].
    destruct (p c); [|discriminate].
    eexists. split; [exact H|]. exists [c]. reflexivity.
  - apply andb_true_iff in G. destruct G as [Ga Gb].
    apply (IHa Ga) in H. destruct H as [z1 [H T]].
    apply (IHb Gb) in H. destruct H as [z2 [H U]].
    exists z2. split; [exact H | eapply at_or_after_trans; eassumption].
  - apply andb_true_iff in G. destruct G as [Ga Gb].
    apply or_else_cases in H. destruct H as [H|H].
    + now apply (IHa Ga) in H.
    + now apply (IHb Gb) in H.
  - eapply rounds_groupless; [|exact H].
    intros z0 g0 k' B. now apply (IHa G) in B.
  - discriminate.
  - destruct (before z); [|discriminate].
    exists z. split; [exact H | apply at_or_after_refl].
  - destruct (at_word_boundary z); [|discriminate].
    exists z. split; [exact H | apply at_or_after_refl].
  - destruct (run a z g _); [discriminate|].
    exists z. split; [exact H | apply at_or_after_refl].
  - destruct (List.length (before z) <? n).
    + exists z. split; [exact H | apply at_or_after_refl].
    + destruct (run a _ g _); [discriminate|].
      exists z. split; [exact H | apply at_or_after_refl].
Qed.

Lemma bracket_free_after (z' z : cursor) :
  at_or_after z' z -> bracket_free (after z) -> bracket_free (after z').
Proof.
  intros [pre E] F. unfold bracket_free in *. rewrite E in F.
  apply Forall_app in F. apply F.
Qed.

(** The link alternative needs an opening square bracket. *)
Lemma tel_link_needs_bracket (z : cursor) (g : caps) (k : cont) :
  bracket_free (after z) -> run ResourceAgent.tel_link z g k = None.
Proof.
  intros F. unfold ResourceAgent.tel_link. cbn [seqs run chr].
  destruct z as [bf [|c t]]; cbn [after]; [reflexivity|].
  inversion F as [|? ? Hc _]; subst.
  destruct (Ascii.eqb "[" c) eqn:E; [|reflexivity].
  apply Ascii.eqb_eq in E. now subst.
Qed.

(** On a text without square brackets a match of either phone pattern
    holds no group, and ends at or after where it started. *)
Lemma emergency_match_has_no_group (z : cursor) (h : hit) :
  bracket_free (after z) ->
  match_at ResourceAgent.emergency_phone_pattern z = Some h ->
  groups h = [] /\ at_or_after (stop h) z.
Proof.
  intros F. unfold match_at.
  destruct (run ResourceAgent.emergency_phone_pattern z [] accept)
    as [[z' g']|] eqn:R; [|discriminate].
  intros [= <-]. cbn [groups stop].
  unfold ResourceAgent.emergency_phone_pattern in R. cbn [alts run] in R.
  apply or_else_cases in R. destruct R as [R|R].
  - apply run_groupless in R; [|reflexivity].
    destruct R as [z1 [R T]]. injection R as <- <-. now split.
  - apply or_else_cases in R. destruct R as [R|R].
    + apply run_groupless in R; [|reflexivity].
      destruct R as [z1 [R T]]. injection R as <- <-. now split.
    + rewrite (tel_link_needs_bracket z [] accept F) in R. discriminate.
Qed.

Lemma phone_match_has_no_group (z : cursor) (h : hit) :
  bracket_free (after z) ->
  match_at ResourceAgent.phone_pattern z = Some h ->
  groups h = [] /\ at_or_after (stop h) z.
Proof.
  intros F. unfold match_at.
  destruct (run ResourceAgent.phone_pattern z [] accept)
    as [[z' g']|] eqn:R; [|discriminate].
  intros [= <-]. cbn [groups stop].
  unfold ResourceAgent.phone_pattern in R. cbn [alts run] in R.
  apply or_else_cases in R. destruct R as [R|R].
  - apply run_groupless in R; [|reflexivity].
    destruct R as [z1 [R T]]. injection R as <- <-. now split.
  - apply or_else_cases in R. destruct R as [R|R].
    + apply run_groupless in R; [|reflexivity].
      destruct R as [z1 [R T]]. injection R as <- <-. now split.
    + cbn [seqs run] in R.
      rewrite (tel_link_needs_bracket z [] _ F) in R. discriminate.
Qed.

Lemma finditer_no_group (r : re) :
  (forall z h, bracket_free (after z) -> match_at r z = Some h ->
               groups h = [] /\ at_or_after (stop h) z) ->
  forall fuel prev rest,
    bracket_free rest ->
    Forall (fun h => groups h = []) (finditer_from fuel r prev rest).
Proof.
  intros M. induction fuel as [|f IH]; intros prev rest F; cbn [finditer_from].
  - constructor.
  - assert (S : Forall (fun h => groups h = [])
                  (match rest with
                   | [] => []
                   | c :: t => finditer_from f r (c :: prev) t
                   end)).
    { destruct rest as [|c t]; [constructor|].
      apply IH. now inversion F. }
    destruct (match_at r (Cursor prev rest)) as [h|] eqn:E; [|exact S].
    destruct (M (Cursor prev rest) h F E) as [G T].
    destruct (List.length (after (stop h)) <? List.length rest).
    + constructor; [exact G|]. apply IH.
      exact (bracket_free_after (stop h) (Cursor prev rest) T F).
    + constructor; [exact G | exact S].
Qed.

Lemma bracket_free_chars (t : string) :
  Py.contains t "[" = false -> bracket_free (Py.chars t).
Proof.
  induction t as [|c t IH]; cbn [Py.contains Py.chars list_ascii_of_string];
    intros H; [constructor|].
  apply orb_false_iff in H. destruct H as [P C].
  constructor; [|now apply IH].
  intros ->. cbn in P. destruct (ascii_dec "[" "["); [|contradiction].
  destruct t; discriminate.
Qed.

Lemma no_group_no_number (keep : string -> bool) (hs : list hit) :
  Forall (fun h => groups h = []) hs ->
  (forall p, keep p = true -> (7 <=? ResourceAgent.digit_count p) = true) ->
  filter keep (map ResourceAgent.clean_phone (map (group 1) hs)) = [].
Proof.
  intros F K. induction F as [|h hs G _ IH]; [reflexivity|].
  cbn [map filter]. unfold group at 1. rewrite G. cbn [lookup].
  destruct (keep (ResourceAgent.clean_phone EmptyString)) eqn:E;
    [|exact IH].
  apply K in E. discriminate.
Qed.

(** X1. In a text without an opening square bracket, so without a link,
    the extractor finds no phone number of either kind. *)
Lemma no_link_no_phone (t : string) :
  Py.contains t "[" = false ->
  ResourceAgent.emergency_phone (ResourceAgent.extract_contacts_from_markdown t)
  = []
  /\ ResourceAgent.phone (ResourceAgent.extract_contacts_from_markdown t) = [].
Proof.
  intros H. destruct t as [|c t]; [split; reflexivity|].
  pose proof (bracket_free_chars _ H) as F.
  cbn [ResourceAgent.extract_contacts_from_markdown
       ResourceAgent.emergency_phone ResourceAgent.phone].
  assert (E : ResourceAgent.cleaned_emergency_phones (String c t) = []).
  { unfold ResourceAgent.cleaned_emergency_phones,
      ResourceAgent.emergency_matches, findall1, finditer.
    apply no_group_no_number.
    - apply finditer_no_group; [apply emergency_match_has_no_group | exact F].
    - intros p K. exact K. }
  rewrite E. split; [reflexivity|].
  unfold ResourceAgent.cleaned_phones, ResourceAgent.phone_matches,
    findall1, finditer.
  rewrite no_group_no_number; [reflexivity | |].
  - apply finditer_no_group; [apply phone_match_has_no_group | exact F].
  - intros p K. apply andb_true_iff in K. destruct K as [K _].
    apply andb_true_iff in K. apply K.
Qed.

End MatcherProperties.

(* ================================================================== *)
(** ** The contact extractor *)

Module ExtractorProperties.
Import ResourceAgent Spec.

(** C2. For every text, no string is both in [emergency_phone] and in
    [phone] of the record [extract_contacts_from_markdown] returns. *)
Theorem phones_disjoint (t p : string) :
  In p (emergency_phone (extract_contacts_from_markdown t)) ->
  ~ In p (phone (extract_contacts_from_markdown t)).
Proof.
  destruct t as [|c t];
    cbn [extract_contacts_from_markdown phone emergency_phone];
    [contradiction|].
  intros He Hp. apply (proj1 (FromKeys.fromkeys_In _ _)) in Hp.
  unfold cleaned_phones in Hp. apply filter_In in Hp. destruct Hp as [_ Hp].
  apply andb_true_iff in Hp. destruct Hp as [_ Hp].
  apply negb_true_iff in Hp. apply FromKeys.mem_false in Hp. now apply Hp.
Qed.

Lemma phones_disjoint_witness :
  In "5551234"
     (emergency_phone (extract_contacts_from_markdown "[call](tel:555-1234)"))
  /\ ~ In "5551234"
       (phone (extract_contacts_from_markdown "[call](tel:555-1234)")).
Proof.
  split.
  - vm_compute. left. reflexivity.
  - apply (phones_disjoint "[call](tel:555-1234)" "5551234").
    vm_compute. left. reflexivity.
Defined.

(** C3. On the text [Emergency Hotline: (800) 555-0123] the extractor
    returns no emergency phone at all: both phone lists are empty, so
    [8005550123] is not in [emergency_phone]. *)
Theorem hotline_text_yields_no_emergency_phone :
  extract_contacts_from_markdown "Emergency Hotline: (800) 555-0123"
  = Contacts [] [] [] []
  /\ emergency_matches "Emergency Hotline: (800) 555-0123" = [EmptyString]
  /\ ~ In "8005550123"
       (emergency_phone
          (extract_contacts_from_markdown "Emergency Hotline: (800) 555-0123")).
Proof.
  split; [vm_compute; reflexivity|].
  split; [vm_compute; reflexivity|].
  vm_compute. intros [].
Qed.

(** C4. On the text [Call (555) 123-4567 on 2024-05-01] the extractor
    returns no phone at all: the number and the date are both matched,
    each match yields the empty string, and [5551234567] is not in
    [phone]. *)
Theorem dated_call_text_yields_no_phone :
  extract_contacts_from_markdown "Call (555) 123-4567 on 2024-05-01"
  = Contacts [] [] [] []
  /\ phone_matches "Call (555) 123-4567 on 2024-05-01"
     = [EmptyString; EmptyString]
  /\ ~ In "5551234567"
       (phone (extract_contacts_from_markdown
                 "Call (555) 123-4567 on 2024-05-01")).
Proof.
  split; [vm_compute; reflexivity|].
  split; [vm_compute; reflexivity|].
  vm_compute. intros [].
Qed.

(** C5. For every text, each of the four lists of the record holds no
    string twice, and holds the strings its pass scanned out of the text
    in the order in which each was first scanned. *)
Theorem fields_deduplicated_in_first_seen_order (t : string) :
  first_seen (scanned_phones t) (phone (extract_contacts_from_markdown t))
  /\ first_seen (scanned_emergency t)
                (emergency_phone (extract_contacts_from_markdown t))
  /\ first_seen (scanned_emails t) (email (extract_contacts_from_markdown t))
  /\ first_seen (scanned_addresses t)
                (address (extract_contacts_from_markdown t)).
Proof.
  destruct t as [|c t].
  - assert (E : forall l, l = [] -> first_seen l []).
    { intros l ->. repeat split; try constructor; auto. }
    cbn [extract_contacts_from_markdown phone emergency_phone email address].
    split; [|split; [|split]]; apply E; vm_compute; reflexivity.
  - cbn [extract_contacts_from_markdown phone emergency_phone email address].
    split; [|split; [|split]]; apply FromKeys.fromkeys_first_seen.
Qed.

(** C6. The street line followed by the city, state and ZIP line gives one
    address, the two lines joined by a space; it holds both [123 Main St]
    and [90210]. *)
Theorem two_line_address_merged :
  let t := ("123 Main St" ++ Py.nl ++ "Anytown, ST 90210")%string in
  address (extract_contacts_from_markdown t) = ["123 Main St Anytown, ST 90210"]
  /\ Py.contains "123 Main St Anytown, ST 90210" "123 Main St" = true
  /\ Py.contains "123 Main St Anytown, ST 90210" "90210" = true.
Proof. vm_compute. repeat split; reflexivity. Qed.

End ExtractorProperties.

(* ================================================================== *)
(** ** The orchestrator *)

Module OrchestratorProperties.
Import Value Orchestrator Spec.

Lemma get_set_same (d : dict) (k : string) (v : value) :
  get (set d k v) k = Some v.
Proof.
  induction d as [|[k' v'] d IH]; simpl.
  - now rewrite String.eqb_refl.
  - destruct (String.eqb k k') eqn:E; simpl; rewrite E; auto.
Qed.

Lemma local_info_prompts (query : string) :
  get_or (orchestrator_local_process_query query) "location" VNone = VNone ->
  get (orchestrator_local_process_query query) "needs_location_prompt"
  = Some (VBool true).
Proof.
  unfold orchestrator_local_process_query.
  destruct (local_location query) as [l|]; intros H.
  - change (VStr l = VNone) in H. discriminate.
  - reflexivity.
Qed.

Lemma truthy_not_None (v : value) : truthy v = true -> v <> VNone.
Proof. intros H E. subst. discriminate. Qed.

(** [process_query] returns, and what it returns asks for the location
    whenever it names none. *)
Lemma process_query_prompts (w : env) (query : string) :
  exists d, process_query w query = Ok d
            /\ (get_or d "location" VNone = VNone ->
                get d "needs_location_prompt" = Some (VBool true)).
Proof.
  assert (L : exists d, Ok (orchestrator_local_process_query query) = Ok d
                        /\ (get_or d "location" VNone = VNone ->
                            get d "needs_location_prompt" = Some (VBool true))).
  { eexists. split; [reflexivity | apply local_info_prompts]. }
  unfold process_query.
  destruct (match json_loads w (cerebras_llama_call w (process_prompt query)) with
            | Some v => Some v
            | None => _
            end) as [extracted_info|]; [|exact L].
  unfold annotate. destruct extracted_info; try exact L.
  cbv zeta.
  match goal with
  | |- context [if ?c then _ else _] => destruct c eqn:C
  end.
  - eexists. split; [reflexivity|]. intros _. apply get_set_same.
  - destruct (below_half _) as [[|]|e]; try exact L.
    + eexists. split; [reflexivity|]. intros _. apply get_set_same.
    + eexists. split; [reflexivity|]. intros H. rewrite H in C.
      discriminate.
Qed.

Lemma process_query_returns (w : env) (query : string) :
  exists d, process_query w query = Ok d.
Proof.
  destruct (process_query_prompts w query) as [d [H _]]. now exists d.
Qed.

(** C7. Whatever the inference service and the parser do, [process_query]
    returns a query-info record, and the record asks for the location
    whenever its location is null; so does the local analysis. *)
Theorem missing_location_is_prompted_for (w : env) (query : string) :
  (exists d, process_query w query = Ok d
             /\ (get_or d "location" VNone = VNone ->
                 get d "needs_location_prompt" = Some (VBool true)))
  /\ (get_or (orchestrator_local_process_query query) "location" VNone = VNone ->
      get (orchestrator_local_process_query query) "needs_location_prompt"
      = Some (VBool true)).
Proof.
  split; [apply process_query_prompts | apply local_info_prompts].
Qed.

(** What the local responder returns when it returns. *)
Lemma local_response_form (repr : value -> string) (query : string)
  (query_info r : dict) :
  orchestrator_generate_local_response repr query query_info = Ok r ->
  exists response data,
    r = [("response", VStr (response ++ local_note));
         ("intent", VStr (local_intent (Py.lower query)));
         ("query_info", VDict query_info);
         ("agent_data", VDict data);
         ("used_local_fallback", VBool true)].
Proof.
  unfold orchestrator_generate_local_response. cbv zeta.
  assert (T : forall (response : string) (data : dict),
             Ok [("response", VStr (response ++ local_note));
                 ("intent", VStr (local_intent (Py.lower query)));
                 ("query_info", VDict query_info);
                 ("agent_data", VDict data);
                 ("used_local_fallback", VBool true)] = Ok r ->
             exists response data,
               r = [("response", VStr (response ++ local_note));
                    ("intent", VStr (local_intent (Py.lower query)));
                    ("query_info", VDict query_info);
                    ("agent_data", VDict data);
                    ("used_local_fallback", VBool true)]).
  { intros response data H. injection H as <-. now exists response, data. }
  destruct (String.eqb (local_intent (Py.lower query)) "rescue").
  - destruct (safety_instructions_for _); [apply T | discriminate].
  - destruct (String.eqb (local_intent (Py.lower query)) "resource").
    + destruct (eq_str _ "fire"); [apply T|].
      destruct (truthy (get_or query_info "needs_medical" (VBool false)));
        [apply T|].
      destruct (medical_in _) as [[|]|]; [apply T | apply T | discriminate].
    + destruct (safety_instructions_for _); [apply T | discriminate].
Qed.

Lemma last_resort_shape (w : env) (query intent : string) (query_info : dict)
  (e : exn) :
  exists r, last_resort w query intent query_info e = Ok (VDict r)
            /\ In (keys r) [failure_keys; fatal_keys].
Proof.
  unfold last_resort. cbv zeta.
  destruct (orchestrator_generate_local_response _ _ _) as [lr|fe] eqn:G.
  - destruct (local_response_form _ _ _ _ G) as [resp [data ->]].
    eexists. split; [reflexivity|]. left. reflexivity.
  - eexists. split; [reflexivity|]. right. left. reflexivity.
Qed.

Lemma dispatch_shape (w : env) (query intent : string) (query_info : dict)
  (use_local_fallback : bool) :
  exists r, dispatch w query intent query_info use_local_fallback = Ok (VDict r)
            /\ In (keys r) [answer_keys; failure_keys; fatal_keys].
Proof.
  unfold dispatch. cbv zeta.
  match goal with
  | |- context [match ?h query query_info with _ => _ end] =>
      destruct (h query query_info) as [response|e]
  end.
  - eexists. split; [reflexivity|]. left. reflexivity.
  - destruct (orchestrator_generate_local_response _ _ _) as [lr|fe] eqn:G.
    + destruct (local_response_form _ _ _ _ G) as [resp [data ->]].
      eexists. split; [reflexivity|]. left. reflexivity.
    + destruct (last_resort_shape w query intent
                  (if negb use_local_fallback
                   then orchestrator_local_process_query query
                   else query_info) fe) as [r [Hr Hk]].
      exists r. split; [exact Hr|]. right. exact Hk.
Qed.

(** C1, as amended. Whenever the intent step 2 arrives at is a string,
    [route_query] returns a record, and the record has one of four key
    sets: the location request, an answer, the local answer with the
    error, or the last-resort message. *)
Theorem route_query_returns_a_record (w : env) (query : string) :
  is_str (classified_intent w query) = true ->
  exists r, route_query w query = Ok (VDict r)
            /\ In (keys r) [pending_keys; answer_keys; failure_keys; fatal_keys].
Proof.
  unfold classified_intent, analysed, route_query.
  destruct (process_query_returns w query) as [d ->]. cbn [andb].
  intros H.
  match goal with
  | |- context [if ?c then _ else _] => destruct c
  end.
  - eexists. split; [reflexivity|]. left. reflexivity.
  - destruct (classify_intent w query d) as [intent intent_data].
    cbn [fst] in H. destruct intent; try discriminate.
    destruct (dispatch_shape w query s d false) as [r [Hr Hk]].
    exists r. split; [exact Hr|]. right. exact Hk.
Qed.

Lemma route_query_returns_a_record_witness :
  exists r, route_query Scenario.babbling Scenario.fire_query = Ok (VDict r)
            /\ In (keys r) [pending_keys; answer_keys; failure_keys; fatal_keys].
Proof.
  apply (route_query_returns_a_record Scenario.babbling Scenario.fire_query).
  vm_compute. reflexivity.
Defined.

(** C1, as stated, fails: with every collaborator down, the empty query is
    answered by the location request, a record with the keys [response],
    [needs_location], [query_info] and [intent] only. *)
Lemma location_request_lacks_the_flags :
  exists r, route_query Scenario.all_down EmptyString = Ok (VDict r)
            /\ keys r = pending_keys
            /\ has_key r "used_local_fallback" = false
            /\ has_key r "is_error" = false
            /\ has_key r "agent_data" = false
            /\ has_key r "info_type" = false.
Proof.
  eexists. split; [vm_compute; reflexivity|].
  vm_compute. repeat split.
Qed.

(** The one way out of [route_query] by an exception: a parsed reply whose
    intent is not a string reaches [intent.upper()]. *)
Lemma route_query_raises_on_a_null_intent :
  route_query Scenario.null_intent "help"
  = Raise (Exn "AttributeError" "'NoneType' object has no attribute 'upper'").
Proof. vm_compute. reflexivity. Qed.

Lemma prefix_nil (a : string) : String.prefix EmptyString a = true.
Proof. destruct a; reflexivity. Qed.

Lemma prefix_app (p a b : string) :
  String.prefix p a = true -> String.prefix p (a ++ b) = true.
Proof.
  revert a. induction p as [|c p IH]; intros a; [intros _; apply prefix_nil|].
  destruct a as [|d a]; simpl; [discriminate|].
  destruct (ascii_dec c d); [apply IH | discriminate].
Qed.

Lemma contains_app (a b sub : string) :
  Py.contains a sub = true -> Py.contains (a ++ b) sub = true.
Proof.
  induction a as [|c a IH]; simpl.
  - rewrite orb_false_r. intros H. destruct sub; [|discriminate].
    destruct b; reflexivity.
  - intros H. apply orb_true_iff in H. apply orb_true_iff.
    destruct H as [H|H].
    + left. apply (prefix_app sub (String c a) b H).
    + right. now apply IH.
Qed.

Lemma lower_app (a b : string) :
  Py.lower (a ++ b) = (Py.lower a ++ Py.lower b)%string.
Proof. induction a as [|c a IH]; simpl; [reflexivity | now rewrite IH]. Qed.

Lemma process_prompt_mentions_emergency (query : string) :
  Py.contains (Py.lower (process_prompt query)) "emergency" = true.
Proof.
  unfold process_prompt. rewrite lower_app. apply contains_app.
  vm_compute. reflexivity.
Qed.

(** When the call fails on a prompt that mentions an emergency, the reply
    is the canned rescue decision. *)
Lemma failed_call_reply (w : env) (prompt : string) :
  inference_fails w ->
  Py.contains (Py.lower prompt) "emergency" = true ->
  cerebras_llama_call w prompt = rescue_default.
Proof.
  intros F M. unfold cerebras_llama_call. cbv zeta.
  assert (E : error_reply prompt = rescue_default).
  { unfold error_reply. cbv zeta. rewrite M. rewrite orb_true_r. reflexivity. }
  match goal with
  | |- context [call_cerebras_api w ?p] => destruct (F p) as [-> | [e ->]]
  end; exact E.
Qed.

(** X2. With the inference service failing, [process_query] takes the
    canned rescue decision for the analysis of the query, and
    [route_query] answers every query with the location request. *)
Lemma failed_inference_asks_for_location (w : env) (query : string) :
  inference_fails w ->
  json_loads w rescue_default
  = Some (VDict (intent_decision "rescue" 90
                   "Error occurred, defaulting to rescue for safety")) ->
  route_query w query
  = Ok (VDict
          [("response", VStr location_request);
           ("needs_location", VBool true);
           ("query_info",
            VDict [("intent", VStr "rescue");
                   ("confidence", VInt 90);
                   ("reasoning",
                    VStr "Error occurred, defaulting to rescue for safety");
                   ("original_query", VStr query);
                   ("processed", VBool true);
                   ("timestamp", VFloat (time_time w));
                   ("location", VNone);
                   ("needs_location_prompt", VBool true)]);
           ("intent", VStr "pending_location")]).
Proof.
  intros F J. unfold route_query, process_query.
  rewrite (failed_call_reply w _ F (process_prompt_mentions_emergency query)).
  rewrite J. reflexivity.
Qed.

(** C8. With every collaborator raising, the query [there is a fire near
    me] is answered by the location request: the record has no
    [used_local_fallback] flag and its text holds none of the fire
    instructions. *)
Theorem fire_query_with_everything_down :
  exists r,
    route_query Scenario.all_down Scenario.fire_query = Ok (VDict r)
    /\ get r "response" = Some (VStr location_request)
    /\ get r "intent" = Some (VStr "pending_location")
    /\ get r "used_local_fallback" = None
    /\ forallb (fun i => negb (Py.contains location_request i))
               fire_instructions = true.
Proof.
  eexists. split; [vm_compute; reflexivity|].
  vm_compute. repeat split.
Qed.

Lemma local_crisis_type_is_text (query : string) :
  get_or (orchestrator_local_process_query query) "crisis_type" (VStr "general")
  = VStr (local_crisis_type (Py.lower query)).
Proof. reflexivity. Qed.

(** On a record whose crisis type is a string the local responder does
    not raise. *)
Lemma local_response_returns (repr : value -> string) (query : string)
  (query_info : dict) :
  is_str (get_or query_info "crisis_type" (VStr "general")) = true ->
  exists r, orchestrator_generate_local_response repr query query_info = Ok r.
Proof.
  intros H. unfold orchestrator_generate_local_response. cbv zeta.
  destruct (get_or query_info "crisis_type" (VStr "general"));
    try discriminate.
  cbn [safety_instructions_for medical_in].
  repeat match goal with
         | |- context [if ?c then _ else _] => destruct c
         end; eexists; reflexivity.
Qed.

(** C9, as amended. For every query and every query-info record whose
    crisis type is a string, the local responder returns a record with
    [used_local_fallback] true whose text ends with the note on local
    emergency protocols; and it calls no collaborator: in any two
    environments that print values alike, whatever their inference
    service, parser, clock and handlers do, it returns the same. *)
Theorem local_response_carries_the_note (repr : value -> string)
  (query : string) (query_info : dict) :
  is_str (get_or query_info "crisis_type" (VStr "general")) = true ->
  (exists r text,
     orchestrator_generate_local_response repr query query_info = Ok r
     /\ get r "used_local_fallback" = Some (VBool true)
     /\ get r "response" = Some (VStr text)
     /\ endswith text
          (Py.nl ++ Py.nl ++ "[Note: This response was generated using local emergency protocols due to connection issues.]"))
  /\ forall w w' : env,
       Orchestrator.repr w = repr -> Orchestrator.repr w' = repr ->
       orchestrator_generate_local_response (Orchestrator.repr w)
         query query_info
       = orchestrator_generate_local_response (Orchestrator.repr w')
           query query_info.
Proof.
  intros H. split.
  - destruct (local_response_returns repr query query_info H) as [r G].
    destruct (local_response_form _ _ _ _ G) as [response [data ->]].
    do 2 eexists. split; [exact G|].
    split; [reflexivity|]. split; [reflexivity|].
    exists response. reflexivity.
  - intros w w' -> E. now rewrite E.
Qed.

Lemma local_response_carries_the_note_witness :
  (exists r text,
     orchestrator_generate_local_response Builtins.repr Scenario.fire_query
       (orchestrator_local_process_query Scenario.fire_query) = Ok r
     /\ get r "used_local_fallback" = Some (VBool true)
     /\ get r "response" = Some (VStr text)
     /\ endswith text
          (Py.nl ++ Py.nl ++ "[Note: This response was generated using local emergency protocols due to connection issues.]"))
  /\ forall w w' : env,
       Orchestrator.repr w = Builtins.repr ->
       Orchestrator.repr w' = Builtins.repr ->
       orchestrator_generate_local_response (Orchestrator.repr w)
         Scenario.fire_query
         (orchestrator_local_process_query Scenario.fire_query)
       = orchestrator_generate_local_response (Orchestrator.repr w')
           Scenario.fire_query
           (orchestrator_local_process_query Scenario.fire_query).
Proof.
  apply (local_response_carries_the_note Builtins.repr Scenario.fire_query
           (orchestrator_local_process_query Scenario.fire_query)).
  vm_compute. reflexivity.
Defined.

(** C9, as stated, fails: the text the local responder returns for the
    fire query does not hold the marker the specification names. *)
Lemma local_response_lacks_the_named_marker :
  exists r text,
    orchestrator_generate_local_response Builtins.repr Scenario.fire_query
      (orchestrator_local_process_query Scenario.fire_query) = Ok r
    /\ get r "response" = Some (VStr text)
    /\ Py.contains text "[generated via local protocol]" = false.
Proof.
  do 2 eexists. split; [vm_compute; reflexivity|].
  split; vm_compute; reflexivity.
Qed.

(** On the record the local analysis returns, the local responder does
    not raise. *)
Lemma local_response_on_local_info (repr : value -> string)
  (query query' : string) :
  exists r,
    orchestrator_generate_local_response repr query
      (orchestrator_local_process_query query') = Ok r.
Proof.
  apply local_response_returns. reflexivity.
Qed.

End OrchestratorProperties.

(* ================================================================== *)
(** ** The rescue handler *)

Module RescueProperties.
Import Value Spec.

(** A location the orchestrator provides sends [run] into its first
    branch, whose dictionary has no [latitude]: the handler raises before
    any collaborator is called. *)
Lemma provided_location_raises (r : RescueAgent.world) (query : string)
  (query_info : dict) :
  truthy (get_or query_info "location" VNone) = true ->
  RescueAgent.run r query (Some query_info) = Raise (key_error "latitude")
  \/ exists v, RescueAgent.run r query (Some query_info)
               = Raise (no_attribute v "get").
Proof.
  intros H. unfold RescueAgent.run. cbv zeta.
  destruct query_info as [|kv d]; [discriminate|].
  rewrite H. unfold RescueAgent.provided_location.
  unfold get_or in H. cbn [subscript].
  destruct (get (kv :: d) "location") as [l|]; [|discriminate].
  cbn [bind].
  destruct (get_or (kv :: d) "coordinates" (VDict [])) eqn:C;
    try (right; eexists; reflexivity).
  left. reflexivity.
Qed.

(** C10, as amended. For every call of the rescue handler with a
    query-info record whose location is truthy (neither null nor the
    empty string), the handler raises, on the missing key [latitude] or on
    coordinates that are no dictionary; and the dispatcher, for the intent
    [rescue], then returns the local responder's record, with
    [used_local_fallback] true. *)
Theorem rescue_run_raises_on_a_provided_location (r : RescueAgent.world)
  (query : string) (query_info : dict) :
  truthy (get_or query_info "location" VNone) = true ->
  (RescueAgent.run r query (Some query_info) = Raise (key_error "latitude")
   \/ exists v, RescueAgent.run r query (Some query_info)
                = Raise (no_attribute v "get"))
  /\ forall w : Orchestrator.env,
       exists answer,
         Orchestrator.dispatch (with_rescue_agent w r) query "rescue"
                               query_info false = Ok (VDict answer)
         /\ keys answer = answer_keys
         /\ get answer "used_local_fallback" = Some (VBool true)
         /\ get answer "intent" = Some (VStr "rescue")
         /\ get answer "query_info"
            = Some (VDict (Orchestrator.orchestrator_local_process_query query)).
Proof.
  intros H. split; [now apply provided_location_raises|].
  intros w. unfold Orchestrator.dispatch. cbv zeta.
  cbn [String.eqb Ascii.eqb Bool.eqb with_rescue_agent
       Orchestrator.rescue_run Orchestrator.repr negb].
  destruct (provided_location_raises r query query_info H) as [-> | [v ->]];
    destruct (OrchestratorProperties.local_response_on_local_info
                (Orchestrator.repr w) query query) as [lr G];
    rewrite G;
    destruct (OrchestratorProperties.local_response_form _ _ _ _ G)
      as [response [data ->]];
    eexists; (split; [reflexivity|]); repeat split.
Qed.

Lemma rescue_run_raises_on_a_provided_location_witness :
  (RescueAgent.run Scenario.rescue_down "flood in Austin, Texas"
     (Some (Orchestrator.orchestrator_local_process_query
              "flood in Austin, Texas"))
   = Raise (key_error "latitude")
   \/ exists v,
        RescueAgent.run Scenario.rescue_down "flood in Austin, Texas"
          (Some (Orchestrator.orchestrator_local_process_query
                   "flood in Austin, Texas"))
        = Raise (no_attribute v "get"))
  /\ forall w : Orchestrator.env,
       exists answer,
         Orchestrator.dispatch (with_rescue_agent w Scenario.rescue_down)
           "flood in Austin, Texas" "rescue"
           (Orchestrator.orchestrator_local_process_query
              "flood in Austin, Texas") false = Ok (VDict answer)
         /\ keys answer = answer_keys
         /\ get answer "used_local_fallback" = Some (VBool true)
         /\ get answer "intent" = Some (VStr "rescue")
         /\ get answer "query_info"
            = Some (VDict (Orchestrator.orchestrator_local_process_query
                             "flood in Austin, Texas")).
Proof.
  apply (rescue_run_raises_on_a_provided_location Scenario.rescue_down
           "flood in Austin, Texas"
           (Orchestrator.orchestrator_local_process_query
              "flood in Austin, Texas")).
  vm_compute. reflexivity.
Defined.

(** C10, as stated, fails: the local analysis of a query can give a
    location that is the empty string, which is not null; on it the
    handler takes its second branch and, with no service reachable,
    returns its answer. *)
Lemma rescue_run_completes_on_an_empty_location :
  get (Orchestrator.orchestrator_local_process_query Scenario.blank_place_query)
      "location" = Some (VStr EmptyString)
  /\ exists answer,
       RescueAgent.run Scenario.rescue_down Scenario.blank_place_query
         (Some (Orchestrator.orchestrator_local_process_query
                  Scenario.blank_place_query))
       = Ok (VDict answer)
       /\ get answer "info_type" = Some (VStr "rescue_information").
Proof.
  split; [vm_compute; reflexivity|].
  eexists. split; vm_compute; reflexivity.
Qed.

End RescueProperties.

(* ================================================================== *)
(** ** Routing: what [route_query] returns and when *)

Module RoutingProperties.
Import Value Orchestrator Spec Behaviour.

Lemma get_set_other (d : dict) (k k' : string) (v : value) :
  k' <> k -> get (set d k v) k' = get d k'.
Proof.
  intros N. apply String.eqb_neq in N.
  induction d as [|[a x] d IH]; cbn [set get].
  - now rewrite N.
  - destruct (String.eqb k a) eqn:E; cbn [get].
    + apply String.eqb_eq in E. subst a. now rewrite N.
    + now rewrite IH.
Qed.

(** [route_query] in three steps: the analysis, the location request,
    the dispatch on the classified intent. *)
Lemma route_query_steps (w : env) (query : string) :
  route_query w query
  = if location_pending (analysed w query) then
      Ok (VDict [("response", VStr location_request);
                 ("needs_location", VBool true);
                 ("query_info", VDict (analysed w query));
                 ("intent", VStr "pending_location")])
    else
      match classified_intent w query with
      | VStr intent => dispatch w query intent (analysed w query) false
      | v => Raise (no_attribute v "upper")
      end.
Proof.
  unfold classified_intent, analysed, route_query, location_pending.
  destruct (OrchestratorProperties.process_query_returns w query) as [d E].
  rewrite E. cbn [andb].
  destruct (truthy (get_or d "needs_location_prompt" (VBool false))
            && negb (truthy (get_or d "location" VNone))); [reflexivity|].
  destruct (classify_intent w query d) as [i data]. cbn [fst].
  destruct i; reflexivity.
Qed.

(** Step 3 with the analysis of step 1: it always answers, the flag
    tells whether the handler raised, and the intent is the one given. *)
Lemma dispatch_answers (w : env) (query intent : string) (query_info : dict) :
  exists r,
    dispatch w query intent query_info false = Ok (VDict r)
    /\ keys r = answer_keys
    /\ get r "intent" = Some (VStr intent)
    /\ get r "used_local_fallback"
       = Some (VBool (raised (handler_of w intent query query_info)))
    /\ get r "query_info"
       = Some (VDict (if raised (handler_of w intent query query_info)
                      then orchestrator_local_process_query query
                      else query_info)).
Proof.
  unfold dispatch, handler_of. cbv zeta.
  match goal with
  | |- context [match ?h query query_info with _ => _ end] =>
      destruct (h query query_info) as [response|e]
  end.
  - eexists. split; [reflexivity|]. repeat split.
  - cbn [negb raised].
    destruct (OrchestratorProperties.local_response_on_local_info
                (repr w) query query) as [lr G].
    rewrite G.
    destruct (OrchestratorProperties.local_response_form _ _ _ _ G)
      as [resp [data ->]].
    eexists. split; [reflexivity|]. repeat split.
Qed.

(** X3. Every record [route_query] returns is the location request or an
    answer with the five answer keys, according to the test of step 1; it
    never returns a record with an [error] or an [is_error] key, and it
    never returns anything but a record. *)
Theorem route_query_never_reports_an_error (w : env) (query : string)
  (v : value) :
  route_query w query = Ok v ->
  exists r,
    v = VDict r
    /\ keys r = (if location_pending (analysed w query)
                 then pending_keys else answer_keys)
    /\ has_key r "error" = false
    /\ has_key r "is_error" = false.
Proof.
  rewrite route_query_steps.
  destruct (location_pending (analysed w query)).
  - intros [= <-]. eexists. split; [reflexivity|]. repeat split.
  - destruct (classified_intent w query) as [| | | |intent| |];
      try discriminate.
    destruct (dispatch_answers w query intent (analysed w query))
      as [r [D [K _]]].
    rewrite D. intros [= <-]. exists r. split; [reflexivity|].
    split; [exact K|].
    destruct r as [|[k1 v1] [|[k2 v2] [|[k3 v3] [|[k4 v4] [|[k5 v5] [|? ?]]]]]];
      try discriminate K.
    injection K as -> -> -> -> ->. split; reflexivity.
Qed.

Lemma route_query_never_reports_an_error_witness :
  exists r,
    VDict [("response", VStr location_request);
           ("needs_location", VBool true);
           ("query_info",
            VDict (analysed Scenario.all_down EmptyString));
           ("intent", VStr "pending_location")] = VDict r
    /\ keys r = (if location_pending
                      (analysed Scenario.all_down EmptyString)
                 then pending_keys else answer_keys)
    /\ has_key r "error" = false
    /\ has_key r "is_error" = false.
Proof.
  apply (route_query_never_reports_an_error Scenario.all_down EmptyString).
  vm_compute. reflexivity.
Defined.

(** X4. When step 1 does not ask for the location and the classified
    intent is a string, [route_query] returns an answer whose intent is
    the classified one, whose [used_local_fallback] flag is true exactly
    when the chosen handler raised, and whose analysis is then the local
    one in place of the one step 1 made. *)
Theorem fallback_flag_tells_handler_failure (w : env) (query intent : string) :
  location_pending (analysed w query) = false ->
  classified_intent w query = VStr intent ->
  exists r,
    route_query w query = Ok (VDict r)
    /\ get r "intent" = Some (VStr intent)
    /\ get r "used_local_fallback"
       = Some (VBool (raised (handler_of w intent query (analysed w query))))
    /\ get r "query_info"
       = Some (VDict (if raised (handler_of w intent query (analysed w query))
                      then orchestrator_local_process_query query
                      else analysed w query)).
Proof.
  intros P C. rewrite route_query_steps, P, C.
  destruct (dispatch_answers w query intent (analysed w query))
    as [r [D [_ R]]].
  exists r. split; [exact D | exact R].
Qed.

(** X5. When step 1 does not ask for the location and the classified
    intent is not a string, [route_query] raises the [AttributeError] of
    [intent.upper()]: the call is outside every [try]. *)
Theorem route_query_raises_on_a_non_string_intent (w : env) (query : string) :
  location_pending (analysed w query) = false ->
  is_str (classified_intent w query) = false ->
  route_query w query = Raise (no_attribute (classified_intent w query) "upper").
Proof.
  intros P C. rewrite route_query_steps, P.
  destruct (classified_intent w query); try reflexivity. discriminate.
Qed.

Lemma route_query_raises_on_a_non_string_intent_witness :
  route_query Scenario.null_intent "help"
  = Raise (no_attribute (classified_intent Scenario.null_intent "help") "upper").
Proof.
  apply (route_query_raises_on_a_non_string_intent Scenario.null_intent "help");
    vm_compute; reflexivity.
Defined.

Lemma fallback_flag_tells_handler_failure_witness :
  exists r,
    route_query Scenario.babbling Scenario.fire_query = Ok (VDict r)
    /\ get r "intent" = Some (VStr "information")
    /\ get r "used_local_fallback"
       = Some (VBool (raised (handler_of Scenario.babbling "information"
                                Scenario.fire_query
                                (analysed Scenario.babbling Scenario.fire_query))))
    /\ get r "query_info"
       = Some (VDict (if raised (handler_of Scenario.babbling "information"
                                   Scenario.fire_query
                                   (analysed Scenario.babbling
                                      Scenario.fire_query))
                      then orchestrator_local_process_query Scenario.fire_query
                      else analysed Scenario.babbling Scenario.fire_query)).
Proof.
  apply (fallback_flag_tells_handler_failure Scenario.babbling
           Scenario.fire_query "information"); vm_compute; reflexivity.
Defined.

Lemma get_or_set_other (d : dict) (k k' : string) (v x : value) :
  k' <> k -> get_or (set d k v) k' x = get_or d k' x.
Proof. intros N. unfold get_or. now rewrite get_set_other. Qed.

(** One failed call of the inference helper, on a prompt that names JSON
    and the word rescue: the canned rescue decision. *)
Lemma single_failed_call (w : env) (prompt : string) :
  Py.contains prompt "JSON" = true ->
  Py.contains (Py.lower prompt) "rescue" = true ->
  fails (call_cerebras_api w prompt) ->
  cerebras_llama_call w prompt = rescue_default.
Proof.
  intros J R F. unfold cerebras_llama_call. rewrite J. cbn [negb andb].
  unfold error_reply. rewrite R. cbn [orb].
  destruct F as [->|[e ->]]; reflexivity.
Qed.

(** X6. When the analysis of step 1 carries a location and the call that
    classifies the intent fails, the canned reply of [cerebras_llama_call]
    is taken for the classification: the query goes to the Rescue handler
    whatever it says, and the keyword ladder of step 2 is not consulted. *)
Theorem failed_classification_goes_to_rescue (w : env) (query : string) :
  location_pending (analysed w query) = false ->
  fails (call_cerebras_api w (intent_prompt w query (analysed w query))) ->
  json_loads w rescue_default
  = Some (VDict (intent_decision "rescue" 90
                   "Error occurred, defaulting to rescue for safety")) ->
  classified_intent w query = VStr "rescue"
  /\ route_query w query = dispatch w query "rescue" (analysed w query) false.
Proof.
  intros P F J.
  assert (C : classified_intent w query = VStr "rescue").
  { unfold classified_intent, classify_intent.
    rewrite (single_failed_call w (intent_prompt w query (analysed w query))).
    - rewrite J. reflexivity.
    - unfold intent_prompt. now apply OrchestratorProperties.contains_app.
    - unfold intent_prompt. rewrite OrchestratorProperties.lower_app.
      now apply OrchestratorProperties.contains_app.
    - exact F. }
  split; [exact C|]. rewrite route_query_steps, P, C. reflexivity.
Qed.

Lemma failed_classification_goes_to_rescue_witness :
  classified_intent (classifier_down "1") "where can I find a phone number"
  = VStr "rescue"
  /\ route_query (classifier_down "1") "where can I find a phone number"
     = dispatch (classifier_down "1") "where can I find a phone number" "rescue"
         (analysed (classifier_down "1") "where can I find a phone number")
         false.
Proof.
  apply (failed_classification_goes_to_rescue (classifier_down "1")
           "where can I find a phone number").
  - vm_compute. reflexivity.
  - right. eexists. vm_compute. reflexivity.
  - vm_compute. reflexivity.
Defined.

(** X7. Whatever the inference service replies, the record
    [process_query] returns echoes the query under [original_query] and
    is marked [processed]: a reply cannot set either key. *)
Theorem process_query_stamps_the_record (w : env) (query : string) :
  exists d,
    process_query w query = Ok d
    /\ get d "original_query" = Some (VStr query)
    /\ get d "processed" = Some (VBool true).
Proof.
  unfold process_query. cbv zeta.
  assert (L : exists d,
             Ok (orchestrator_local_process_query query) = Ok d
             /\ get d "original_query" = Some (VStr query)
             /\ get d "processed" = Some (VBool true)).
  { eexists. split; [reflexivity|]. split; reflexivity. }
  match goal with
  | |- context [match ?r with Some _ => _ | None => _ end] =>
      destruct r as [extracted_info|]
  end; [|exact L].
  destruct extracted_info as [| | | | | |d0]; try exact L.
  cbn [annotate].
  set (d3 := set (set (set d0 "original_query" (VStr query))
                      "processed" (VBool true))
                 "timestamp" (VFloat (time_time w))).
  assert (S : get d3 "original_query" = Some (VStr query)
              /\ get d3 "processed" = Some (VBool true)).
  { unfold d3. split.
    - rewrite !get_set_other by discriminate.
      apply OrchestratorProperties.get_set_same.
    - rewrite get_set_other by discriminate.
      apply OrchestratorProperties.get_set_same. }
  destruct (negb (truthy (get_or d3 "location" VNone))
            || eq_str (get_or d3 "location" VNone) "null").
  - eexists. split; [reflexivity|].
    rewrite !get_set_other by discriminate. exact S.
  - destruct (below_half (get_or d3 "location_confidence" (VInt 0)))
      as [[|]|e]; try exact L.
    + eexists. split; [reflexivity|].
      rewrite !get_set_other by discriminate. exact S.
    + eexists. split; [reflexivity | exact S].
Qed.

(** X8. When the reply parses to an object whose location confidence is
    below 0.5, or which has none, [process_query] sets
    [needs_location_prompt]; but when the object also carries a location,
    the test of step 1 of [route_query] fails on the record, so the
    location is not asked for. *)
Theorem low_confidence_is_flagged_but_not_asked (w : env) (query : string)
  (d0 : dict) :
  json_loads w (cerebras_llama_call w (process_prompt query))
  = Some (VDict d0) ->
  below_half (get_or d0 "location_confidence" (VInt 0)) = Ok true ->
  exists d,
    process_query w query = Ok d
    /\ get d "needs_location_prompt" = Some (VBool true)
    /\ (truthy (get_or d0 "location" VNone) = true ->
        eq_str (get_or d0 "location" VNone) "null" = false ->
        location_pending d = false).
Proof.
  intros J B. unfold process_query. cbv zeta. rewrite J. cbn [annotate].
  rewrite !get_or_set_other by discriminate.
  destruct (truthy (get_or d0 "location" VNone)) eqn:T; cbn [negb orb].
  - destruct (eq_str (get_or d0 "location" VNone) "null") eqn:N.
    + eexists. split; [reflexivity|]. split.
      * apply OrchestratorProperties.get_set_same.
      * discriminate.
    + rewrite B. eexists. split; [reflexivity|]. split.
      * apply OrchestratorProperties.get_set_same.
      * intros _ _. unfold location_pending.
        apply andb_false_iff. right.
        rewrite !get_or_set_other by discriminate.
        now rewrite T.
  - eexists. split; [reflexivity|]. split.
    + apply OrchestratorProperties.get_set_same.
    + discriminate.
Qed.

Lemma low_confidence_is_flagged_but_not_asked_witness :
  exists d,
    process_query (classifier_down "0.2") "flood" = Ok d
    /\ get d "needs_location_prompt" = Some (VBool true)
    /\ (truthy (get_or [("location", VStr "Paris");
                        ("location_confidence", VFloat 0.2)]
                       "location" VNone) = true ->
        eq_str (get_or [("location", VStr "Paris");
                        ("location_confidence", VFloat 0.2)]
                       "location" VNone) "null" = false ->
        location_pending d = false).
Proof.
  apply (low_confidence_is_flagged_but_not_asked (classifier_down "0.2")
           "flood"); vm_compute; reflexivity.
Defined.

Lemma prefix_self (p rest : string) : String.prefix p (p ++ rest) = true.
Proof.
  induction p as [|c p IH]; cbn; [apply OrchestratorProperties.prefix_nil|].
  destruct (ascii_dec c c); [exact IH | contradiction].
Qed.

(** The template of the local responder is chosen by the keywords of the
    query. *)
Lemma local_response_heading (repr : value -> string) (query : string)
  (query_info r : dict) :
  orchestrator_generate_local_response repr query query_info = Ok r ->
  exists text,
    get r "response" = Some (VStr text)
    /\ Py.startswith text (local_heading (local_intent (Py.lower query))) = true
    /\ endswith text local_note.
Proof.
  unfold orchestrator_generate_local_response, local_heading. cbv zeta.
  assert (T : forall (heading x y : string) (data : dict),
             Ok [("response", VStr (((heading ++ x) ++ y) ++ local_note));
                 ("intent", VStr (local_intent (Py.lower query)));
                 ("query_info", VDict query_info);
                 ("agent_data", VDict data);
                 ("used_local_fallback", VBool true)] = Ok r ->
             exists text,
               get r "response" = Some (VStr text)
               /\ Py.startswith text heading = true
               /\ endswith text local_note).
  { intros heading x y data H. injection H as <-.
    eexists. split; [reflexivity|]. split.
    - unfold Py.startswith. do 2 apply OrchestratorProperties.prefix_app.
      apply prefix_self.
    - eexists. reflexivity. }
  destruct (String.eqb (local_intent (Py.lower query)) "rescue").
  - destruct (safety_instructions_for _); [apply T | discriminate].
  - destruct (String.eqb (local_intent (Py.lower query)) "resource").
    + destruct (eq_str _ "fire"); [apply T|].
      destruct (truthy (get_or query_info "needs_medical" (VBool false)));
        [apply T|].
      destruct (medical_in _) as [[|]|]; [apply T | apply T | discriminate].
    + destruct (safety_instructions_for _); [apply T | discriminate].
Qed.

(** X21. After a handler failure the answer carries the classified
    intent, but its text is the template the keywords of the query select
    (rescue, resource or information), ending with the note on local
    protocols: the two can differ. *)
Theorem fallback_text_follows_the_query_keywords (w : env)
  (query intent : string) :
  location_pending (analysed w query) = false ->
  classified_intent w query = VStr intent ->
  raised (handler_of w intent query (analysed w query)) = true ->
  exists r text,
    route_query w query = Ok (VDict r)
    /\ get r "intent" = Some (VStr intent)
    /\ get r "response" = Some (VStr text)
    /\ Py.startswith text (local_heading (local_intent (Py.lower query))) = true
    /\ endswith text local_note.
Proof.
  intros P C H. rewrite route_query_steps, P, C.
  unfold dispatch. cbv zeta. fold (handler_of w intent).
  destruct (handler_of w intent query (analysed w query)) as [v|e];
    [discriminate H|].
  cbn [negb].
  destruct (OrchestratorProperties.local_response_on_local_info
              (repr w) query query) as [lr G].
  rewrite G.
  destruct (local_response_heading _ _ _ _ G) as [text [R [S E]]].
  eexists. exists text. split; [reflexivity|]. split.
  - rewrite get_set_other by discriminate.
    apply OrchestratorProperties.get_set_same.
  - split; [|split; assumption].
    rewrite !get_set_other by discriminate. exact R.
Qed.

Lemma fallback_text_follows_the_query_keywords_witness :
  exists r text,
    route_query Scenario.babbling "help, there is a fire in Austin, Texas"
    = Ok (VDict r)
    /\ get r "intent" = Some (VStr "information")
    /\ get r "response" = Some (VStr text)
    /\ Py.startswith text
         (local_heading
            (local_intent (Py.lower "help, there is a fire in Austin, Texas")))
       = true
    /\ endswith text local_note.
Proof.
  apply (fallback_text_follows_the_query_keywords Scenario.babbling
           "help, there is a fire in Austin, Texas" "information");
    vm_compute; reflexivity.
Defined.

(** With every collaborator down, the fire query is answered by the
    location request. *)
Lemma failed_inference_asks_for_location_witness :
  route_query Scenario.all_down Scenario.fire_query
  = Ok (VDict
          [("response", VStr location_request);
           ("needs_location", VBool true);
           ("query_info",
            VDict [("intent", VStr "rescue");
                   ("confidence", VInt 90);
                   ("reasoning",
                    VStr "Error occurred, defaulting to rescue for safety");
                   ("original_query", VStr Scenario.fire_query);
                   ("processed", VBool true);
                   ("timestamp", VFloat (time_time Scenario.all_down));
                   ("location", VNone);
                   ("needs_location_prompt", VBool true)]);
           ("intent", VStr "pending_location")]).
Proof.
  apply (OrchestratorProperties.failed_inference_asks_for_location
           Scenario.all_down Scenario.fire_query).
  - intros prompt. right. eexists. reflexivity.
  - vm_compute. reflexivity.
Defined.

End RoutingProperties.

(* ================================================================== *)
(** ** The batch crawl and the search *)

Module CrawlProperties.
Import Value ResourceAgent Spec.

Lemma keys_set (d : dict) (k : string) (v : value) :
  keys (set d k v) = Py.add_key (keys d) k.
Proof.
  unfold Py.add_key, Py.mem, keys.
  induction d as [|[a x] d IH]; cbn [set map fst existsb].
  - reflexivity.
  - destruct (String.eqb k a) eqn:E; cbn [map fst orb].
    + reflexivity.
    + rewrite IH. destruct (existsb (String.eqb k) (map fst d)); reflexivity.
Qed.

Lemma get_In (d : dict) (k : string) (v : value) :
  get d k = Some v -> In (k, v) d.
Proof.
  induction d as [|[a x] d IH]; cbn [get]; [discriminate|].
  destruct (String.eqb k a) eqn:E.
  - apply String.eqb_eq in E. intros [= ->]. subst. now left.
  - intros H. right. now apply IH.
Qed.

Section Batch.
Variable s : services.

Lemma batch_keys (urls : list string) (acc : dict) :
  keys (fold_left (fun a x => set a x (crawl_and_extract_contacts_HYBRID s x)) urls acc) = fold_left Py.add_key urls (keys acc).
Proof.
  revert acc. induction urls as [|u urls IH]; intros acc; cbn [fold_left].
  - reflexivity.
  - rewrite IH. now rewrite keys_set.
Qed.

Lemma batch_keeps (urls : list string) (acc : dict) (u : string) :
  get acc u = Some (crawl_and_extract_contacts_HYBRID s u) ->
  get (fold_left (fun a x => set a x (crawl_and_extract_contacts_HYBRID s x)) urls acc) u
  = Some (crawl_and_extract_contacts_HYBRID s u).
Proof.
  revert acc. induction urls as [|x urls IH]; intros acc H; cbn [fold_left].
  - exact H.
  - apply IH. destruct (String.eqb u x) eqn:E.
    + apply String.eqb_eq in E. subst x.
      apply OrchestratorProperties.get_set_same.
    + rewrite RoutingProperties.get_set_other; [exact H|].
      now apply String.eqb_neq.
Qed.

Lemma batch_lookup (urls : list string) (acc : dict) (u : string) :
  In u urls ->
  get (fold_left (fun a x => set a x (crawl_and_extract_contacts_HYBRID s x)) urls acc) u
  = Some (crawl_and_extract_contacts_HYBRID s u).
Proof.
  revert acc. induction urls as [|x urls IH]; intros acc H; cbn [fold_left].
  - destruct H.
  - destruct (String.eqb u x) eqn:E.
    + apply String.eqb_eq in E. subst x. apply batch_keeps.
      apply OrchestratorProperties.get_set_same.
    + destruct H as [H|H].
      * subst. rewrite String.eqb_refl in E. discriminate.
      * now apply IH.
Qed.

End Batch.

Lemma batch_crawl_lookup (s : services) (urls : list string) (u : string) :
  In u urls ->
  get (crawl_and_extract_contacts_all_urls s urls) u
  = Some (crawl_and_extract_contacts_HYBRID s u).
Proof. intros H. now apply (batch_lookup s urls []). Qed.

(** X9. The batch crawl returns one record per distinct URL, in the
    order in which the URLs first occur, and the record of each URL is
    what crawling that URL alone gives: a page that fails gets its error
    record and changes nothing for the others. *)
Theorem batch_crawl_keeps_one_record_per_url (s : services)
  (urls : list string) :
  keys (crawl_and_extract_contacts_all_urls s urls) = Py.fromkeys urls
  /\ forall u, In u urls ->
       get (crawl_and_extract_contacts_all_urls s urls) u
       = Some (crawl_and_extract_contacts_HYBRID s u).
Proof.
  unfold crawl_and_extract_contacts_all_urls. split.
  - apply (batch_keys s urls []).
  - intros u H. now apply batch_crawl_lookup.
Qed.

Lemma substring_length (n : nat) (t : string) :
  String.length (String.substring 0 n t) <= n.
Proof.
  revert t. induction n as [|n IH]; intros [|c t]; cbn; try lia.
  specialize (IH t). lia.
Qed.

(** X10. Whatever the search service returns, [search_web] gives one
    result per hit, in the same order, with the hit's URL, and no snippet
    is longer than 200 characters. *)
Theorem search_web_bounds_the_snippets (s : services) (query : string)
  (num_results : nat) :
  Forall (fun r => String.length (snippet r) <= 200)
         (search_web s query num_results)
  /\ match exa s with
     | Some search_and_contents =>
         match search_and_contents query num_results with
         | Ok results =>
             map result_url (search_web s query num_results) = map url results
         | Raise _ => search_web s query num_results = []
         end
     | None => search_web s query num_results = []
     end.
Proof.
  unfold search_web. destruct (exa s) as [f|]; [|split; [constructor | reflexivity]].
  destruct (f query num_results) as [results|e];
    [|split; [constructor | reflexivity]].
  split.
  - apply Forall_forall. intros r H. apply in_map_iff in H.
    destruct H as [x [<- _]]. cbn [snippet].
    destruct (text x); [apply substring_length | cbn; lia].
  - rewrite map_map. reflexivity.
Qed.

End CrawlProperties.

(* ================================================================== *)
(** ** The resource handler on a query *)

Module ResourceHandlerProperties.
Import Value Dynamic ResourceAgent ResourceHandler Spec.

Section Handler.
Variable s : services.
Variable repr : value -> string.
Variable now : float.

(** With a URL list that is not empty, the loop body adds nothing: it
    skips the entry or raises. *)
Lemma section_adds_nothing (first : string) (rest : list string)
  (entry : string * value) (lines : list string) :
  section_for repr (first :: rest) entry = Ok lines -> lines = [].
Proof.
  destruct entry as [u c]. unfold section_for.
  destruct (py_in "error" c) as [[|]|e]; cbn [bind].
  - now intros [= <-].
  - discriminate.
  - discriminate.
Qed.

Lemma sections_add_nothing (first : string) (rest : list string)
  (all : dict) (lines : list string) :
  each (section_for repr (first :: rest)) all = Ok lines -> lines = [].
Proof.
  revert lines. induction all as [|entry all IH]; intros lines; cbn [each].
  - now intros [= <-].
  - destruct (section_for repr (first :: rest) entry) as [a|e] eqn:A;
      cbn [bind]; [|discriminate].
    apply section_adds_nothing in A. subst a.
    destruct (each (section_for repr (first :: rest)) all) as [b|e];
      cbn [bind]; [|discriminate].
    intros [= <-]. now rewrite (IH b eq_refl).
Qed.

(** An entry without an [error] key makes the loop raise. *)
Lemma sections_raise (first : string) (rest : list string) (all : dict)
  (u : string) (c : dict) :
  In (u, VDict c) all -> has_key c "error" = false ->
  each (section_for repr (first :: rest)) all
  = Raise (no_attribute (VStr first) "get")
  \/ exists x, each (section_for repr (first :: rest)) all
               = Raise (not_iterable x).
Proof.
  intros I K. induction all as [|[u' c'] all IH]; [destruct I|].
  cbn [each]. unfold section_for at 1 3.
  destruct I as [I|I].
  - injection I as -> ->. cbn [py_in bind]. rewrite K. now left.
  - destruct c'; cbn [py_in bind]; try (right; eexists; reflexivity).
    + destruct (Py.contains s0 "error"); cbn [bind]; [|now left].
      destruct (IH I) as [->|[x ->]]; [now left | right; now exists x].
    + destruct (existsb _ l); cbn [bind]; [|now left].
      destruct (IH I) as [->|[x ->]]; [now left | right; now exists x].
    + destruct (has_key d "error"); cbn [bind]; [|now left].
      destruct (IH I) as [->|[x ->]]; [now left | right; now exists x].
Qed.

End Handler.

(** X11. The resource handler never lists a contact.  Whenever it
    returns, it returns the not-found sentence (the search gave nothing)
    or a record whose text is the opening line followed by the sentence
    that no contact information was found. *)
Theorem resource_handler_never_lists_a_contact (s : services)
  (repr : value -> string) (now : float) (query : string)
  (query_info : option dict) (v : value) :
  run_query s repr now query query_info = Ok v ->
  v = VStr not_found
  \/ exists d,
       v = VDict d
       /\ get d "response" = Some (VStr (Py.join Py.nl [opening; no_contacts]))
       /\ get d "info_type" = Some (VStr "resource_information").
Proof.
  unfold run_query.
  destruct (search_web s query 3) as [|r rest]; [intros [= <-]; now left|].
  cbn [map]. unfold present.
  destruct (each _ _) as [sections|e] eqn:E; cbn [bind]; [|discriminate].
  apply sections_add_nothing in E. subst sections.
  destruct (last_contact_info _) as [c|e]; cbn [bind]; [|discriminate].
  destruct (attr_get c "emergency" _); cbn [bind]; [|discriminate].
  destruct (attr_get c "phone" _); cbn [bind]; [|discriminate].
  destruct (attr_get c "email" _); cbn [bind]; [|discriminate].
  destruct (attr_get c "address" _); cbn [bind]; [|discriminate].
  destruct (attr_get c "websites" _); cbn [bind]; [|discriminate].
  destruct (sum_of _ _); cbn [bind]; [|discriminate].
  intros [= <-]. right. eexists. split; [reflexivity|]. split; reflexivity.
Qed.

(** X12. As soon as one of the pages found is crawled without an error
    record, the resource handler raises: the loop that looks for the
    page's title calls [get] on a URL string. *)
Theorem resource_handler_raises_after_a_crawl (s : services)
  (repr : value -> string) (now : float) (query : string)
  (query_info : option dict) (first u : string) (rest : list string)
  (c : dict) :
  map result_url (search_web s query 3) = first :: rest ->
  In u (first :: rest) ->
  crawl_and_extract_contacts_HYBRID s u = VDict c ->
  has_key c "error" = false ->
  run_query s repr now query query_info
  = Raise (no_attribute (VStr first) "get")
  \/ exists x, run_query s repr now query query_info = Raise (not_iterable x).
Proof.
  intros U I C K. unfold run_query.
  destruct (search_web s query 3) as [|r results] eqn:W; [discriminate|].
  rewrite U. unfold present.
  assert (G : In (u, VDict c) (crawl_and_extract_contacts_all_urls s
                                 (first :: rest))).
  { apply CrawlProperties.get_In. rewrite <- C.
    now apply CrawlProperties.batch_crawl_lookup. }
  destruct (sections_raise repr first rest _ u c G K) as [->|[x ->]];
    [now left | right; now exists x].
Qed.

Lemma resource_handler_never_lists_a_contact_witness :
  VDict [("response", VStr (Py.join Py.nl [opening; no_contacts]));
         ("data",
          VDict [("timestamp", VFloat 0%float);
                 ("query", VStr "relief contacts");
                 ("urls_searched", strs ["https://relief.example/contact"]);
                 ("contact_info",
                  VDict [("emergency", VList []); ("phone", VList []);
                         ("email", VList []); ("address", VList []);
                         ("websites", VList [])]);
                 ("resource_types", VList [])]);
         ("info_type", VStr "resource_information");
         ("location", VNone);
         ("contact_count", VInt 0)] = VStr not_found
  \/ exists d,
       VDict [("response", VStr (Py.join Py.nl [opening; no_contacts]));
              ("data",
               VDict [("timestamp", VFloat 0%float);
                      ("query", VStr "relief contacts");
                      ("urls_searched", strs ["https://relief.example/contact"]);
                      ("contact_info",
                       VDict [("emergency", VList []); ("phone", VList []);
                              ("email", VList []); ("address", VList []);
                              ("websites", VList [])]);
                      ("resource_types", VList [])]);
              ("info_type", VStr "resource_information");
              ("location", VNone);
              ("contact_count", VInt 0)] = VDict d
       /\ get d "response" = Some (VStr (Py.join Py.nl [opening; no_contacts]))
       /\ get d "info_type" = Some (VStr "resource_information").
Proof.
  apply (resource_handler_never_lists_a_contact Behaviour.unreachable
           Builtins.repr 0%float "relief contacts" None).
  vm_compute. reflexivity.
Defined.

Lemma resource_handler_raises_after_a_crawl_witness :
  run_query Behaviour.reachable Builtins.repr 0%float "relief contacts" None
  = Raise (no_attribute (VStr "https://relief.example/contact") "get")
  \/ exists x,
       run_query Behaviour.reachable Builtins.repr 0%float "relief contacts"
                 None
       = Raise (not_iterable x).
Proof.
  apply (resource_handler_raises_after_a_crawl Behaviour.reachable
           Builtins.repr 0%float "relief contacts" None
           "https://relief.example/contact" "https://relief.example/contact" []
           [("phone", strs []);
            ("emergency_phone", strs ["+18005550199"]);
            ("email", strs []);
            ("address", strs [])]).
  - vm_compute. reflexivity.
  - left. reflexivity.
  - vm_compute. reflexivity.
  - reflexivity.
Defined.

End ResourceHandlerProperties.

(* ================================================================== *)
(** ** The information handler *)

Module InformationProperties.
Import Value Dynamic InformationAgent Spec.

Lemma keyword_location_is_named (query : string) :
  exists name lat lon,
    keyword_location query
    = VDict [("location_name", VStr name); ("lat", lat); ("lon", lon)].
Proof.
  unfold keyword_location. cbv zeta.
  destruct (Py.contains (Py.lower query) "punjab");
    [eexists; eexists; eexists; reflexivity|].
  destruct (Py.any_in (Py.lower query) ["houston"; "texas"]);
    [eexists; eexists; eexists; reflexivity|].
  destruct (Py.contains (Py.lower query) "miami");
    eexists; eexists; eexists; reflexivity.
Qed.

Lemma keyword_needs_something (query : string) :
  weather (keyword_needs query) || evacuation (keyword_needs query)
  || shelter (keyword_needs query) = true.
Proof.
  unfold keyword_needs. cbv zeta. cbn [weather evacuation shelter].
  destruct (Py.any_in (Py.lower query) weather_words);
    destruct (Py.any_in (Py.lower query) evacuation_words);
    destruct (Py.any_in (Py.lower query) shelter_words); reflexivity.
Qed.

(** The answer assembled without a client, for a location record that
    names the location. *)
Lemma answer_without_client (w : world) (query : string) (ld : dict)
  (name lat lon : value) (n : needs) :
  client w = None ->
  get ld "location_name" = Some name ->
  exists d lines,
    generate_information_response w query (VDict ld)
      ((if weather n then [get_weather_alerts w lat lon] else [])
       ++ (if evacuation n then [get_evacuation_routes] else [])
       ++ (if shelter n then [get_emergency_shelter_locations] else []))
    = Ok (VDict d)
    /\ get d "info_type" = Some (VStr "emergency_information")
    /\ get d "location" = Some name
    /\ get d "response"
       = Some (VStr (Py.join Py.nl
                       (("Here's the latest information for " ++ fmt w name
                         ++ ":")%string
                        :: lines ++ [safety_heading; safety_recommendation]))).
Proof.
  intros C L. unfold generate_information_response.
  assert (G : get_or ld "location_name" VNone = name)
    by (unfold get_or; now rewrite L).
  rewrite C. cbn [attr_get bind subscript]. rewrite G, L. cbn [bind].
  destruct n as [[|] [|] [|]]; cbn [weather evacuation shelter app];
    eexists; eexists; (split; [reflexivity|]);
    (split; [reflexivity|]); (split; reflexivity).
Qed.

(** X13. Without a client the information handler answers every query,
    with or without an analysis: it returns a record of type
    [emergency_information] for the location provided or, failing that,
    the one of its keyword table, and the text opens with the line naming
    that location and closes with the safety recommendation. *)
Theorem information_handler_answers_without_a_client (w : world)
  (query : string) (query_info : option dict) :
  client w = None ->
  exists d lines,
    run w query query_info = Ok (VDict d)
    /\ get d "info_type" = Some (VStr "emergency_information")
    /\ get d "location" = Some (Behaviour.expected_location query query_info)
    /\ get d "response"
       = Some (VStr (Py.join Py.nl
                       (("Here's the latest information for "
                         ++ fmt w (Behaviour.expected_location query query_info)
                         ++ ":")%string
                        :: lines ++ [safety_heading; safety_recommendation]))).
Proof.
  intros C. unfold Behaviour.expected_location.
  destruct (given_location query_info) as [l|] eqn:G.
  - destruct (answer_without_client w query
                [("location_name", l);
                 ("coordinates",
                  get_or (match query_info with Some d => d | None => [] end)
                         "coordinates" (VDict []))]
                l (VInt 0) (VInt 0) (keyword_needs query) C eq_refl)
      as [d [lines [E R]]].
    exists d, lines. split; [|exact R].
    unfold run. rewrite C, G. exact E.
  - destruct (keyword_location_is_named query) as [name [lat [lon K]]].
    rewrite K. cbn [get_or get String.eqb Ascii.eqb Bool.eqb].
    destruct (answer_without_client w query
                [("location_name", VStr name); ("lat", lat); ("lon", lon)]
                (VStr name) lat lon (keyword_needs query) C eq_refl)
      as [d [lines [E R]]].
    exists d, lines. split; [|exact R].
    unfold run, extract_location_from_query. rewrite C, G, K. exact E.
Qed.

Lemma information_handler_answers_without_a_client_witness :
  exists d lines,
    run Behaviour.information_offline "is the road to Houston open"
        (Some (Orchestrator.orchestrator_local_process_query
                 "is the road to Houston open"))
    = Ok (VDict d)
    /\ get d "info_type" = Some (VStr "emergency_information")
    /\ get d "location"
       = Some (Behaviour.expected_location "is the road to Houston open"
                 (Some (Orchestrator.orchestrator_local_process_query
                          "is the road to Houston open")))
    /\ get d "response"
       = Some (VStr (Py.join Py.nl
                       (("Here's the latest information for "
                         ++ fmt Behaviour.information_offline
                              (Behaviour.expected_location
                                 "is the road to Houston open"
                                 (Some (Orchestrator.orchestrator_local_process_query
                                          "is the road to Houston open")))
                         ++ ":")%string
                        :: lines ++ [safety_heading; safety_recommendation]))).
Proof.
  apply (information_handler_answers_without_a_client
           Behaviour.information_offline "is the road to Houston open"
           (Some (Orchestrator.orchestrator_local_process_query
                    "is the road to Houston open"))).
  reflexivity.
Defined.

(** The needs step raises only through [get] on a reply that parses to
    something other than an object. *)
Lemma asked_needs_raises (w : world) (query : string) (e : exn) :
  asked_needs w query = Raise e -> exists v, e = no_attribute v "get".
Proof.
  unfold asked_needs.
  destruct (ask_ai w _) as [[|a r]|]; try discriminate.
  destruct (truthy _); [|discriminate].
  destruct (extract_json_from_string w (String a r)) as [| | | | | |d];
    cbn [attr_get bind]; intros [= <-]; eexists; reflexivity.
Qed.

Lemma given_location_of (query_info : dict) :
  truthy (get_or query_info "location" VNone) = true ->
  given_location (Some query_info)
  = Some (get_or query_info "location" VNone).
Proof.
  intros T. destruct query_info as [|kv d]; [discriminate|].
  unfold given_location. now rewrite T.
Qed.

(** With a client, a provided location makes the handler raise: the
    location record it builds has no [lat]. *)
Lemma information_run_raises (w : world)
  (create : string -> outcome (option string)) (query : string)
  (query_info : dict) :
  client w = Some create ->
  truthy (get_or query_info "location" VNone) = true ->
  run w query (Some query_info) = Raise (key_error "lat")
  \/ exists v, run w query (Some query_info) = Raise (no_attribute v "get").
Proof.
  intros C T. unfold run. rewrite (given_location_of query_info T), C.
  cbn [bind subscript get String.eqb Ascii.eqb Bool.eqb].
  destruct (asked_needs w query) as [n|e] eqn:A; cbn [bind].
  - left. unfold generate_information_response, synthesis_prompt.
    rewrite C. reflexivity.
  - right. destruct (asked_needs_raises w query e A) as [v ->].
    now exists v.
Qed.

(** The text of the answer without a client. *)
Lemma information_text_without_client (w : world) (query : string)
  (query_info : option dict) :
  client w = None ->
  exists d text,
    run w query query_info = Ok (VDict d)
    /\ get d "response" = Some (VStr text)
    /\ Py.startswith text "Here's the latest information for " = true.
Proof.
  intros C.
  assert (T : forall name lines,
             Py.startswith
               (Py.join Py.nl
                  (("Here's the latest information for " ++ fmt w name
                    ++ ":")%string
                   :: lines ++ [safety_heading; safety_recommendation]))
               "Here's the latest information for " = true).
  { intros name lines. unfold Py.startswith.
    destruct lines; cbn [app Py.join];
      apply OrchestratorProperties.prefix_app;
      apply RoutingProperties.prefix_self. }
  destruct (given_location query_info) as [l|] eqn:G.
  - destruct (answer_without_client w query
                [("location_name", l);
                 ("coordinates",
                  get_or (match query_info with Some d => d | None => [] end)
                         "coordinates" (VDict []))]
                l (VInt 0) (VInt 0) (keyword_needs query) C eq_refl)
      as [d [lines [E [_ [_ R]]]]].
    exists d. eexists. split; [|split; [exact R | apply T]].
    unfold run. rewrite C, G. exact E.
  - destruct (keyword_location_is_named query) as [name [lat [lon K]]].
    destruct (answer_without_client w query
                [("location_name", VStr name); ("lat", lat); ("lon", lon)]
                (VStr name) lat lon (keyword_needs query) C eq_refl)
      as [d [lines [E [_ [_ R]]]]].
    exists d. eexists. split; [|split; [exact R | apply T]].
    unfold run, extract_location_from_query. rewrite C, G, K. exact E.
Qed.

End InformationProperties.

(* ================================================================== *)
(** ** The orchestrator with the agents as its handlers *)

Module SystemProperties.
Import Value Orchestrator Spec Behaviour.

Lemma located_is_not_pending (query_info : dict) :
  truthy (get_or query_info "location" VNone) = true ->
  location_pending query_info = false.
Proof. intros T. unfold location_pending. rewrite T. apply andb_false_r. Qed.

(** X14. With a client, the information handler raises on every call
    that brings a location (truthy, as step 3 passes it): the location
    record it builds holds [location_name] and [coordinates], and the
    synthesis prompt reads [lat] from it.  For the intent information the
    dispatch then answers from the local responder. *)
Theorem information_handler_raises_on_a_provided_location
  (i : InformationAgent.world) (create : string -> outcome (option string))
  (query : string) (query_info : dict) :
  InformationAgent.client i = Some create ->
  truthy (get_or query_info "location" VNone) = true ->
  (InformationAgent.run i query (Some query_info) = Raise (key_error "lat")
   \/ exists v, InformationAgent.run i query (Some query_info)
                = Raise (no_attribute v "get"))
  /\ forall (w : env) (r : RescueAgent.world) (s : ResourceAgent.services)
            (now : float),
       exists answer,
         dispatch (System.assembled w r s now i) query "information"
                  query_info false = Ok (VDict answer)
         /\ keys answer = answer_keys
         /\ get answer "used_local_fallback" = Some (VBool true)
         /\ get answer "query_info"
            = Some (VDict (orchestrator_local_process_query query)).
Proof.
  intros C T.
  pose proof (InformationProperties.information_run_raises
                i create query query_info C T) as R.
  split; [exact R|]. intros w r s now.
  destruct (RoutingProperties.dispatch_answers
              (System.assembled w r s now i) query "information" query_info)
    as [answer [D [K [_ [F Q]]]]].
  assert (H : raised (handler_of (System.assembled w r s now i) "information"
                        query query_info) = true).
  { unfold handler_of, System.assembled. cbn [String.eqb Ascii.eqb Bool.eqb
      information_run].
    destruct R as [->|[v ->]]; reflexivity. }
  rewrite H in F, Q. exists answer. repeat split; assumption.
Qed.

Lemma information_handler_raises_on_a_provided_location_witness :
  (InformationAgent.run information_silent "flood in Austin, Texas"
     (Some (orchestrator_local_process_query "flood in Austin, Texas"))
   = Raise (key_error "lat")
   \/ exists v,
        InformationAgent.run information_silent "flood in Austin, Texas"
          (Some (orchestrator_local_process_query
                   "flood in Austin, Texas"))
        = Raise (no_attribute v "get"))
  /\ forall (w : env) (r : RescueAgent.world) (s : ResourceAgent.services)
            (now : float),
       exists answer,
         dispatch (System.assembled w r s now information_silent)
                  "flood in Austin, Texas" "information"
                  (orchestrator_local_process_query
                     "flood in Austin, Texas") false
         = Ok (VDict answer)
         /\ keys answer = answer_keys
         /\ get answer "used_local_fallback" = Some (VBool true)
         /\ get answer "query_info"
            = Some (VDict (orchestrator_local_process_query
                             "flood in Austin, Texas")).
Proof.
  apply (information_handler_raises_on_a_provided_location
           information_silent (fun _ => Ok None)
           "flood in Austin, Texas"
           (orchestrator_local_process_query "flood in Austin, Texas")).
  - reflexivity.
  - vm_compute. reflexivity.
Defined.

(** X15. In the assembled system, with a client for the information
    agent, a query whose analysis carries a location is never answered by
    the Rescue or the Information handler: for every classified intent
    other than resource the handler raises and [route_query] returns the
    local responder's answer, flagged [used_local_fallback], under the
    classified intent and with the local analysis. *)
Theorem located_query_is_answered_locally (w : env) (r : RescueAgent.world)
  (s : ResourceAgent.services) (now : float) (i : InformationAgent.world)
  (create : string -> outcome (option string)) (query intent : string) :
  InformationAgent.client i = Some create ->
  truthy (get_or (analysed (System.assembled w r s now i) query)
                 "location" VNone) = true ->
  classified_intent (System.assembled w r s now i) query = VStr intent ->
  intent <> "resource" ->
  exists answer,
    route_query (System.assembled w r s now i) query = Ok (VDict answer)
    /\ get answer "used_local_fallback" = Some (VBool true)
    /\ get answer "intent" = Some (VStr intent)
    /\ get answer "query_info"
       = Some (VDict (orchestrator_local_process_query query)).
Proof.
  intros C T I N.
  rewrite RoutingProperties.route_query_steps.
  rewrite (located_is_not_pending _ T), I.
  destruct (RoutingProperties.dispatch_answers
              (System.assembled w r s now i) query intent
              (analysed (System.assembled w r s now i) query))
    as [answer [D [_ [J [F Q]]]]].
  assert (H : raised (handler_of (System.assembled w r s now i) intent query
                        (analysed (System.assembled w r s now i) query))
              = true).
  { unfold handler_of.
    destruct (String.eqb intent "rescue").
    - cbn [System.assembled rescue_run].
      destruct (RescueProperties.provided_location_raises r query _ T)
        as [->|[v ->]]; reflexivity.
    - destruct (String.eqb intent "resource") eqn:E.
      + apply String.eqb_eq in E. contradiction.
      + cbn [System.assembled information_run].
        destruct (InformationProperties.information_run_raises
                    i create query _ C T) as [->|[v ->]]; reflexivity. }
  rewrite H in F, Q. exists answer. repeat split; assumption.
Qed.

Lemma located_query_is_answered_locally_witness :
  exists answer,
    route_query (System.assembled Scenario.babbling Scenario.rescue_down
                   Scenario.offline 0%float information_silent)
                Scenario.fire_query = Ok (VDict answer)
    /\ get answer "used_local_fallback" = Some (VBool true)
    /\ get answer "intent" = Some (VStr "information")
    /\ get answer "query_info"
       = Some (VDict (orchestrator_local_process_query Scenario.fire_query)).
Proof.
  apply (located_query_is_answered_locally Scenario.babbling
           Scenario.rescue_down Scenario.offline 0%float information_silent
           (fun _ => Ok None) Scenario.fire_query "information").
  - reflexivity.
  - vm_compute. reflexivity.
  - vm_compute. reflexivity.
  - discriminate.
Defined.

(** A reply in which no object is found comes back as it is. *)
Lemma unparseable_call (w : env) (prompt : string) :
  unparseable w ->
  json_loads w (cerebras_llama_call w prompt) = None
  /\ truthy (extract_json_from_string w (cerebras_llama_call w prompt)) = false.
Proof.
  intros U. unfold cerebras_llama_call.
  match goal with
  | |- context [call_cerebras_api w ?p] => destruct (U p) as [r [-> [L E]]]
  end.
  destruct (negb (Py.startswith (Py.strip r) "{")); [|now split].
  rewrite E. now split.
Qed.

(** X24. When every reply of the inference service is text in which no
    JSON object is found, the analysis of step 1 is the local one and
    step 2 classifies every query as information: the keyword ladder for
    the intent is not consulted, so a located call for help goes to the
    Information handler. *)
Theorem unparseable_replies_route_to_information (w : env) (query : string) :
  unparseable w ->
  analysed w query = orchestrator_local_process_query query
  /\ classified_intent w query = VStr "information"
  /\ route_query w query
     = if location_pending (orchestrator_local_process_query query) then
         Ok (VDict [("response", VStr location_request);
                    ("needs_location", VBool true);
                    ("query_info",
                     VDict (orchestrator_local_process_query query));
                    ("intent", VStr "pending_location")])
       else dispatch w query "information"
                     (orchestrator_local_process_query query) false.
Proof.
  intros U.
  assert (A : analysed w query = orchestrator_local_process_query query).
  { unfold analysed, process_query. cbv zeta.
    destruct (unparseable_call w (process_prompt query) U) as [-> ->].
    reflexivity. }
  assert (C : classified_intent w query = VStr "information").
  { unfold classified_intent, classify_intent.
    destruct (unparseable_call w (intent_prompt w query (analysed w query)) U)
      as [-> _].
    reflexivity. }
  split; [exact A|]. split; [exact C|].
  rewrite RoutingProperties.route_query_steps, C, A. reflexivity.
Qed.

Lemma unparseable_replies_route_to_information_witness :
  analysed Scenario.babbling "help, I am trapped in Austin, Texas"
  = orchestrator_local_process_query "help, I am trapped in Austin, Texas"
  /\ classified_intent Scenario.babbling "help, I am trapped in Austin, Texas"
     = VStr "information"
  /\ route_query Scenario.babbling "help, I am trapped in Austin, Texas"
     = if location_pending
            (orchestrator_local_process_query
               "help, I am trapped in Austin, Texas") then
         Ok (VDict [("response", VStr location_request);
                    ("needs_location", VBool true);
                    ("query_info",
                     VDict (orchestrator_local_process_query
                              "help, I am trapped in Austin, Texas"));
                    ("intent", VStr "pending_location")])
       else dispatch Scenario.babbling "help, I am trapped in Austin, Texas"
                     "information"
                     (orchestrator_local_process_query
                        "help, I am trapped in Austin, Texas") false.
Proof.
  apply (unparseable_replies_route_to_information Scenario.babbling
           "help, I am trapped in Austin, Texas").
  intros prompt. eexists. split; [reflexivity|]. split; reflexivity.
Defined.

(** X25. In the assembled system, a query classified as resource is
    never answered with contacts from the web: the answer is the local
    responder's (the handler raised), or its text is the not-found
    sentence, or the sentence that no contact information was found. *)
Theorem resource_query_gets_no_web_contact (w : env) (r : RescueAgent.world)
  (s : ResourceAgent.services) (now : float) (i : InformationAgent.world)
  (query : string) :
  location_pending (analysed (System.assembled w r s now i) query) = false ->
  classified_intent (System.assembled w r s now i) query = VStr "resource" ->
  exists answer,
    route_query (System.assembled w r s now i) query = Ok (VDict answer)
    /\ (get answer "used_local_fallback" = Some (VBool true)
        \/ get answer "response" = Some (VStr ResourceHandler.not_found)
        \/ get answer "response"
           = Some (VStr (Py.join Py.nl [ResourceHandler.opening;
                                        ResourceHandler.no_contacts]))).
Proof.
  intros P C. rewrite RoutingProperties.route_query_steps, P, C.
  destruct (RoutingProperties.dispatch_answers
              (System.assembled w r s now i) query "resource"
              (analysed (System.assembled w r s now i) query))
    as [answer [D [_ [_ [F _]]]]].
  unfold handler_of in F.
  cbn [String.eqb Ascii.eqb Bool.eqb System.assembled resource_run] in F.
  destruct (ResourceHandler.run_query s (repr w) now query _) as [v|e] eqn:R.
  - clear D F. unfold dispatch. cbv zeta.
    cbn [String.eqb Ascii.eqb Bool.eqb System.assembled resource_run].
    rewrite R. eexists. split; [reflexivity|]. right.
    unfold ResourceHandler.run_query in R.
    destruct (ResourceAgent.search_web s query 3) as [|hit hits].
    + injection R as <-. left. reflexivity.
    + cbn [map] in R. unfold ResourceHandler.present in R.
      destruct (each _ _) as [sections|e] eqn:E; cbn [bind] in R;
        [|discriminate R].
      apply ResourceHandlerProperties.sections_add_nothing in E.
      subst sections.
      destruct (ResourceHandler.last_contact_info _) as [c|e]; cbn [bind] in R;
        [|discriminate R].
      destruct (attr_get c "emergency" _); cbn [bind] in R; [|discriminate R].
      destruct (attr_get c "phone" _); cbn [bind] in R; [|discriminate R].
      destruct (attr_get c "email" _); cbn [bind] in R; [|discriminate R].
      destruct (attr_get c "address" _); cbn [bind] in R; [|discriminate R].
      destruct (attr_get c "websites" _); cbn [bind] in R; [|discriminate R].
      destruct (Dynamic.sum_of _ _); cbn [bind] in R; [|discriminate R].
      injection R as <-. right. reflexivity.
  - exists answer. split; [exact D|]. left. exact F.
Qed.

Lemma resource_query_gets_no_web_contact_witness :
  exists answer,
    route_query (System.assembled resource_minded Scenario.rescue_down
                   reachable 0%float information_offline)
                "where can I find a phone number" = Ok (VDict answer)
    /\ (get answer "used_local_fallback" = Some (VBool true)
        \/ get answer "response" = Some (VStr ResourceHandler.not_found)
        \/ get answer "response"
           = Some (VStr (Py.join Py.nl [ResourceHandler.opening;
                                        ResourceHandler.no_contacts]))).
Proof.
  apply (resource_query_gets_no_web_contact resource_minded
           Scenario.rescue_down reachable 0%float information_offline
           "where can I find a phone number").
  - vm_compute. reflexivity.
  - vm_compute. reflexivity.
Defined.

(** X26. In the assembled system, when the replies of the inference
    service hold no JSON object and the information agent has no client,
    every query for which step 1 does not ask for the location is
    answered by the Information handler itself: the answer is not
    flagged as a local fallback and its text opens with the handler's
    line about the latest information. *)
Theorem information_handler_answers_in_the_system (w : env)
  (r : RescueAgent.world) (s : ResourceAgent.services) (now : float)
  (i : InformationAgent.world) (query : string) :
  unparseable (System.assembled w r s now i) ->
  InformationAgent.client i = None ->
  location_pending (orchestrator_local_process_query query) = false ->
  exists answer text,
    route_query (System.assembled w r s now i) query = Ok (VDict answer)
    /\ get answer "intent" = Some (VStr "information")
    /\ get answer "used_local_fallback" = Some (VBool false)
    /\ get answer "response" = Some (VStr text)
    /\ Py.startswith text "Here's the latest information for " = true.
Proof.
  intros U C P.
  assert (A : analysed (System.assembled w r s now i) query
              = orchestrator_local_process_query query).
  { unfold analysed, process_query. cbv zeta.
    destruct (unparseable_call _ (process_prompt query) U) as [-> ->].
    reflexivity. }
  assert (I : classified_intent (System.assembled w r s now i) query
              = VStr "information").
  { unfold classified_intent, classify_intent.
    destruct (unparseable_call _
                (intent_prompt (System.assembled w r s now i) query
                   (analysed (System.assembled w r s now i) query)) U)
      as [-> _].
    reflexivity. }
  rewrite RoutingProperties.route_query_steps, I, A, P.
  destruct (InformationProperties.information_text_without_client i query
              (Some (orchestrator_local_process_query query)) C)
    as [d [text [R [G S]]]].
  unfold dispatch. cbv zeta.
  cbn [String.eqb Ascii.eqb Bool.eqb System.assembled information_run].
  rewrite R. eexists. exists text. split; [reflexivity|].
  cbn [field_or]. unfold get_or. rewrite G. repeat split. exact S.
Qed.

Lemma information_handler_answers_in_the_system_witness :
  exists answer text,
    route_query (System.assembled Scenario.babbling Scenario.rescue_down
                   Scenario.offline 0%float information_offline)
                "help, I am trapped in Austin, Texas" = Ok (VDict answer)
    /\ get answer "intent" = Some (VStr "information")
    /\ get answer "used_local_fallback" = Some (VBool false)
    /\ get answer "response" = Some (VStr text)
    /\ Py.startswith text "Here's the latest information for " = true.
Proof.
  apply (information_handler_answers_in_the_system Scenario.babbling
           Scenario.rescue_down Scenario.offline 0%float information_offline
           "help, I am trapped in Austin, Texas").
  - intros prompt. eexists. split; [reflexivity|]. split; reflexivity.
  - reflexivity.
  - vm_compute. reflexivity.
Defined.

End SystemProperties.

(* ================================================================== *)
(** ** What the extractor's lists hold *)

Module ExtractorInvariants.
Import ResourceAgent Spec CharClass Re.

Lemma all_ascii_complete (c : ascii) : In c all_ascii.
Proof.
  unfold all_ascii. rewrite <- (ascii_nat_embedding c). apply in_map.
  apply in_seq. pose proof (nat_ascii_bounded c). lia.
Qed.

Lemma included_sound (p q : ascii -> bool) :
  included p q = true -> forall c, p c = true -> q c = true.
Proof.
  unfold included. rewrite forallb_forall. intros H c P.
  specialize (H c (all_ascii_complete c)). now rewrite P in H.
Qed.

(** A repetition calls its continuation at or after where it started. *)
Lemma rounds_reach (body : cursor -> caps -> cont -> answer)
  (greedy : bool) (lo : nat) (hi : option nat) (k : cont)
  (res : cursor * caps) :
  (forall z g k', body z g k' = Some res ->
                  exists z' g', k' z' g' = Some res /\ at_or_after z' z) ->
  forall fuel n z g,
    rounds body greedy lo hi k fuel n z g = Some res ->
    exists z' g', k z' g' = Some res /\ at_or_after z' z.
Proof.
  intros B. induction fuel as [|f IH]; intros n z g H; cbn [rounds] in H.
  - assert (S : (if lo <=? n then k z g else None) = Some res).
    { destruct greedy; apply MatcherProperties.or_else_cases in H;
        destruct H as [H|H]; try discriminate; exact H. }
    destruct (lo <=? n); [|discriminate].
    exists z, g. split; [exact S | apply MatcherProperties.at_or_after_refl].
  - assert (S : (if lo <=? n then k z g else None) = Some res
                \/ (if under hi n
                    then body z g (fun z' g' =>
                           if List.length (after z') <? List.length (after z)
                           then rounds body greedy lo hi k f (S n) z' g'
                           else None)
                    else None) = Some res).
    { destruct greedy; apply MatcherProperties.or_else_cases in H;
        destruct H as [H|H]; [right | left | left | right]; exact H. }
    destruct S as [S|S].
    + destruct (lo <=? n); [|discriminate].
      exists z, g. split; [exact S | apply MatcherProperties.at_or_after_refl].
    + destruct (under hi n); [|discriminate].
      apply B in S. destruct S as [z1 [g1 [S T]]].
      destruct (List.length (after z1) <? List.length (after z));
        [|discriminate].
      apply IH in S. destruct S as [z2 [g2 [S U]]].
      exists z2, g2. split; [exact S|].
      eapply MatcherProperties.at_or_after_trans; eassumption.
Qed.

(** Every pattern calls its continuation at or after where it started. *)
Lemma run_reaches (r : re) :
  forall z g k res,
    run r z g k = Some res ->
    exists z' g', k z' g' = Some res /\ at_or_after z' z.
Proof.
  induction r as [|p|a IHa b IHb|a IHa b IHb|greedy lo hi a IHa|i a IHa| |
                  |a IHa|n a IHa];
    intros z g k res H; cbn [run] in H.
  - exists z, g. split; [exact H | apply MatcherProperties.at_or_after_refl].
  - destruct z as [bf [|c t]]; cbn [after before] in H; [discriminate|].
    destruct (p c); [|discriminate].
    eexists. eexists. split; [exact H|]. exists [c]. reflexivity.
  - apply IHa in H. destruct H as [z1 [g1 [H T]]].
    apply IHb in H. destruct H as [z2 [g2 [H U]]].
    exists z2, g2. split; [exact H|].
    eapply MatcherProperties.at_or_after_trans; eassumption.
  - apply MatcherProperties.or_else_cases in H. destruct H as [H|H].
    + now apply IHa in H.
    + now apply IHb in H.
  - eapply rounds_reach; [|exact H].
    intros z0 g0 k' B. now apply IHa in B.
  - apply IHa in H. destruct H as [z1 [g1 [H T]]].
    eexists. eexists. split; [exact H | exact T].
  - destruct (before z); [|discriminate].
    exists z, g. split; [exact H | apply MatcherProperties.at_or_after_refl].
  - destruct (at_word_boundary z); [|discriminate].
    exists z, g. split; [exact H | apply MatcherProperties.at_or_after_refl].
  - destruct (run a z g _); [discriminate|].
    exists z, g. split; [exact H | apply MatcherProperties.at_or_after_refl].
  - destruct (List.length (before z) <? n).
    + exists z, g. split; [exact H | apply MatcherProperties.at_or_after_refl].
    + destruct (run a _ g _); [discriminate|].
      exists z, g. split; [exact H | apply MatcherProperties.at_or_after_refl].
Qed.

(** A pattern that demands a class matches only where a character of the
    class lies ahead. *)
Lemma demands_sound (q : ascii -> bool) (r : re) :
  demands q r = true ->
  forall z g k res,
    run r z g k = Some res -> exists x, In x (after z) /\ q x = true.
Proof.
  induction r as [|p|a IHa b IHb|a IHa b IHb|greedy lo hi a IHa|i a IHa| |
                  |a IHa|n a IHa];
    intros G z g k res H; cbn [demands] in G; try discriminate G;
    cbn [run] in H.
  - destruct z as [bf [|c t]]; cbn [after before] in H; [discriminate|].
    destruct (p c) eqn:P; [|discriminate].
    exists c. split; [now left | exact (included_sound p q G c P)].
  - apply orb_true_iff in G. destruct G as [G|G].
    + exact (IHa G _ _ _ _ H).
    + apply run_reaches in H. destruct H as [z1 [g1 [H [pre E]]]].
      destruct (IHb G _ _ _ _ H) as [x [I Q]].
      exists x. split; [|exact Q]. rewrite E. apply in_or_app. now right.
  - apply andb_true_iff in G. destruct G as [Ga Gb].
    apply MatcherProperties.or_else_cases in H. destruct H as [H|H].
    + exact (IHa Ga _ _ _ _ H).
    + exact (IHb Gb _ _ _ _ H).
  - apply andb_true_iff in G. destruct G as [L G].
    apply Nat.ltb_lt in L.
    assert (N : (lo <=? 0) = false) by (apply Nat.leb_gt; exact L).
    destruct (List.length (after z)) as [|f]; cbn [rounds] in H;
      rewrite N in H.
    + destruct greedy; discriminate H.
    + assert (S : (if under hi 0
                   then run a z g (fun z' g' =>
                          if List.length (after z') <? List.length (after z)
                          then rounds (run a) greedy lo hi k f 1 z' g'
                          else None)
                   else None) = Some res).
      { destruct greedy; apply MatcherProperties.or_else_cases in H;
          destruct H as [H|H]; try discriminate; exact H. }
      destruct (under hi 0); [|discriminate].
      exact (IHa G _ _ _ _ S).
  - exact (IHa G _ _ _ _ H).
Qed.

Lemma search_needs (q : ascii -> bool) (r : re) (h : hit) :
  demands q r = true ->
  forall prev rest,
    search_from r prev rest = Some h -> exists x, In x rest /\ q x = true.
Proof.
  intros G prev rest. revert prev.
  induction rest as [|c t IH]; intros prev; cbn [search_from];
    unfold match_at;
    destruct (run r _ [] accept) as [[z' g']|] eqn:R.
  - intros _. exact (demands_sound q r G _ _ _ _ R).
  - discriminate.
  - intros _. exact (demands_sound q r G _ _ _ _ R).
  - intros H. destruct (IH _ H) as [x [I Q]]. exists x. split; [now right|exact Q].
Qed.

Lemma found_needs (q : ascii -> bool) (r : re) (s : string) :
  demands q r = true -> found r s = true ->
  exists x, In x (Py.chars s) /\ q x = true.
Proof.
  intros G. unfold found, search.
  destruct (search_from r [] (Py.chars s)) as [h|] eqn:S; [|discriminate].
  intros _. exact (search_needs q r h G _ _ S).
Qed.

(** A full match of [[class]+] holds characters of the class only. *)
Lemma rounds_of_class (p : ascii -> bool) (lo : nat) (res : cursor * caps) :
  forall fuel n z g,
    rounds (run (Chr p)) true lo None
           (fun z g => match after z with [] => Some (z, g) | _ => None end)
           fuel n z g = Some res ->
    Forall (fun c => p c = true) (after z).
Proof.
  induction fuel as [|f IH]; intros n z g H; cbn [rounds] in H;
    apply MatcherProperties.or_else_cases in H; destruct H as [H|H];
    try discriminate H.
  - destruct (lo <=? n); [|discriminate H].
    destruct (after z); [constructor | discriminate H].
  - cbn [under run] in H.
    destruct z as [bf [|c t]]; cbn [after before] in *; [discriminate H|].
    destruct (p c) eqn:P; [|discriminate H].
    destruct (List.length t <? List.length (c :: t)); [|discriminate H].
    constructor; [exact P | exact (IH _ _ _ H)].
  - destruct (lo <=? n); [|discriminate H].
    destruct (after z); [constructor | discriminate H].
Qed.

Lemma fullmatch_of_class (p : ascii -> bool) (lo : nat) (s : string) :
  fullmatch (Rep true lo None (Chr p)) s = true ->
  Forall (fun c => p c = true) (Py.chars s).
Proof.
  unfold fullmatch. cbn [run].
  destruct (rounds _ _ _ _ _ _ _ _ _) as [res|] eqn:R; [|discriminate].
  intros _. exact (rounds_of_class p lo res _ _ _ _ R).
Qed.

Lemma lstrip_keeps (x : ascii) (l : list ascii) :
  Py.isspace x = false -> In x l -> In x (Py.lstrip_chars l).
Proof.
  intros S. induction l as [|c t IH]; cbn [Py.lstrip_chars]; [trivial|].
  destruct (Py.isspace c) eqn:C; [|trivial].
  intros [E|I]; [|now apply IH]. subst. rewrite S in C. discriminate.
Qed.

(** A string that holds a character which is not a blank does not strip
    to the empty string. *)
Lemma strip_keeps (x : ascii) (s : string) :
  Py.isspace x = false -> In x (Py.chars s) -> nonempty (Py.strip s) = true.
Proof.
  intros S I. unfold Py.strip.
  apply (lstrip_keeps x _ S) in I. apply in_rev in I.
  apply (lstrip_keeps x _ S) in I. apply in_rev in I.
  destruct (rev (Py.lstrip_chars (rev (Py.lstrip_chars (Py.chars s)))));
    [destruct I | reflexivity].
Qed.

Lemma word_is_no_blank (x : ascii) : Py.isword x = true -> Py.isspace x = false.
Proof.
  intros W.
  apply (included_sound Py.isword (fun c => negb (Py.isspace c))) in W;
    [|vm_compute; reflexivity].
  now apply negb_true_iff in W.
Qed.

(** A line that holds a word character passes the test of the second
    loop, and does not strip to the empty string. *)
Lemma word_line_is_kept (l : string) :
  has_word l ->
  nonempty l && negb (fullmatch markers l) = true
  /\ nonempty (Py.strip l) = true.
Proof.
  intros [x [I W]]. split.
  - apply andb_true_iff. split.
    + destruct l; [destruct I | reflexivity].
    + apply negb_true_iff. destruct (fullmatch markers l) eqn:F; [|reflexivity].
      apply fullmatch_of_class in F.
      rewrite Forall_forall in F. specialize (F x I). cbv beta in F.
      apply (included_sound Py.isword
               (fun c => negb (Ascii.eqb c "-"%char || Ascii.eqb c "*"%char
                               || Py.isspace c))) in W;
        [|vm_compute; reflexivity].
      cbv beta in W. rewrite F in W. discriminate.
  - exact (strip_keeps x l (word_is_no_blank x W) I).
Qed.

Lemma address_line_has_word (l : string) :
  is_address_line l = true -> has_word l.
Proof.
  unfold is_address_line, has_word. intros H.
  repeat (apply orb_true_iff in H; destruct H as [H|H]);
    (eapply found_needs; [|exact H]); vm_compute; reflexivity.
Qed.

Lemma candidates_have_words (lines cands : list string) :
  Forall has_word cands ->
  Forall has_word (fold_left add_candidate lines cands).
Proof.
  revert cands. induction lines as [|l lines IH]; intros cands F;
    cbn [fold_left]; [exact F|].
  apply IH. unfold add_candidate.
  destruct (is_address_line (Py.strip l)) eqn:A.
  - apply Forall_app. split; [exact F|].
    constructor; [now apply address_line_has_word | constructor].
  - destruct (_ && _ && _); [|exact F].
    destruct (found starts_word (Py.strip l) || found letter_end (Py.strip l))
      eqn:C; [|exact F].
    apply Forall_app. split; [exact F|]. constructor; [|constructor].
    apply orb_true_iff in C. destruct C as [C|C];
      (eapply found_needs; [|exact C]); vm_compute; reflexivity.
Qed.

(** The second loop on lines that all hold a word character: every line
    joins the current block. *)
Lemma block_grows (cands compiled current : list string) :
  Forall has_word current -> Forall has_word cands ->
  fold_left add_to_block cands (compiled, current)
  = (compiled, current ++ cands).
Proof.
  revert current. induction cands as [|l cands IH]; intros current C F;
    cbn [fold_left].
  - now rewrite app_nil_r.
  - inversion F as [|? ? W F']; subst.
    destruct (word_line_is_kept l W) as [K _].
    unfold add_to_block at 2. rewrite K.
    assert (P : (match current with [] => true | _ :: _ => false end)
                || nonempty (Py.strip (last current EmptyString)) = true).
    { destruct current as [|c current]; [reflexivity|].
      cbn [orb]. apply word_line_is_kept.
      rewrite Forall_forall in C. apply C.
      destruct (@exists_last _ (c :: current)) as [front [z E]];
        [discriminate|].
      rewrite E. rewrite last_last. apply in_or_app. right. now left. }
    rewrite P. rewrite IH.
    + now rewrite <- app_assoc.
    + apply Forall_app. split; [exact C | constructor; [exact W|constructor]].
    + exact F'.
Qed.

Lemma extracted_one_block (t : string) :
  compiled_addresses (address_candidates t)
  = match address_candidates t with
    | [] => []
    | c :: l => [Py.join " " (c :: l)]
    end.
Proof.
  unfold compiled_addresses.
  rewrite block_grows.
  - cbn [app]. destruct (address_candidates t); reflexivity.
  - constructor.
  - unfold address_candidates. apply candidates_have_words. constructor.
Qed.

(** X16. All the lines of a page that look like an address, and the lines
    taken for their continuation, end up in one block, however far apart
    they stand: the second loop never closes a block, because every
    candidate line holds a word character.  The address list is what
    validation keeps of the pieces of that one block. *)
Theorem address_lines_form_one_block (t : string) :
  compiled_addresses (address_candidates t)
  = match address_candidates t with
    | [] => []
    | c :: l => [Py.join " " (c :: l)]
    end
  /\ address (extract_contacts_from_markdown t)
     = match address_candidates t with
       | [] => []
       | c :: l =>
           Py.fromkeys
             (filter valid_part
                (map Py.strip (split wide_gap (Py.join " " (c :: l)))))
       end.
Proof.
  split; [apply extracted_one_block|].
  destruct t as [|a t]; [reflexivity|].
  cbn [extract_contacts_from_markdown address].
  rewrite extracted_one_block.
  destruct (address_candidates (String a t)); [reflexivity|].
  unfold final_addresses. cbn [flat_map]. now rewrite app_nil_r.
Qed.

Lemma lstrip_sublist (P : ascii -> Prop) (l : list ascii) :
  Forall P l -> Forall P (Py.lstrip_chars l).
Proof.
  induction 1 as [|c t H F IH]; cbn [Py.lstrip_chars]; [constructor|].
  destruct (Py.isspace c); [exact IH | now constructor].
Qed.

Lemma strip_sublist (P : ascii -> Prop) (s : string) :
  Forall P (Py.chars s) -> Forall P (Py.chars (Py.strip s)).
Proof.
  intros F. unfold Py.strip, Py.chars, Py.str.
  rewrite list_ascii_of_string_of_list_ascii.
  apply Forall_rev, lstrip_sublist, Forall_rev, lstrip_sublist. exact F.
Qed.

(** The hotline sentence has no link, and yields no number. *)
Lemma no_link_no_phone_witness :
  emergency_phone
    (extract_contacts_from_markdown "Emergency Hotline: (800) 555-0123") = []
  /\ phone
       (extract_contacts_from_markdown "Emergency Hotline: (800) 555-0123")
     = [].
Proof.
  apply (MatcherProperties.no_link_no_phone
           "Emergency Hotline: (800) 555-0123").
  reflexivity.
Defined.

End ExtractorInvariants.

(* ================================================================== *)
(** ** The rescue handler without an inference service *)

Module RescueDegradedProperties.
Import Value Dynamic Spec Behaviour RescueAgent.

Lemma crawl_is_plain (s : ResourceAgent.services) (u : string) :
  ResourceAgent.chat s = None ->
  plain (ResourceAgent.crawl_and_extract_contacts_HYBRID s u).
Proof.
  intros C. unfold ResourceAgent.crawl_and_extract_contacts_HYBRID.
  destruct (ResourceAgent.crawl s) as [arun|]; [|left; eexists; reflexivity].
  destruct (arun u) as [[[|a m]|]|e]; try (left; eexists; reflexivity).
  rewrite C. right. eexists.
  destruct (ResourceAgent.phone _); [|reflexivity].
  destruct (ResourceAgent.email _); [|reflexivity].
  destruct (ResourceAgent.emergency_phone _); reflexivity.
Qed.

Lemma set_keeps (P : value -> Prop) (d : dict) (k : string) (v : value) :
  Forall (fun kv => P (snd kv)) d -> P v ->
  Forall (fun kv => P (snd kv)) (set d k v).
Proof.
  intros F V. induction F as [|[a x] d H F IH]; cbn [set].
  - constructor; [exact V | constructor].
  - destruct (String.eqb k a); constructor; try assumption.
Qed.

Lemma batch_is_plain (s : ResourceAgent.services) (urls : list string) :
  ResourceAgent.chat s = None ->
  Forall (fun kv => plain (snd kv)) (ResourceAgent.run s urls).
Proof.
  intros C. unfold ResourceAgent.run,
    ResourceAgent.crawl_and_extract_contacts_all_urls.
  assert (G : forall acc,
             Forall (fun kv => plain (snd kv)) acc ->
             Forall (fun kv => plain (snd kv))
               (fold_left (fun a x => set a x
                  (ResourceAgent.crawl_and_extract_contacts_HYBRID s x))
                  urls acc)).
  { induction urls as [|u urls IH]; intros acc F; cbn [fold_left];
      [exact F|].
    apply IH. apply set_keeps; [exact F | now apply crawl_is_plain]. }
  apply G. constructor.
Qed.

Lemma tagged_all (kind : string) (l : list string) :
  Forall tagged_text (map (tagged kind) (map VStr l)).
Proof.
  induction l as [|x l IH]; cbn [map]; constructor; [|exact IH].
  now exists kind, x.
Qed.

Lemma aid_entries_of_contacts (c : ResourceAgent.contacts) :
  aid_entries (ResourceAgent.contacts_value c)
  = Ok (map (tagged "emergency_phone")
            (map VStr (ResourceAgent.emergency_phone c))
        ++ map (tagged "phone") (map VStr (ResourceAgent.phone c))
        ++ map (tagged "email")
               (firstn 2 (map VStr (ResourceAgent.email c)))).
Proof.
  destruct c as [ph em ml ad]. cbn [ResourceAgent.emergency_phone
    ResourceAgent.phone ResourceAgent.email].
  destruct em, ph, ml; reflexivity.
Qed.

Lemma firstn_all (A : Type) (P : A -> Prop) (n : nat) (l : list A) :
  Forall P l -> Forall P (firstn n l).
Proof.
  intros F. revert n. induction F as [|x l H F IH]; intros [|n];
    cbn [firstn]; constructor; auto.
Qed.

(** [each] on items that all behave. *)
Lemma each_all (A B : Type) (P : A -> Prop) (Q : B -> Prop)
  (f : A -> outcome (list B)) (xs : list A) :
  (forall x, P x -> exists l, f x = Ok l /\ Forall Q l) ->
  Forall P xs -> exists l, each f xs = Ok l /\ Forall Q l.
Proof.
  intros H F. induction F as [|x xs Hx F IH]; cbn [each].
  - exists []. split; [reflexivity | constructor].
  - destruct (H x Hx) as [a [-> Fa]]. destruct IH as [b [-> Fb]].
    cbn [bind]. exists (a ++ b). split; [reflexivity|].
    apply Forall_app. now split.
Qed.

Section Degraded.
Variable w : world.

Lemma sources_of_plain (web_results : list ResourceAgent.web_result)
  (uc : string * value) :
  plain (snd uc) ->
  exists l,
    (let (url, contacts) := uc in
     failed <- py_in "error" contacts ;;
     if failed then Ok []
     else
       entries <- aid_entries contacts ;;
       match entries with
       | [] => Ok []
       | _ :: _ => Ok [VDict [("name", VStr (source_title web_results url));
                              ("contacts", VList entries)]]
       end) = Ok l
    /\ Forall listed_source l.
Proof.
  destruct uc as [u v]. cbn [snd]. intros [[m ->]|[c ->]].
  - exists []. split; [reflexivity | constructor].
  - cbv zeta. change (py_in "error" (ResourceAgent.contacts_value c))
      with (@Ok bool false). cbn [bind].
    rewrite aid_entries_of_contacts. cbn [bind].
    match goal with
    | |- context [match ?e with [] => _ | _ :: _ => _ end] =>
        assert (T : Forall tagged_text e)
    end.
    { apply Forall_app. split; [apply tagged_all|].
      apply Forall_app. split; [apply tagged_all|].
      rewrite <- firstn_map. apply firstn_all, tagged_all. }
    destruct (_ ++ _) as [|e es].
    + exists []. split; [reflexivity | constructor].
    + eexists. split; [reflexivity|]. constructor; [|constructor].
      eexists. eexists. split; [reflexivity | exact T].
Qed.

Lemma contact_lines_text (e : value) :
  tagged_text e ->
  exists l, contact_lines w e = Ok l /\ Forall is_text l.
Proof.
  intros [kind [x ->]]. eexists. split; [reflexivity|].
  constructor; [|constructor]. eexists. reflexivity.
Qed.

Lemma source_lines_text (s : value) :
  listed_source s ->
  exists l, source_lines w s = Ok l /\ Forall is_text l.
Proof.
  intros [name [entries [-> F]]]. unfold source_lines.
  cbn [attr_get get_or get String.eqb Ascii.eqb Bool.eqb bind iterate].
  destruct (each_all _ _ _ _ (contact_lines w) entries contact_lines_text F)
    as [lines [-> L]].
  cbn [bind]. eexists. split; [reflexivity|].
  constructor; [eexists; reflexivity | exact L].
Qed.

Lemma join_values_text (sep : string) (l : list value) :
  Forall is_text l -> forall i, exists s, join_values sep i l = Ok s.
Proof.
  induction 1 as [|x l [s ->] F IH]; intros i; cbn [join_values].
  - eexists. reflexivity.
  - destruct l as [|y l]; [eexists; reflexivity|].
    destruct (IH (S i)) as [r ->]. cbn [bind]. eexists. reflexivity.
Qed.

Lemma fallback_brief_of_plain (location_data contact_info_by_url : dict)
  (web_results : list ResourceAgent.web_result) (crisis : string) :
  get location_data "crisis_type" = Some (VStr crisis) ->
  Forall (fun kv => plain (snd kv)) contact_info_by_url ->
  exists warning aid,
    fallback_brief w location_data contact_info_by_url web_results
    = Ok (VDict [("safety_warning", VStr warning);
                 ("recommended_shelter", VStr recommended_shelter);
                 ("contactable_aid", VList aid)])
    /\ Forall listed_source aid.
Proof.
  intros K F. unfold fallback_brief.
  unfold get_or at 1. rewrite K. cbn [str_lower bind].
  destruct (each_all _ _ (fun uc => plain (snd uc)) listed_source _
              contact_info_by_url (sources_of_plain web_results) F)
    as [aid [E A]].
  rewrite E. cbn [bind]. eexists. exists aid. split; [reflexivity | exact A].
Qed.

End Degraded.

Lemma not_provided (query_info : option dict) :
  given_location query_info = None ->
  match query_info with
  | Some (kv :: d) => truthy (get_or (kv :: d) "location" VNone)
  | _ => false
  end = false.
Proof.
  destruct query_info as [[|kv d]|]; try reflexivity.
  unfold given_location. destruct (truthy _); [discriminate | reflexivity].
Qed.

(** X18. Without an inference service (no client for the rescue agent,
    no chat client for the crawl) and without a provided location, the
    rescue handler answers every query, whatever the search and the
    crawler return: a record of type [rescue_information] for the
    location of its keyword table, marked as an emergency of high
    urgency. *)
Theorem rescue_handler_answers_without_inference (w : world)
  (query : string) (query_info : option dict) :
  client w = false ->
  ResourceAgent.chat (services w) = None ->
  given_location query_info = None ->
  exists d text,
    run w query query_info = Ok (VDict d)
    /\ get d "info_type" = Some (VStr "rescue_information")
    /\ get d "location"
       = Some (VStr (fst (keyword_location (Py.lower query))))
    /\ get d "is_emergency" = Some (VBool true)
    /\ get d "urgency_level" = Some (VStr "high")
    /\ get d "response" = Some (VStr text).
Proof.
  intros C S G. unfold run. rewrite (not_provided query_info G).
  unfold extract_coordinates_from_query. rewrite C. cbn [bind].
  unfold keyword_coordinates. cbv zeta.
  destruct (keyword_location (Py.lower query)) as [name [lat lon]].
  cbn [fst]. unfold respond.
  cbn [subscript get String.eqb Ascii.eqb Bool.eqb bind].
  unfold generate_triage_brief. rewrite C.
  match goal with
  | |- context [fallback_brief w ?ld ?c ?r] =>
      destruct (fallback_brief_of_plain w ld c r
                  (keyword_crisis (Py.lower query)) eq_refl
                  (batch_is_plain (services w) _ S))
        as [warning [aid [E A]]]
  end.
  rewrite E.
  cbn [bind attr_get get_or get String.eqb Ascii.eqb Bool.eqb].
  assert (P : exists part,
             (if truthy (VList aid)
              then sources <- iterate (VList aid) ;;
                   each (source_lines w) sources
              else Ok [VStr "No specific contact information available."])
             = Ok part /\ Forall is_text part).
  { destruct aid as [|s0 aid]; cbn [truthy iterate bind].
    - eexists. split; [reflexivity|].
      constructor; [eexists; reflexivity | constructor].
    - exact (each_all _ _ _ _ (source_lines w) (s0 :: aid)
               (source_lines_text w) A). }
  destruct P as [part [-> T]]. cbn [bind].
  match goal with
  | |- context [join_values Py.nl 0 ?l] =>
      destruct (join_values_text Py.nl l) with (i := 0) as [text J]
  end.
  { repeat (constructor; [eexists; reflexivity|]).
    apply Forall_app. split; [exact T|].
    constructor; [eexists; reflexivity | constructor]. }
  rewrite J. cbn [bind].
  eexists. exists text. split; [reflexivity|]. repeat split.
Qed.

Lemma rescue_handler_answers_without_inference_witness :
  exists d text,
    run Scenario.rescue_down "the river is flooding in Punjab" None
    = Ok (VDict d)
    /\ get d "info_type" = Some (VStr "rescue_information")
    /\ get d "location"
       = Some (VStr (fst (keyword_location
                            (Py.lower "the river is flooding in Punjab"))))
    /\ get d "is_emergency" = Some (VBool true)
    /\ get d "urgency_level" = Some (VStr "high")
    /\ get d "response" = Some (VStr text).
Proof.
  apply (rescue_handler_answers_without_inference Scenario.rescue_down
           "the river is flooding in Punjab" None); reflexivity.
Defined.

Lemma contains_app_r (a b sub : string) :
  Py.contains b sub = true -> Py.contains (a ++ b) sub = true.
Proof.
  intros H. induction a as [|x a IH]; cbn [append]; [exact H|].
  cbn [Py.contains]. rewrite IH. apply orb_true_r.
Qed.

(** A simulated reply to a prompt that names a location is replaced by
    the name of a place, which holds no object. *)
Lemma simulated_answer (w : world) (prompt : string) :
  simulated w ->
  Py.contains (Py.lower prompt) "location" = true ->
  ask_ai w prompt = Ok (Some "Punjab, India").
Proof.
  intros S L. unfold ask_ai. destruct (S prompt) as [r [-> [N P]]].
  cbn [bind]. rewrite N, P. cbn [andb]. now rewrite L.
Qed.

Lemma simulated_coordinates (w : world) (query : string) :
  simulated w ->
  extract_coordinates_from_query w query = Ok (keyword_coordinates query).
Proof.
  intros S. unfold extract_coordinates_from_query.
  destruct (client w); [|reflexivity].
  rewrite (simulated_answer w _ S).
  - reflexivity.
  - rewrite OrchestratorProperties.lower_app.
    now apply OrchestratorProperties.contains_app.
Qed.

Lemma simulated_brief (w : world) (query : string) (location_data : dict)
  (lat lon : value) (contact_info_by_url : dict)
  (web_results : list ResourceAgent.web_result) :
  simulated w ->
  generate_triage_brief w query location_data (get_weather_alerts lat lon)
    (get_nasa_firms_data lat lon) contact_info_by_url web_results
  = fallback_brief w location_data contact_info_by_url web_results.
Proof.
  intros S. unfold generate_triage_brief.
  destruct (client w); [|reflexivity].
  cbn [verified_data get_weather_alerts get_nasa_firms_data get_or get
       String.eqb Ascii.eqb Bool.eqb truthy bind append].
  rewrite (simulated_answer w _ S).
  - reflexivity.
  - rewrite !OrchestratorProperties.lower_app.
    apply contains_app_r, contains_app_r.
    now apply OrchestratorProperties.contains_app.
Qed.

(** X23. When every reply of the inference helper is a simulated
    response, the rescue handler discards them all: both of its prompts
    name a location, so each reply is replaced by the name of a place,
    in which no object is found, and [run] returns what it returns
    without a client. *)
Theorem simulated_replies_are_discarded (w : world) (query : string)
  (query_info : option dict) :
  simulated w ->
  run w query query_info = run (without_client w) query query_info.
Proof.
  intros S. unfold run. cbv zeta.
  rewrite (simulated_coordinates w query S).
  change (extract_coordinates_from_query (without_client w) query)
    with (@Ok dict (keyword_coordinates query)).
  match goal with
  | |- bind ?x _ = _ => destruct x as [location_data|e]
  end; [|reflexivity].
  cbn [bind]. unfold respond.
  destruct (subscript (VDict location_data) "location_name") as [name|e];
    [|reflexivity].
  destruct (subscript (VDict location_data) "latitude") as [lat|e];
    [|reflexivity].
  destruct (subscript (VDict location_data) "longitude") as [lon|e];
    [|reflexivity].
  cbn [bind]. cbv zeta.
  rewrite (simulated_brief w query location_data lat lon _ _ S).
  reflexivity.
Qed.

Lemma simulated_replies_are_discarded_witness :
  run rescue_simulated "the river is flooding in Punjab" None
  = run (without_client rescue_simulated) "the river is flooding in Punjab"
        None.
Proof.
  apply (simulated_replies_are_discarded rescue_simulated
           "the river is flooding in Punjab" None).
  intros prompt. eexists. split; [reflexivity|]. split; reflexivity.
Defined.

End RescueDegradedProperties.

(* ================================================================== *)
(** ** Replies that wrap their object in prose *)

Module ReplyProperties.
Import Value Orchestrator Spec Behaviour.

Lemma no_char (c : ascii) (s : string) :
  Py.contains s (String c EmptyString) = false ->
  Forall (fun x => x <> c) (Py.chars s).
Proof.
  induction s as [|x s IH]; cbn [Py.contains Py.chars list_ascii_of_string];
    intros H; [constructor|].
  apply orb_false_iff in H. destruct H as [P C].
  constructor; [|now apply IH].
  intros ->. cbn in P. destruct (ascii_dec c c); [|contradiction].
  destruct s; discriminate.
Qed.

Lemma find_char_app (c : ascii) (a b : string) :
  Forall (fun x => x <> c) (Py.chars a) ->
  ResourceAgent.find_char c (a ++ String c b) = Some (String.length a).
Proof.
  induction a as [|x a IH]; cbn; intros F.
  - now rewrite Ascii.eqb_refl.
  - inversion F as [|? ? N F']; subst.
    apply Ascii.eqb_neq in N. rewrite N.
    now rewrite (IH F').
Qed.

Lemma rfind_char_none (c : ascii) (b : string) :
  Forall (fun x => x <> c) (Py.chars b) -> ResourceAgent.rfind_char c b = None.
Proof.
  induction b as [|x b IH]; cbn; intros F; [reflexivity|].
  inversion F as [|? ? N F']; subst.
  rewrite (IH F'). apply Ascii.eqb_neq in N. now rewrite N.
Qed.

Lemma rfind_char_app (c : ascii) (a b : string) :
  Forall (fun x => x <> c) (Py.chars b) ->
  ResourceAgent.rfind_char c (a ++ String c b) = Some (String.length a).
Proof.
  intros F. induction a as [|x a IH]; cbn.
  - rewrite (rfind_char_none c b F). now rewrite Ascii.eqb_refl.
  - cbn in IH. now rewrite IH.
Qed.

Lemma substring_head (m b : string) :
  String.substring 0 (String.length m) (m ++ b) = m.
Proof.
  induction m as [|x m IH]; cbn.
  - destruct b; reflexivity.
  - now rewrite IH.
Qed.

Lemma substring_middle (a m b : string) :
  String.substring (String.length a) (String.length m) (a ++ m ++ b) = m.
Proof.
  induction a as [|x a IH]; cbn; [apply substring_head | exact IH].
Qed.

Lemma length_app (a b : string) :
  String.length (a ++ b) = String.length a + String.length b.
Proof. induction a as [|x a IH]; cbn; [reflexivity | now rewrite IH]. Qed.

Lemma app_assoc_string (a b c : string) :
  ((a ++ b) ++ c = a ++ (b ++ c))%string.
Proof. induction a as [|x a IH]; cbn; [reflexivity | now rewrite IH]. Qed.

(** The text from the first opening brace to the last closing brace. *)
Lemma braces_found (loads : string -> option value) (pre mid post : string) :
  Py.contains pre "{" = false ->
  Py.contains post "}" = false ->
  ResourceAgent.extract_json_from_string loads
    (pre ++ "{" ++ mid ++ "}" ++ post)
  = match loads ("{" ++ mid ++ "}")%string with
    | Some v => v
    | None => VNone
    end.
Proof.
  intros P Q. apply no_char in P. apply no_char in Q.
  unfold ResourceAgent.extract_json_from_string.
  assert (T : exists x t, (pre ++ "{" ++ mid ++ "}" ++ post)%string
                          = String x t)
    by (destruct pre; eexists; eexists; reflexivity).
  destruct T as [x [t T]].
  assert (F : ResourceAgent.find_char "{" (pre ++ "{" ++ mid ++ "}" ++ post)
              = Some (String.length pre))
    by (apply (find_char_app "{" pre (mid ++ "}" ++ post) P)).
  assert (R : ResourceAgent.rfind_char "}" (pre ++ "{" ++ mid ++ "}" ++ post)
              = Some (String.length pre + S (String.length mid))).
  { replace (pre ++ "{" ++ mid ++ "}" ++ post)%string
      with ((pre ++ "{" ++ mid) ++ String "}" post)%string.
    - rewrite (rfind_char_app "}" _ post Q).
      rewrite length_app. reflexivity.
    - rewrite app_assoc_string. reflexivity. }
  rewrite T in *. rewrite F, R.
  replace (String.length pre + S (String.length mid) + 1 - String.length pre)
    with (String.length ("{" ++ mid ++ "}")%string)
    by (cbn; rewrite length_app; cbn; lia).
  rewrite <- T.
  replace (pre ++ "{" ++ mid ++ "}" ++ post)%string
    with (pre ++ ("{" ++ mid ++ "}") ++ post)%string
    by (cbn [append]; rewrite app_assoc_string; reflexivity).
  now rewrite substring_middle.
Qed.

(** X19. [extract_json_from_string] recovers an object from the prose
    around it: when no opening brace stands before the object and no
    closing brace after it, the result is what [json.loads] reads from the
    object's text alone ([None] when that does not parse). *)
Theorem embedded_object_is_recovered (loads : string -> option value)
  (pre mid post : string) :
  Py.contains pre "{" = false ->
  Py.contains post "}" = false ->
  ResourceAgent.extract_json_from_string loads
    (pre ++ "{" ++ mid ++ "}" ++ post)
  = match loads ("{" ++ mid ++ "}")%string with
    | Some v => v
    | None => VNone
    end
  /\ (loads ("{" ++ mid ++ "}")%string = None ->
      ResourceAgent.extract_json_from_string loads
        (pre ++ "{" ++ mid ++ "}" ++ post) = VNone).
Proof.
  intros P Q. rewrite (braces_found loads pre mid post P Q).
  split; [reflexivity|]. now intros ->.
Qed.

Lemma embedded_object_is_recovered_witness :
  ResourceAgent.extract_json_from_string Json.loads
    ("Sure, here it is: " ++ "{" ++ Py.qq "`location`: `Paris`" ++ "}"
     ++ " I hope this helps.")
  = match Json.loads ("{" ++ Py.qq "`location`: `Paris`" ++ "}")%string with
    | Some v => v
    | None => VNone
    end
  /\ (Json.loads ("{" ++ Py.qq "`location`: `Paris`" ++ "}")%string = None ->
      ResourceAgent.extract_json_from_string Json.loads
        ("Sure, here it is: " ++ "{" ++ Py.qq "`location`: `Paris`" ++ "}"
         ++ " I hope this helps.") = VNone).
Proof.
  apply (embedded_object_is_recovered Json.loads "Sure, here it is: "
           (Py.qq "`location`: `Paris`") " I hope this helps.");
    reflexivity.
Defined.

Lemma process_prompt_names_JSON (query : string) :
  Py.contains (process_prompt query) "JSON" = true.
Proof.
  unfold process_prompt. now apply OrchestratorProperties.contains_app.
Qed.

(** X20. A reply to the analysis prompt that wraps its object in prose
    (text before it, hence not starting with a brace) is analysed as the
    object alone, provided [json.loads] reads back what [json.dumps]
    writes for it: [process_query] returns the stamped object, or the
    local analysis when stamping it fails. *)
Theorem wrapped_reply_is_analysed_as_its_object (w : env) (query : string)
  (pre mid post : string) (v : value) :
  call_cerebras_api w (process_prompt query)
  = Ok (Some (pre ++ "{" ++ mid ++ "}" ++ post)%string) ->
  Py.startswith (Py.strip (pre ++ "{" ++ mid ++ "}" ++ post)) "{" = false ->
  Py.contains pre "{" = false ->
  Py.contains post "}" = false ->
  json_loads w ("{" ++ mid ++ "}")%string = Some v ->
  truthy v = true ->
  json_loads w (json_dumps w v) = Some v ->
  cerebras_llama_call w (process_prompt query) = json_dumps w v
  /\ process_query w query
     = match annotate w query v with
       | Ok d => Ok d
       | Raise _ => Ok (orchestrator_local_process_query query)
       end.
Proof.
  intros A S P Q L T D.
  assert (C : cerebras_llama_call w (process_prompt query) = json_dumps w v).
  { unfold cerebras_llama_call. rewrite process_prompt_names_JSON.
    cbn [negb andb]. rewrite A, S. cbn [negb].
    unfold extract_json_from_string.
    rewrite (braces_found (json_loads w) pre mid post P Q), L, T.
    reflexivity. }
  split; [exact C|]. unfold process_query. rewrite C, D. reflexivity.
Qed.

Lemma wrapped_reply_is_analysed_as_its_object_witness :
  cerebras_llama_call chatty (process_prompt "flood")
  = json_dumps chatty
      (VDict [("location", VStr "Paris"); ("location_confidence", VInt 1)])
  /\ process_query chatty "flood"
     = match annotate chatty "flood"
               (VDict [("location", VStr "Paris");
                       ("location_confidence", VInt 1)]) with
       | Ok d => Ok d
       | Raise _ => Ok (orchestrator_local_process_query "flood")
       end.
Proof.
  apply (wrapped_reply_is_analysed_as_its_object chatty "flood"
           "Sure, here it is: "
           (Py.qq "`location`: `Paris`, `location_confidence`: 1")
           " I hope this helps.");
    vm_compute; reflexivity.
Defined.

End ReplyProperties.

(* ================================================================== *)
(** ** The enhanced resource agent *)

Module EnhancedProperties.
Import Value Dynamic Spec Behaviour EnhancedResourceAgent.

Lemma fold_set_keeps (P : value -> Prop) (f : string -> value)
  (urls : list string) :
  (forall u, P (f u)) ->
  forall acc,
    Forall (fun kv => P (snd kv)) acc ->
    Forall (fun kv => P (snd kv))
           (fold_left (fun a x => set a x (f x)) urls acc).
Proof.
  intros H. induction urls as [|u urls IH]; intros acc F; cbn [fold_left];
    [exact F|].
  apply IH. apply RescueDegradedProperties.set_keeps; [exact F | apply H].
Qed.

Lemma enhanced_crawl_result (s : services) (u : string) :
  failed_or_found (crawl_and_extract_contacts_HYBRID s u).
Proof.
  unfold crawl_and_extract_contacts_HYBRID.
  destruct (negb (CRAWL_AVAILABLE s));
    [left; eexists; split; reflexivity|].
  destruct (arun s u) as [[[|a m]|]|e];
    try (left; eexists; split; reflexivity).
  - right. eexists. reflexivity.
  - destruct (Py.contains _ _); left; eexists; split; reflexivity.
Qed.

Lemma section_of_result (s : services) (entry : string * value) :
  failed_or_found (snd entry) ->
  exists lines, section_for s entry = Ok lines /\ Forall (fun _ => True) lines.
Proof.
  destruct entry as [u v]. cbn [snd]. intros [[d [-> E]]|[c ->]].
  - exists []. unfold section_for. cbn [py_in bind]. rewrite E.
    split; [reflexivity | constructor].
  - destruct c as [ph em ml ad].
    destruct ph, em, ml, ad; eexists;
      (split; [reflexivity | apply Forall_forall; trivial]).
Qed.

Lemma failed_sections (s : services) (all : dict) :
  Forall (fun kv => exists d, snd kv = VDict d /\ has_key d "error" = true) all ->
  each (section_for s) all = Ok [].
Proof.
  induction 1 as [|[u v] all [d [E K]] F IH]; cbn [each]; [reflexivity|].
  cbn [snd] in E. subst v. unfold section_for at 1. cbn [py_in bind].
  rewrite K, IH. reflexivity.
Qed.

(** X22. The enhanced agent's [run] answers the user with a text for
    every query and every list of URLs, whatever the search and the
    crawler do; the text opens with the opening line; and when the crawler
    package is missing the text is the sentence that no contact
    information was found: the example contacts of the placeholder
    records are never shown, since those records carry an [error] key. *)
Theorem enhanced_run_always_answers (s : services)
  (query_or_urls : string + list string) :
  exists text,
    run s query_or_urls false = Ok (VStr text)
    /\ Py.startswith text ResourceHandler.opening = true
    /\ (CRAWL_AVAILABLE s = false ->
        text = Py.join Py.nl [ResourceHandler.opening;
                              ResourceHandler.no_contacts]).
Proof.
  unfold run. cbv zeta.
  set (urls := match query_or_urls with
               | inl query => urls_of_query s query
               | inr urls => urls
               end).
  set (all := fold_left
                (fun acc url => set acc url
                                    (crawl_and_extract_contacts_HYBRID s url))
                urls []).
  assert (F : Forall (fun kv => failed_or_found (snd kv)) all).
  { apply fold_set_keeps; [apply enhanced_crawl_result | constructor]. }
  destruct (RescueDegradedProperties.each_all _ _ _ _ (section_for s) all
              (section_of_result s) F) as [sections [E _]].
  rewrite E. cbn [bind].
  exists (Py.join Py.nl
            match sections with
            | [] => [ResourceHandler.opening; ResourceHandler.no_contacts]
            | _ :: _ => ResourceHandler.opening :: sections
            end).
  split; [reflexivity|]. split.
  - destruct sections as [|x l]; unfold Py.startswith;
      exact (RoutingProperties.prefix_self ResourceHandler.opening _).
  - intros C.
    assert (G : Forall (fun kv => exists d, snd kv = VDict d
                                            /\ has_key d "error" = true) all).
    { apply (fold_set_keeps
               (fun v => exists d, v = VDict d /\ has_key d "error" = true));
        [|constructor].
      intros u. unfold crawl_and_extract_contacts_HYBRID. rewrite C.
      eexists. split; reflexivity. }
    rewrite (failed_sections s all G) in E. injection E as <-. reflexivity.
Qed.

End EnhancedProperties.

(* ================================================================== *)
(** ** What a match and its groups hold *)

Module MatchContents.
Import ResourceAgent Spec CharClass Re.

Lemma span_refl (z : cursor) : span z z [].
Proof. split; reflexivity. Qed.

Lemma span_trans (z z1 z2 : cursor) (p1 p2 : list ascii) :
  span z z1 p1 -> span z1 z2 p2 -> span z z2 (p1 ++ p2).
Proof.
  intros [A B] [C D]. split.
  - rewrite A, C. now rewrite app_assoc.
  - rewrite D, B, rev_app_distr. now rewrite app_assoc.
Qed.

Lemma span_consumed (z z' : cursor) (pre : list ascii) :
  span z z' pre -> consumed z z' = pre.
Proof.
  intros [_ B]. unfold consumed. rewrite B, length_app.
  replace (List.length (rev pre) + List.length (before z)
           - List.length (before z))
    with (List.length (rev pre) + 0) by lia.
  rewrite firstn_app_2. cbn [firstn]. rewrite app_nil_r.
  apply rev_involutive.
Qed.

Lemma reached_weaken (q d : ascii -> bool) (W G D W' G' D' : bool)
  (z : cursor) (g : caps) (k : cont) (res : cursor * caps) :
  (W' = true -> W = true) -> (G' = true -> G = true) ->
  (D' = true -> D = true) ->
  reached q d W G D z g k res -> reached q d W' G' D' z g k res.
Proof.
  intros HW HG HD [z' [g' [pre [K [S [A [B C]]]]]]].
  exists z', g', pre. repeat split; try assumption; auto; apply S.
Qed.

Lemma rounds_reached (q d : ascii -> bool) (W G D : bool)
  (body : cursor -> caps -> cont -> answer)
  (greedy : bool) (lo : nat) (hi : option nat) (k : cont)
  (res : cursor * caps) :
  (forall z g k', body z g k' = Some res -> reached q d W G D z g k' res) ->
  forall fuel n z g,
    rounds body greedy lo hi k fuel n z g = Some res ->
    reached q d W G (D && (n <? lo)) z g k res.
Proof.
  intros B.
  assert (Stop : forall n z g,
             (if lo <=? n then k z g else None) = Some res ->
             reached q d W G (D && (n <? lo)) z g k res).
  { intros n z g S. destruct (lo <=? n) eqn:L; [|discriminate].
    exists z, g, []. split; [exact S|]. split; [apply span_refl|].
    split; [constructor|]. split; [trivial|].
    intros E. apply andb_true_iff in E. destruct E as [_ E].
    apply Nat.ltb_lt in E. apply Nat.leb_le in L. lia. }
  induction fuel as [|f IH]; intros n z g H; cbn [rounds] in H.
  - apply Stop.
    destruct greedy; apply MatcherProperties.or_else_cases in H;
      destruct H as [H|H]; try discriminate; exact H.
  - assert (S : (if lo <=? n then k z g else None) = Some res
                \/ (if under hi n
                    then body z g (fun z' g' =>
                           if List.length (after z') <? List.length (after z)
                           then rounds body greedy lo hi k f (S n) z' g'
                           else None)
                    else None) = Some res).
    { destruct greedy; apply MatcherProperties.or_else_cases in H;
        destruct H as [H|H]; [right | left | left | right]; exact H. }
    destruct S as [S|S]; [now apply Stop|].
    destruct (under hi n); [|discriminate].
    apply B in S. destruct S as [z1 [g1 [p1 [S [S1 [W1 [G1 D1]]]]]]].
    destruct (List.length (after z1) <? List.length (after z));
      [|discriminate].
    apply IH in S. destruct S as [z2 [g2 [p2 [S [S2 [W2 [G2 _]]]]]]].
    exists z2, g2, (p1 ++ p2). split; [exact S|].
    split; [eapply span_trans; eassumption|].
    split; [intros E; apply Forall_app; split; auto|].
    split; [auto|].
    intros E. apply andb_true_iff in E. destruct E as [E _].
    destruct (D1 E) as [x [I Q]]. exists x.
    split; [apply in_or_app; now left | exact Q].
Qed.

(** Every run calls its continuation where the consumed text ends; the
    text and the groups are in the classes the pattern stays within, and
    the text holds a character of the class the pattern demands. *)
Lemma run_reached (q d : ascii -> bool) (r : re) :
  forall z g k res,
    run r z g k = Some res ->
    reached q d (within q r) (groups_within q r) (demands d r) z g k res.
Proof.
  induction r as [|p|a IHa b IHb|a IHa b IHb|greedy lo hi a IHa|i a IHa| |
                  |a IHa|n a IHa];
    intros z g k res H; cbn [run] in H;
    cbn [within groups_within demands].
  - exists z, g, []. split; [exact H|]. split; [apply span_refl|].
    split; [constructor|]. split; [trivial | discriminate].
  - destruct z as [bf [|c t]]; cbn [after before] in H; [discriminate|].
    destruct (p c) eqn:P; [|discriminate].
    exists (Cursor (c :: bf) t), g, [c]. split; [exact H|].
    split; [split; reflexivity|].
    split; [intros E; constructor;
            [exact (ExtractorInvariants.included_sound p q E c P)
            | constructor]|].
    split; [trivial|].
    intros E. exists c. split; [now left|].
    exact (ExtractorInvariants.included_sound p d E c P).
  - apply IHa in H. destruct H as [z1 [g1 [p1 [H [S1 [W1 [G1 D1]]]]]]].
    apply IHb in H. destruct H as [z2 [g2 [p2 [H [S2 [W2 [G2 D2]]]]]]].
    exists z2, g2, (p1 ++ p2). split; [exact H|].
    split; [eapply span_trans; eassumption|].
    split; [intros E; apply andb_true_iff in E; destruct E;
            apply Forall_app; split; auto|].
    split; [intros E; apply andb_true_iff in E; destruct E; auto|].
    intros E. apply orb_true_iff in E. destruct E as [E|E].
    + destruct (D1 E) as [x [I Q]]. exists x.
      split; [apply in_or_app; now left | exact Q].
    + destruct (D2 E) as [x [I Q]]. exists x.
      split; [apply in_or_app; now right | exact Q].
  - apply MatcherProperties.or_else_cases in H. destruct H as [H|H].
    + apply IHa in H. revert H. apply reached_weaken;
        intros E; apply andb_true_iff in E; apply E.
    + apply IHb in H. revert H. apply reached_weaken;
        intros E; apply andb_true_iff in E; apply E.
  - apply (rounds_reached q d (within q a) (groups_within q a) (demands d a))
      in H; [|intros z0 g0 k0; apply IHa].
    revert H. apply reached_weaken; auto.
    intros E. apply andb_true_iff in E. destruct E as [L E].
    now rewrite E, L.
  - apply IHa in H. destruct H as [z1 [g1 [p1 [H [S1 [W1 [G1 D1]]]]]]].
    exists z1, ((i, consumed z z1) :: g1), p1. split; [exact H|].
    split; [exact S1|]. split; [exact W1|]. split; [|exact D1].
    intros E F. apply andb_true_iff in E. destruct E as [Ew Eg].
    constructor; [|now apply G1].
    cbn [snd]. rewrite (span_consumed z z1 p1 S1). now apply W1.
  - destruct (before z); [|discriminate].
    exists z, g, []. split; [exact H|]. split; [apply span_refl|].
    split; [constructor|]. split; [trivial | discriminate].
  - destruct (at_word_boundary z); [|discriminate].
    exists z, g, []. split; [exact H|]. split; [apply span_refl|].
    split; [constructor|]. split; [trivial | discriminate].
  - destruct (run a z g _); [discriminate|].
    exists z, g, []. split; [exact H|]. split; [apply span_refl|].
    split; [constructor|]. split; [trivial | discriminate].
  - assert (K : k z g = Some res).
    { destruct (List.length (before z) <? n); [exact H|].
      destruct (run a _ g _); [discriminate | exact H]. }
    exists z, g, []. split; [exact K|]. split; [apply span_refl|].
    split; [constructor|]. split; [trivial | discriminate].
Qed.

(** The same for a match: its text and its groups. *)
Lemma match_contents (q d : ascii -> bool) (r : re) (z : cursor) (h : hit) :
  match_at r z = Some h ->
  (within q r = true -> Forall (fun x => q x = true) (Py.chars (whole h)))
  /\ (groups_within q r = true -> groups_in q (groups h))
  /\ (demands d r = true ->
      exists x, In x (Py.chars (whole h)) /\ d x = true).
Proof.
  unfold match_at.
  destruct (run r z [] accept) as [[z' g']|] eqn:R; [|discriminate].
  intros [= <-]. apply (run_reached q d) in R.
  destruct R as [z1 [g1 [pre [A [S [W [G D]]]]]]].
  unfold accept in A. injection A as -> ->.
  unfold whole, Py.chars, Py.str. cbn [start stop groups].
  rewrite (span_consumed z z' pre S), list_ascii_of_string_of_list_ascii.
  split; [exact W|]. split; [|exact D].
  intros E. apply (G E). constructor.
Qed.

Lemma finditer_hits (r : re) (h : hit) :
  forall fuel prev rest,
    In h (finditer_from fuel r prev rest) ->
    exists z, match_at r z = Some h.
Proof.
  induction fuel as [|f IH]; intros prev rest; cbn [finditer_from];
    [intros []|].
  assert (Step : In h match rest with
                      | [] => []
                      | c :: t => finditer_from f r (c :: prev) t
                      end -> exists z, match_at r z = Some h).
  { destruct rest as [|c t]; [intros [] | apply IH]. }
  destruct (match_at r (Cursor prev rest)) as [h0|] eqn:M; [|exact Step].
  destruct (List.length (after (stop h0)) <? List.length rest);
    (intros [E|I]; [subst h0; now exists (Cursor prev rest)|]);
    [now apply IH in I | now apply Step].
Qed.

Lemma lookup_in (q : ascii -> bool) (i : nat) (g : caps) (s : list ascii) :
  groups_in q g -> lookup i g = Some s -> Forall (fun x => q x = true) s.
Proof.
  induction 1 as [|[j s0] g H F IH]; cbn [lookup]; [discriminate|].
  destruct (i =? j); [intros [= <-]; exact H | exact IH].
Qed.

Lemma remove_filters (q p : ascii -> bool) (s : string) :
  Forall (fun x => q x = true) (Py.chars s) ->
  Forall (fun x => q x && negb (p x) = true) (Py.chars (remove p s)).
Proof.
  induction s as [|c s IH]; cbn [remove Py.chars list_ascii_of_string];
    intros F; [constructor|].
  inversion F as [|? ? Q F']; subst.
  destruct (p c) eqn:P; [now apply IH|].
  cbn [Py.chars list_ascii_of_string]. constructor; [|now apply IH].
  now rewrite Q, P.
Qed.

(** The cleaned group of a match of a pattern whose groups stay within
    the class of a [tel:] link is made of digits and plus signs. *)
Lemma cleaned_group_is_dialable (r : re) (t : string) (h : hit) :
  groups_within tel_char r = true ->
  In h (finditer r t) ->
  Forall (fun c => dial_char c = true) (Py.chars (clean_phone (group 1 h))).
Proof.
  intros G I. unfold finditer in I. apply finditer_hits in I.
  destruct I as [z M].
  destruct (match_contents tel_char tel_char r z h M) as [_ [K _]].
  specialize (K G).
  assert (T : Forall (fun x => tel_char x = true) (Py.chars (group 1 h))).
  { unfold group. destruct (lookup 1 (groups h)) as [s|] eqn:L; [|constructor].
    unfold Py.chars, Py.str. rewrite list_ascii_of_string_of_list_ascii.
    exact (lookup_in tel_char 1 _ s K L). }
  unfold clean_phone. apply ExtractorInvariants.strip_sublist.
  eapply Forall_impl; [|apply (remove_filters tel_char _ _ T)].
  intros c. cbv beta.
  apply (ExtractorInvariants.included_sound
           (fun x => tel_char x && negb (separator x)) dial_char).
  vm_compute. reflexivity.
Qed.

(** X17. Every number in either phone list can be dialled as it stands:
    it holds at least seven digits and is made of digits and plus signs
    only. *)
Theorem extracted_phones_are_dialable (t p : string) :
  In p (emergency_phone (extract_contacts_from_markdown t))
  \/ In p (phone (extract_contacts_from_markdown t)) ->
  7 <= digit_count p
  /\ Forall (fun c => dial_char c = true) (Py.chars p).
Proof.
  destruct t as [|a t]; [intros [[]|[]]|].
  cbn [extract_contacts_from_markdown emergency_phone phone].
  intros [H|H]; apply (proj1 (FromKeys.fromkeys_In _ _)) in H;
    apply filter_In in H; destruct H as [M K];
    apply in_map_iff in M; destruct M as [m [<- M]];
    apply in_map_iff in M; destruct M as [h [<- I]].
  - split; [now apply Nat.leb_le|].
    apply (cleaned_group_is_dialable emergency_phone_pattern (String a t) h);
      [vm_compute; reflexivity | exact I].
  - apply andb_true_iff in K. destruct K as [K _].
    apply andb_true_iff in K. destruct K as [K _].
    split; [now apply Nat.leb_le|].
    apply (cleaned_group_is_dialable phone_pattern (String a t) h);
      [vm_compute; reflexivity | exact I].
Qed.

Lemma extracted_phones_are_dialable_witness :
  7 <= digit_count "+18005550199"
  /\ Forall (fun c => dial_char c = true) (Py.chars "+18005550199").
Proof.
  apply (extracted_phones_are_dialable "[Call](tel:+1 800 555 0199)"
           "+18005550199").
  left. vm_compute. left. reflexivity.
Defined.

(** X27. Every address in the email list is made of letters, digits and
    the characters . _ % + - @ only (so it holds no blank), and holds an
    at sign. *)
Theorem extracted_emails_are_well_formed (t e : string) :
  In e (email (extract_contacts_from_markdown t)) ->
  Forall (fun c => email_char c = true) (Py.chars e)
  /\ In "@"%char (Py.chars e).
Proof.
  destruct t as [|a t]; [intros []|].
  cbn [extract_contacts_from_markdown email].
  intros H. apply (proj1 (FromKeys.fromkeys_In _ _)) in H.
  unfold findall in H. apply in_map_iff in H. destruct H as [h [<- I]].
  unfold finditer in I. apply finditer_hits in I. destruct I as [z M].
  destruct (match_contents email_char (Ascii.eqb "@"%char) email_pattern z h M)
    as [W [_ D]].
  split; [apply W; vm_compute; reflexivity|].
  destruct D as [x [I E]]; [vm_compute; reflexivity|].
  apply Ascii.eqb_eq in E. now subst x.
Qed.

Lemma extracted_emails_are_well_formed_witness :
  Forall (fun c => email_char c = true) (Py.chars "help@relief.org")
  /\ In "@"%char (Py.chars "help@relief.org").
Proof.
  apply (extracted_emails_are_well_formed
           "Write to help@relief.org today." "help@relief.org").
  vm_compute. left. reflexivity.
Defined.

End MatchContents.
